(** * Expense tracker: analytics and query engine

    A shallow embedding of [services/analytics_service.py],
    [services/expenses_service.py] and [utils/dates.py].

    Modelling conventions.
    - The ledger (table [expenses]) is the list of its rows in rowid order.
      Columns declared [NOT NULL] ([id], [date], [amount], [category]) hold a
      value, the others hold [option]s ([None] is SQL [NULL]).
    - Text is a [string] of bytes; comparisons are bytewise, as under SQLite's
      default [BINARY] collation.
    - Amounts are exact rationals ([Q]): binary floating point error and
      overflow are not modelled, so every statement about sums, quotients and
      [round] is about the exact value.
    - Integers bound to SQL parameters are taken to fit SQLite's 64-bit
      range, except the [id] looked up by [edit_expense] and
      [delete_expense]: there the [OverflowError] that sqlite3 raises for an
      integer outside that range is modelled.
    - Library functions whose full behaviour is outside the repository
      (SQLite's [strftime], Python's [int] and [datetime.strptime]) are
      parameters of the model. *)

From Stdlib Require Import ZArith QArith Qround Qabs List String Ascii Bool Lia.
From Stdlib Require Import Permutation Sorted DecimalString Lqa.
Import ListNotations.

Set Implicit Arguments.

(** ** Python exceptions and the error monad *)

Inductive exn : Type :=
| ValueError
| TypeError
| KeyError
| IllegalMonthError
| ZeroDivisionError
| OverflowError.

Inductive result (A : Type) : Type :=
| Ok (a : A)
| Raise (e : exn).

Arguments Ok {A} a.
Arguments Raise {A} e.

Definition bind {A B : Type} (m : result A) (k : A -> result B) : result B :=
  match m with
  | Ok a => k a
  | Raise e => Raise e
  end.

Notation "x <- m ;; k" := (bind m (fun x => k))
  (at level 61, m at next level, right associativity).
Notation "' p <- m ;; k" := (bind m (fun p => k))
  (at level 61, p pattern, m at next level, right associativity).

Fixpoint mapM {A B : Type} (f : A -> result B) (l : list A) : result (list B) :=
  match l with
  | [] => Ok []
  | a :: l' => b <- f a ;; bs <- mapM f l' ;; Ok (b :: bs)
  end.

(** ** Python strings *)

Module Py.

Open Scope string_scope.

(** Truthiness of a [str]: the empty string is falsy. *)
Definition truthy (s : string) : bool := negb (s =? "").

(** Truthiness of an [Optional[str]]: [None] and [""] are falsy. *)
Definition opt_truthy (o : option string) : bool :=
  match o with
  | None => false
  | Some s => truthy s
  end.

(** [o or ""] *)
Definition or_empty (o : option string) : string :=
  match o with
  | None => ""
  | Some s => if truthy s then s else ""
  end.

Definition lower_ascii (c : ascii) : ascii :=
  let n := N_of_ascii c in
  if ((65 <=? n) && (n <=? 90))%N then ascii_of_N (n + 32) else c.

(** [s.lower()] on the ASCII range. *)
Fixpoint lower (s : string) : string :=
  match s with
  | EmptyString => EmptyString
  | String c s' => String (lower_ascii c) (lower s')
  end.

(** [needle in hay] *)
Fixpoint str_in (needle hay : string) : bool :=
  prefix needle hay ||
  match hay with
  | EmptyString => false
  | String _ hay' => str_in needle hay'
  end.

(** [x in [a, b, ...]] for strings *)
Fixpoint in_list (x : string) (l : list string) : bool :=
  match l with
  | [] => false
  | y :: l' => (x =? y) || in_list x l'
  end.

Fixpoint zeros (n : nat) : string :=
  match n with
  | O => ""
  | S n' => String "0" (zeros n')
  end.

(** [str(n)] for a non-negative integer *)
Definition digits (n : N) : string := NilZero.string_of_uint (N.to_uint n).

(** [f"{n}"] *)
Definition str_int (n : Z) : string :=
  ((if n <? 0 then "-" else "") ++ digits (Z.abs_N n))%Z.

(** [f"{n:0{w}d}"]: the sign comes first and counts towards the width. *)
Definition format_0d (w : nat) (n : Z) : string :=
  let sign := (if n <? 0 then "-" else "")%Z in
  let ds := digits (Z.abs_N n) in
  sign ++ zeros (w - String.length sign - String.length ds) ++ ds.

(** [s.split(sep)] for a one-character separator. *)
Fixpoint split (sep : ascii) (s : string) : list string :=
  match s with
  | EmptyString => [EmptyString]
  | String c s' =>
      if Ascii.eqb c sep then EmptyString :: split sep s'
      else match split sep s' with
           | [] => [String c EmptyString]
           | w :: ws => String c w :: ws
           end
  end.

End Py.

(** ** Money: exact amounts and [round(x, 2)] *)

Module Money.

Open Scope Q_scope.

Definition Qltb (a b : Q) : bool := negb (Qle_bool b a).

Lemma Qltb_lt a b : Qltb a b = true <-> a < b.
Proof.
  unfold Qltb. rewrite negb_true_iff. split; intro H.
  - apply Qnot_le_lt. intro Hle. apply Qle_bool_iff in Hle. congruence.
  - destruct (Qle_bool b a) eqn:E; [|reflexivity].
    apply Qle_bool_iff in E. exfalso. exact (Qlt_not_le _ _ H E).
Qed.

Lemma Qltb_false a b : Qltb a b = false <-> b <= a.
Proof.
  unfold Qltb. rewrite negb_false_iff. apply Qle_bool_iff.
Qed.

(** Round to the nearest integer, ties to the even one. *)
Definition round_half_even (x : Q) : Z :=
  let f := Qfloor x in
  match Qcompare (x - inject_Z f) (1 # 2) with
  | Lt => f
  | Gt => (f + 1)%Z
  | Eq => if Z.even f then f else (f + 1)%Z
  end.

(** Python's [round(x, 2)]. *)
Definition round2 (x : Q) : Q := round_half_even (x * 100) # 100.

(** A value with at most two decimal places. *)
Definition two_dp (x : Q) : Prop := exists k : Z, x == k # 100.

Definition two_dpb (x : Q) : bool := Qeq_bool (round2 x) x.

(** [x or 0] on a number. *)
Definition or0 (o : option Q) : Q :=
  match o with
  | None => 0
  | Some x => if Qeq_bool x 0 then 0 else x
  end.

(** Python's true division. *)
Definition div (a b : Q) : result Q :=
  if Qeq_bool b 0 then Raise ZeroDivisionError else Ok (a / b).

Fixpoint sum (l : list Q) : Q :=
  match l with
  | [] => 0
  | x :: l' => x + sum l'
  end.

(** *** Facts about rounding *)

Lemma floor_bounds (x : Q) :
  inject_Z (Qfloor x) <= x /\ x < inject_Z (Qfloor x) + 1.
Proof.
  split; [apply Qfloor_le|].
  pose proof (Qlt_floor x) as H. rewrite inject_Z_plus in H. exact H.
Qed.

Lemma round_half_even_cases (x : Q) :
  let f := Qfloor x in
  (round_half_even x = f /\ x - inject_Z f <= 1 # 2) \/
  (round_half_even x = (f + 1)%Z /\ 1 # 2 <= x - inject_Z f).
Proof.
  intro f. unfold round_half_even. fold f.
  destruct (Qcompare_spec (x - inject_Z f) (1 # 2)) as [E|L|G].
  - destruct (Z.even f); [left|right]; split; auto; rewrite E; apply Qle_refl.
  - left. split; auto. apply Qlt_le_weak; exact L.
  - right. split; auto. apply Qlt_le_weak; exact G.
Qed.

Lemma round_half_even_err (x : Q) :
  Qabs (inject_Z (round_half_even x) - x) <= 1 # 2.
Proof.
  destruct (floor_bounds x) as [Hlo Hhi].
  apply Qabs_Qle_condition.
  destruct (round_half_even_cases x) as [[-> H]|[-> H]];
    rewrite ?inject_Z_plus; change (inject_Z 1) with 1; split; lra.
Qed.

Lemma floor_lt_iff (x : Q) (n : Z) : inject_Z n <= x -> (n <= Qfloor x)%Z.
Proof.
  intro H. rewrite <- (Qfloor_Z n). apply Qfloor_resp_le. exact H.
Qed.

Lemma round_half_even_mono (x y : Q) :
  x <= y -> (round_half_even x <= round_half_even y)%Z.
Proof.
  intro Hxy.
  pose proof (Qfloor_resp_le _ _ Hxy) as Hf.
  destruct (Z.eq_dec (Qfloor x) (Qfloor y)) as [E|N].
  - unfold round_half_even. rewrite <- E.
    destruct (Qcompare_spec (x - inject_Z (Qfloor x)) (1 # 2)) as [Ex|Lx|Gx];
    destruct (Qcompare_spec (y - inject_Z (Qfloor x)) (1 # 2)) as [Ey|Ly|Gy];
      try lia; try (destruct (Z.even (Qfloor x)); lia);
      exfalso; lra.
  - assert (Hlt : (Qfloor x + 1 <= Qfloor y)%Z) by lia.
    destruct (round_half_even_cases x) as [[-> _]|[-> _]];
    destruct (round_half_even_cases y) as [[-> _]|[-> _]]; lia.
Qed.

Lemma Qmake_100_le (a b : Z) : (a <= b)%Z -> a # 100 <= b # 100.
Proof. intro H. unfold Qle. simpl. lia. Qed.

Lemma round2_mono (x y : Q) : x <= y -> round2 x <= round2 y.
Proof.
  intro H. unfold round2. apply Qmake_100_le, round_half_even_mono. lra.
Qed.

Lemma round_half_even_comp (x y : Q) :
  x == y -> round_half_even x = round_half_even y.
Proof.
  intro E. unfold round_half_even.
  rewrite (Qfloor_comp _ _ E).
  assert (E' : x - inject_Z (Qfloor y) == y - inject_Z (Qfloor y))
    by (rewrite E; reflexivity).
  rewrite (Qcompare_comp _ _ E' _ _ (Qeq_refl (1 # 2))). reflexivity.
Qed.

#[global] Instance round2_Proper : Proper (Qeq ==> Qeq) round2.
Proof.
  intros x y E. unfold round2.
  rewrite (round_half_even_comp (x := x * 100) (y := y * 100)).
  - reflexivity.
  - rewrite E. reflexivity.
Qed.

Lemma round2_two_dp (x : Q) : two_dp (round2 x).
Proof. exists (round_half_even (x * 100)). reflexivity. Qed.

Lemma Qmake_100 (k : Z) : k # 100 == inject_Z k / 100.
Proof. unfold Qeq, Qdiv, Qmult, Qinv, inject_Z. simpl. lia. Qed.

Lemma round2_err (x : Q) : Qabs (round2 x - x) <= 1 # 200.
Proof.
  pose proof (round_half_even_err (x * 100)) as H.
  apply Qabs_Qle_condition in H. destruct H as [H1 H2].
  apply Qabs_Qle_condition. unfold round2. rewrite Qmake_100.
  split.
  - apply Qmult_le_r with (z := 100); [reflexivity|].
    field_simplify. lra.
  - apply Qmult_le_r with (z := 100); [reflexivity|].
    field_simplify. lra.
Qed.

Lemma round_half_even_Z (k : Z) : round_half_even (inject_Z k) = k.
Proof.
  unfold round_half_even. rewrite Qfloor_Z.
  destruct (Qcompare_spec (inject_Z k - inject_Z k) (1 # 2)) as [E|L|G];
    try reflexivity; exfalso; lra.
Qed.

Lemma round2_0 : round2 0 == 0.
Proof. reflexivity. Qed.

(** Rounding a two-decimal value leaves it unchanged. *)
Lemma round2_idem (x : Q) : two_dp x -> round2 x == x.
Proof.
  intros [k Hk]. rewrite Hk at 2. unfold round2.
  rewrite (round_half_even_comp (x := x * 100) (y := inject_Z k)).
  - rewrite round_half_even_Z. reflexivity.
  - rewrite Hk, Qmake_100. field.
Qed.

Lemma two_dpb_spec (x : Q) : two_dpb x = true <-> two_dp x.
Proof.
  unfold two_dpb. rewrite Qeq_bool_iff. split.
  - intro E. destruct (round2_two_dp x) as [k Hk].
    exists k. rewrite <- E. exact Hk.
  - apply round2_idem.
Qed.

Lemma or0_eq (o : option Q) :
  or0 o == match o with None => 0 | Some x => x end.
Proof.
  destruct o as [x|]; simpl; [|reflexivity].
  destruct (Qeq_bool x 0) eqn:E; [|reflexivity].
  apply Qeq_bool_iff in E. symmetry. exact E.
Qed.

Lemma sum_app (l1 l2 : list Q) : sum (l1 ++ l2) == sum l1 + sum l2.
Proof.
  induction l1 as [|x l1 IH]; simpl; [lra|]. rewrite IH. lra.
Qed.

End Money.

(** ** Orders on grouping keys *)

Class TotalCmp {K : Type} (cmp : K -> K -> comparison) : Prop := {
  cmp_refl : forall a, cmp a a = Eq;
  cmp_eq : forall a b, cmp a b = Eq -> a = b;
  cmp_antisym : forall a b, cmp a b = CompOpp (cmp b a);
  cmp_lt_trans : forall a b c, cmp a b = Lt -> cmp b c = Lt -> cmp a c = Lt
}.

Lemma string_compare_refl (s : string) : String.compare s s = Eq.
Proof.
  induction s as [|c s IH]; simpl; [reflexivity|].
  unfold Ascii.compare. rewrite N.compare_refl. exact IH.
Qed.

Lemma string_compare_lt_trans (a b c : string) :
  String.compare a b = Lt -> String.compare b c = Lt -> String.compare a c = Lt.
Proof.
  revert b c. induction a as [|x a IH]; intros [|y b] [|z c]; simpl;
    try congruence.
  unfold Ascii.compare.
  destruct (N.compare_spec (N_of_ascii x) (N_of_ascii y)) as [E1|L1|G1];
    try congruence;
  destruct (N.compare_spec (N_of_ascii y) (N_of_ascii z)) as [E2|L2|G2];
    try congruence; intros H1 H2.
  - rewrite E1, E2, N.compare_refl. eauto.
  - rewrite E1. apply N.compare_lt_iff in L2. rewrite L2. reflexivity.
  - rewrite <- E2. apply N.compare_lt_iff in L1. rewrite L1. reflexivity.
  - assert (L : (N_of_ascii x < N_of_ascii z)%N) by lia.
    apply N.compare_lt_iff in L. rewrite L. reflexivity.
Qed.

#[global] Instance string_TotalCmp : TotalCmp String.compare.
Proof.
  split.
  - apply string_compare_refl.
  - apply String.compare_eq_iff.
  - apply String.compare_antisym.
  - apply string_compare_lt_trans.
Qed.

(** SQL [NULL] sorts before every value. *)
Definition option_compare {K : Type} (cmp : K -> K -> comparison)
  (a b : option K) : comparison :=
  match a, b with
  | None, None => Eq
  | None, Some _ => Lt
  | Some _, None => Gt
  | Some x, Some y => cmp x y
  end.

#[global] Instance option_TotalCmp {K : Type} (cmp : K -> K -> comparison)
  `{!TotalCmp cmp} : TotalCmp (option_compare cmp).
Proof.
  split.
  - intros [a|]; simpl; [apply cmp_refl|reflexivity].
  - intros [a|] [b|]; simpl; try congruence.
    intro H. f_equal. apply cmp_eq. exact H.
  - intros [a|] [b|]; simpl; try reflexivity. apply cmp_antisym.
  - intros [a|] [b|] [c|]; simpl; try congruence. apply cmp_lt_trans.
Qed.

Definition pair_compare {K1 K2 : Type} (cmp1 : K1 -> K1 -> comparison)
  (cmp2 : K2 -> K2 -> comparison) (a b : K1 * K2) : comparison :=
  match cmp1 (fst a) (fst b) with
  | Eq => cmp2 (snd a) (snd b)
  | c => c
  end.

#[global] Instance pair_TotalCmp {K1 K2 : Type} (cmp1 : K1 -> K1 -> comparison)
  (cmp2 : K2 -> K2 -> comparison) `{!TotalCmp cmp1} `{!TotalCmp cmp2} :
  TotalCmp (pair_compare cmp1 cmp2).
Proof.
  split; unfold pair_compare.
  - intros [a1 a2]; simpl. rewrite cmp_refl. apply cmp_refl.
  - intros [a1 a2] [b1 b2]; simpl.
    destruct (cmp1 a1 b1) eqn:E; try congruence.
    intro H. apply cmp_eq in E. apply cmp_eq in H. congruence.
  - intros [a1 a2] [b1 b2]; simpl.
    rewrite (cmp_antisym (cmp := cmp1) a1 b1).
    destruct (cmp1 b1 a1); simpl; try reflexivity. apply cmp_antisym.
  - intros [a1 a2] [b1 b2] [c1 c2]; simpl.
    destruct (cmp1 a1 b1) eqn:E1; try congruence;
    destruct (cmp1 b1 c1) eqn:E2; try congruence; intros H1 H2.
    + apply cmp_eq in E1. apply cmp_eq in E2. subst.
      rewrite cmp_refl. eapply cmp_lt_trans; eassumption.
    + apply cmp_eq in E1. subst. rewrite E2. reflexivity.
    + apply cmp_eq in E2. subst. rewrite E1. reflexivity.
    + rewrite (cmp_lt_trans _ _ _ E1 E2). reflexivity.
Qed.

Definition cmp_lt {K : Type} (cmp : K -> K -> comparison) (a b : K) : Prop :=
  cmp a b = Lt.

Definition cmp_eqb {K : Type} (cmp : K -> K -> comparison) (a b : K) : bool :=
  match cmp a b with Eq => true | _ => false end.

Lemma cmp_eqb_true {K : Type} (cmp : K -> K -> comparison) `{!TotalCmp cmp}
  (a b : K) : cmp_eqb cmp a b = true <-> a = b.
Proof.
  unfold cmp_eqb. split.
  - destruct (cmp a b) eqn:E; try discriminate. intros _. apply cmp_eq, E.
  - intros ->. rewrite cmp_refl. reflexivity.
Qed.

(** ** Ledger rows (table [expenses]) *)

Module Row.

Record t : Type := mk {
  id : Z;
  date : string;
  amount : Q;
  category : string;
  subcategory : option string;
  note : option string;
  tax_deductible : option Z;
  currency : option string;
  payment_method : option string
}.

End Row.

Definition Ledger : Type := list Row.t.

(** ** The SQL fragment used by the services *)

Module Sql.

(** [x BETWEEN lo AND hi] on text *)
Definition between (x lo hi : string) : bool :=
  String.leb lo x && String.leb x hi.

(** The integers sqlite3 can bind to a parameter: the signed 64-bit range.
    Executing a statement with a Python [int] outside it raises
    [OverflowError]. *)
Definition int64 (v : Z) : bool :=
  (- 2 ^ 63 <=? v)%Z && (v <? 2 ^ 63)%Z.

(** [WHERE c1 AND c2 AND ...] *)
Definition where_ {A : Type} (conds : list (A -> bool)) (rows : list A)
  : list A :=
  filter (fun r => forallb (fun c => c r) conds) rows.

(** [LIMIT limit OFFSET offset]: a negative limit means no limit, a
    negative offset means no offset. *)
Definition limit_offset {A : Type} (limit offset : Z) (rows : list A)
  : list A :=
  let rest := skipn (Z.to_nat offset) rows in
  if (limit <? 0)%Z then rest else firstn (Z.to_nat limit) rest.

(** [s LIKE p]: [%] matches any run of characters, [_] any one character,
    letters match without regard to ASCII case. *)
Fixpoint like (p : string) : string -> bool :=
  match p with
  | EmptyString =>
      fun s => match s with EmptyString => true | _ => false end
  | String c p' =>
      if Ascii.eqb c "%" then
        fix star (s : string) : bool :=
          like p' s ||
          match s with
          | EmptyString => false
          | String _ s' => star s'
          end
      else
        fun s =>
          match s with
          | EmptyString => false
          | String d s' =>
              (Ascii.eqb c "_" ||
               Ascii.eqb (Py.lower_ascii c) (Py.lower_ascii d)) && like p' s'
          end
  end.

(** Aggregates; over no rows they are [NULL], except [COUNT]. *)
Definition count {A : Type} (rows : list A) : Z := Z.of_nat (List.length rows).

Definition sum (xs : list Q) : option Q :=
  match xs with
  | [] => None
  | _ => Some (Money.sum xs)
  end.

Definition avg (xs : list Q) : option Q :=
  match xs with
  | [] => None
  | _ => Some (Money.sum xs / inject_Z (count xs))
  end.

Definition Qmin (a b : Q) : Q := if Qle_bool a b then a else b.
Definition Qmax (a b : Q) : Q := if Qle_bool a b then b else a.

Definition min (xs : list Q) : option Q :=
  match xs with
  | [] => None
  | x :: xs' => Some (fold_left Qmin xs' x)
  end.

Definition max (xs : list Q) : option Q :=
  match xs with
  | [] => None
  | x :: xs' => Some (fold_left Qmax xs' x)
  end.

(** *** [ORDER BY] *)

Section OrderBy.
Context {A : Type} (le : A -> A -> bool).

Fixpoint insert_sorted (a : A) (l : list A) : list A :=
  match l with
  | [] => [a]
  | b :: l' => if le a b then a :: l else b :: insert_sorted a l'
  end.

Definition order_by (l : list A) : list A :=
  fold_right insert_sorted [] l.

Lemma insert_sorted_perm a l : Permutation (a :: l) (insert_sorted a l).
Proof.
  induction l as [|b l IH]; simpl; [reflexivity|].
  destruct (le a b); [reflexivity|].
  rewrite perm_swap. constructor. exact IH.
Qed.

Lemma order_by_perm l : Permutation l (order_by l).
Proof.
  induction l as [|a l IH]; simpl; [constructor|].
  rewrite <- insert_sorted_perm. constructor. exact IH.
Qed.


Lemma order_by_In a l : In a (order_by l) <-> In a l.
Proof.
  split; apply Permutation_in;
    [symmetry|]; apply order_by_perm.
Qed.

Hypothesis le_total : forall a b, le a b = true \/ le b a = true.
Hypothesis le_trans :
  forall a b c, le a b = true -> le b c = true -> le a c = true.

Let leP (a b : A) : Prop := le a b = true.

Lemma insert_sorted_sorted a l :
  StronglySorted leP l -> StronglySorted leP (insert_sorted a l).
Proof.
  induction 1 as [|b l Hs IH Hb]; simpl.
  - repeat constructor.
  - destruct (le a b) eqn:E.
    + constructor; [constructor; assumption|].
      constructor; [exact E|].
      rewrite Forall_forall in Hb |- *. intros c Hc.
      eapply le_trans; [exact E|]. apply Hb, Hc.
    + constructor; [exact IH|].
      rewrite Forall_forall in Hb |- *. intros c Hc.
      apply (Permutation_in _ (Permutation_sym (insert_sorted_perm a l)))
        in Hc.
      destruct Hc as [<-|Hc]; [|apply Hb, Hc].
      destruct (le_total a b) as [H|H]; [congruence|exact H].
Qed.

Lemma order_by_sorted l : StronglySorted leP (order_by l).
Proof.
  induction l as [|a l IH]; simpl; [constructor|].
  apply insert_sorted_sorted, IH.
Qed.

End OrderBy.

(** *** [GROUP BY key ORDER BY key ASC] *)

Section GroupBy.
Context {A K : Type} (cmp : K -> K -> comparison) `{!TotalCmp cmp}.
Variable key : A -> K.

Fixpoint insert_key (k : K) (ks : list K) : list K :=
  match ks with
  | [] => [k]
  | k' :: ks' =>
      match cmp k k' with
      | Lt => k :: ks
      | Eq => ks
      | Gt => k' :: insert_key k ks'
      end
  end.

(** The distinct keys of the rows, ascending. *)
Definition distinct_keys (rows : list A) : list K :=
  fold_right (fun r ks => insert_key (key r) ks) [] rows.

Definition members (k : K) (rows : list A) : list A :=
  filter (fun r => cmp_eqb cmp (key r) k) rows.

(** One group per distinct key, holding the rows with that key. *)
Definition group_by (rows : list A) : list (K * list A) :=
  map (fun k => (k, members k rows)) (distinct_keys rows).

Lemma insert_key_In k k0 ks :
  In k (insert_key k0 ks) <-> k = k0 \/ In k ks.
Proof.
  induction ks as [|k' ks IH]; simpl.
  - intuition.
  - destruct (cmp k0 k') eqn:E; simpl.
    + apply cmp_eq in E. subst. intuition.
    + intuition.
    + rewrite IH. intuition.
Qed.

Lemma insert_key_sorted k ks :
  StronglySorted (cmp_lt cmp) ks ->
  StronglySorted (cmp_lt cmp) (insert_key k ks).
Proof.
  induction 1 as [|k' ks Hs IH Hk]; simpl.
  - repeat constructor.
  - destruct (cmp k k') eqn:E.
    + constructor; assumption.
    + constructor; [constructor; assumption|].
      constructor; [exact E|].
      rewrite Forall_forall in Hk |- *. intros c Hc.
      eapply cmp_lt_trans; [exact E|]. apply Hk, Hc.
    + constructor; [exact IH|].
      rewrite Forall_forall in Hk |- *. intros c Hc.
      apply insert_key_In in Hc. destruct Hc as [->|Hc]; [|apply Hk, Hc].
      unfold cmp_lt. rewrite cmp_antisym, E. reflexivity.
Qed.

Lemma distinct_keys_In k rows :
  In k (distinct_keys rows) <-> exists r, In r rows /\ key r = k.
Proof.
  induction rows as [|r rows IH]; simpl.
  - split; [tauto|]. intros (r & [] & _).
  - rewrite insert_key_In, IH. split.
    + intros [->|(r' & Hr & E)]; eauto.
    + intros (r' & [<-|Hr] & E); eauto.
Qed.

Lemma distinct_keys_sorted rows :
  StronglySorted (cmp_lt cmp) (distinct_keys rows).
Proof.
  induction rows as [|r rows IH]; simpl; [constructor|].
  apply insert_key_sorted, IH.
Qed.

Lemma members_In r k rows :
  In r (members k rows) <-> In r rows /\ key r = k.
Proof.
  unfold members. rewrite filter_In, cmp_eqb_true by assumption.
  reflexivity.
Qed.

Lemma group_by_keys rows : map fst (group_by rows) = distinct_keys rows.
Proof.
  unfold group_by. rewrite map_map. simpl. apply map_id.
Qed.

Lemma group_by_In k g rows :
  In (k, g) (group_by rows) ->
  g = members k rows /\ exists r, In r rows /\ key r = k.
Proof.
  unfold group_by. rewrite in_map_iff. intros (k' & E & Hk).
  inversion E; subst. split; [reflexivity|].
  apply distinct_keys_In, Hk.
Qed.

Lemma group_by_nonempty k g rows : In (k, g) (group_by rows) -> g <> [].
Proof.
  intros H. apply group_by_In in H. destruct H as (-> & r & Hr & E).
  intro Hnil. assert (Hin : In r (members k rows))
    by (apply members_In; auto).
  rewrite Hnil in Hin. exact Hin.
Qed.

Lemma group_by_complete r rows :
  In r rows -> In (key r, members (key r) rows) (group_by rows).
Proof.
  intro Hr. unfold group_by. apply in_map_iff. exists (key r).
  split; [reflexivity|]. apply distinct_keys_In. eauto.
Qed.

End GroupBy.

End Sql.

(** ** [services/expenses_service.py] *)

Module ExpensesService.

Open Scope string_scope.

(** The dictionaries returned by the CRUD operations. *)
Inductive Response : Type :=
| StatusError (message : string)
| StatusOkExpense (expense : option Row.t)
| StatusOkMessage (message : string).

Definition status (r : Response) : string :=
  match r with
  | StatusError _ => "error"
  | StatusOkExpense _ | StatusOkMessage _ => "ok"
  end.

(** One [column = ?] of an [UPDATE ... SET], with its parameter. *)
Inductive Assignment : Type :=
| SetDate (v : string)
| SetAmount (v : Q)
| SetCategory (v : string)
| SetSubcategory (v : string)
| SetNote (v : string)
| SetTaxDeductible (v : Z)
| SetCurrency (v : string)
| SetPaymentMethod (v : string).

Definition assign (r : Row.t) (a : Assignment) : Row.t :=
  match r with
  | Row.mk i d am c sc n td cur pm =>
      match a with
      | SetDate v => Row.mk i v am c sc n td cur pm
      | SetAmount v => Row.mk i d v c sc n td cur pm
      | SetCategory v => Row.mk i d am v sc n td cur pm
      | SetSubcategory v => Row.mk i d am c (Some v) n td cur pm
      | SetNote v => Row.mk i d am c sc (Some v) td cur pm
      | SetTaxDeductible v => Row.mk i d am c sc n (Some v) cur pm
      | SetCurrency v => Row.mk i d am c sc n td (Some v) pm
      | SetPaymentMethod v => Row.mk i d am c sc n td cur (Some v)
      end
  end.

(** [if x is not None: updates.append(...)] *)
Definition append_if_given {A B : Type} (x : option A) (f : A -> B)
  (l : list B) : list B :=
  match x with
  | Some v => l ++ [f v]
  | None => l
  end.

(** [if x: ...append(...)] for an optional string *)
Definition append_if_truthy {B : Type} (x : option string) (f : string -> B)
  (l : list B) : list B :=
  match x with
  | Some v => if Py.truthy v then l ++ [f v] else l
  | None => l
  end.

(** [SELECT * FROM expenses WHERE id = ?] then [fetchone()] *)
Definition select_by_id (ledger : Ledger) (id : Z) : option Row.t :=
  find (fun r => (Row.id r =? id)%Z) ledger.

(** [UPDATE expenses SET ... WHERE id = ?] *)
Definition sql_update (ledger : Ledger) (updates : list Assignment) (id : Z)
  : Ledger :=
  map (fun r => if (Row.id r =? id)%Z then fold_left assign updates r else r)
      ledger.

(** [DELETE FROM expenses WHERE id = ?] *)
Definition sql_delete (ledger : Ledger) (id : Z) : Ledger :=
  filter (fun r => negb (Row.id r =? id)%Z) ledger.

(** [conn.execute("SELECT ... WHERE id = ?", (id,))] then [fetchone()].
    Binding an [id] outside the signed 64-bit range raises [OverflowError]
    and no row is read. Every rowid of a table lies within that range, so
    this happens only for an id that no row has. *)
Definition fetch_by_id (ledger : Ledger) (id : Z) : result (option Row.t) :=
  match select_by_id ledger id with
  | Some r => Ok (Some r)
  | None => if Sql.int64 id then Ok None else Raise OverflowError
  end.

Definition edit_expense (ledger : Ledger) (id : Z)
  (date : option string) (amount : option Q) (category : option string)
  (subcategory : option string) (note : option string)
  (tax_deductible : option Z) (currency : option string)
  (payment_method : option string) : result Response * Ledger :=
  match fetch_by_id ledger id with
  | Raise e => (Raise e, ledger)
  | Ok None =>
      (Ok (StatusError ("Expense with id " ++ Py.str_int id ++ " not found")),
       ledger)
  | Ok (Some _) =>
      let updates : list Assignment := [] in
      let updates := append_if_given date SetDate updates in
      let updates := append_if_given amount SetAmount updates in
      let updates := append_if_given category SetCategory updates in
      let updates := append_if_given subcategory SetSubcategory updates in
      let updates := append_if_given note SetNote updates in
      let updates := append_if_given tax_deductible SetTaxDeductible updates in
      let updates := append_if_given currency SetCurrency updates in
      let updates := append_if_given payment_method SetPaymentMethod updates in
      match updates with
      | [] => (Ok (StatusError "No fields to update"), ledger)
      | _ :: _ =>
          let ledger' := sql_update ledger updates id in
          (Ok (StatusOkExpense (select_by_id ledger' id)), ledger')
      end
  end.

Definition delete_expense (ledger : Ledger) (id : Z)
  : result Response * Ledger :=
  match fetch_by_id ledger id with
  | Raise e => (Raise e, ledger)
  | Ok None =>
      (Ok (StatusError ("Expense with id " ++ Py.str_int id ++ " not found")),
       ledger)
  | Ok (Some _) =>
      (Ok (StatusOkMessage
             ("Expense " ++ Py.str_int id ++ " deleted successfully")),
       sql_delete ledger id)
  end.

Record SearchResponse : Type := mkSearch {
  results : list Row.t;
  total_count : Z;
  limit : Z;
  offset : Z
}.

(** SQL comparisons against a nullable column are not true on [NULL]. *)
Definition null_false {A : Type} (o : option A) (p : A -> bool) : bool :=
  match o with
  | None => false
  | Some v => p v
  end.

(** The conjuncts appended to [WHERE 1=1], in the order of the source. *)
Definition search_conds
  (start_date end_date category : option string)
  (min_amount max_amount : option Q) (note_contains : option string)
  (tax_deductible : option Z) : list (Row.t -> bool) :=
  let conds : list (Row.t -> bool) := [] in
  let conds := append_if_truthy start_date
                 (fun p r => String.leb p (Row.date r)) conds in
  let conds := append_if_truthy end_date
                 (fun p r => String.leb (Row.date r) p) conds in
  let conds := append_if_truthy category
                 (fun p r => Row.category r =? p) conds in
  let conds := append_if_given min_amount
                 (fun p r => Qle_bool p (Row.amount r)) conds in
  let conds := append_if_given max_amount
                 (fun p r => Qle_bool (Row.amount r) p) conds in
  let conds := append_if_truthy note_contains
                 (fun p r => null_false (Row.note r)
                               (Sql.like ("%" ++ p ++ "%"))) conds in
  let conds := append_if_given tax_deductible
                 (fun p r => null_false (Row.tax_deductible r)
                               (fun v => (v =? p)%Z)) conds in
  conds.

(** [ORDER BY date DESC, id DESC] *)
Definition newest_first (r1 r2 : Row.t) : bool :=
  match String.compare (Row.date r2) (Row.date r1) with
  | Lt => true
  | Gt => false
  | Eq => (Row.id r2 <=? Row.id r1)%Z
  end.

Definition search_expenses (ledger : Ledger)
  (start_date end_date category : option string)
  (min_amount max_amount : option Q) (note_contains : option string)
  (tax_deductible : option Z) (limit offset : Z) : SearchResponse :=
  let conds := search_conds start_date end_date category min_amount
                 max_amount note_contains tax_deductible in
  let results :=
    Sql.limit_offset limit offset
      (Sql.order_by newest_first (Sql.where_ conds ledger)) in
  let total_count := Sql.count (Sql.where_ conds ledger) in
  mkSearch results total_count limit offset.

End ExpensesService.

(** ** [utils/dates.py] *)

Module Dates.

Open Scope string_scope.
Open Scope Z_scope.

(** [calendar.isleap] *)
Definition isleap (year : Z) : bool :=
  (year mod 4 =? 0) && (negb (year mod 100 =? 0) || (year mod 400 =? 0)).

(** [calendar.mdays] *)
Definition mdays (month : Z) : Z :=
  match month with
  | 1 | 3 | 5 | 7 | 8 | 10 | 12 => 31
  | 4 | 6 | 9 | 11 => 30
  | 2 => 28
  | _ => 0
  end.

(** [calendar.monthrange(year, month)[1]] *)
Definition monthrange_ndays (year month : Z) : result Z :=
  if (1 <=? month) && (month <=? 12) then
    Ok (mdays month + (if (month =? 2) && isleap year then 1 else 0))
  else Raise IllegalMonthError.

Section WithInt.
(** Python's [int(s)]; [None] stands for [ValueError]. *)
Variable py_int : string -> option Z.

Definition int (s : string) : result Z :=
  match py_int s with
  | Some n => Ok n
  | None => Raise ValueError
  end.

(** [year, month = map(int, month_ym.split("-"))] *)
Definition parse_month (month_ym : string) : result (Z * Z) :=
  match Py.split "-" month_ym with
  | [a; b] => year <- int a ;; month <- int b ;; Ok (year, month)
  | _ => Raise ValueError
  end.

Definition month_start_end (month_ym : string) : result (string * string) :=
  ' (year, month) <- parse_month month_ym ;;
  last_day <- monthrange_ndays year month ;;
  Ok ((Py.format_0d 4 year ++ "-" ++ Py.format_0d 2 month ++ "-01")%string,
      (Py.format_0d 4 year ++ "-" ++ Py.format_0d 2 month ++ "-"
         ++ Py.format_0d 2 last_day)%string).

End WithInt.

Definition add_months (year month delta : Z) : Z * Z :=
  let total := (year * 12 + (month - 1)) + delta in
  let new_year := total / 12 in
  let new_month := (total mod 12) + 1 in
  (new_year, new_month).

(** [int] on strings of ASCII decimal digits; every other string is
    refused. Used to run the model on concrete month tokens. *)
Fixpoint digits_value (acc : Z) (s : string) : option Z :=
  match s with
  | EmptyString => Some acc
  | String c s' =>
      let n := Z.of_N (N_of_ascii c) in
      if (48 <=? n) && (n <=? 57) then digits_value (acc * 10 + (n - 48)) s'
      else None
  end.

Definition int_of_digits (s : string) : option Z :=
  match s with
  | EmptyString => None
  | _ => digits_value 0 s
  end.

End Dates.

(** ** [services/analytics_service.py] *)

Module AnalyticsService.

Import ExpensesService.
Open Scope string_scope.
Open Scope Q_scope.

(** [date BETWEEN ? AND ?] *)
Definition in_range (start_date end_date : string) (r : Row.t) : bool :=
  Sql.between (Row.date r) start_date end_date.

(** [AND category = ?], appended when [category] is truthy *)
Definition category_is (p : string) (r : Row.t) : bool :=
  (Row.category r =? p)%string.

Definition amounts (rows : list Row.t) : list Q := map Row.amount rows.

(** [SELECT key, SUM(amount) ... GROUP BY key ORDER BY key ASC] *)
Definition sum_by {K : Type} (cmp : K -> K -> comparison) (key : Row.t -> K)
  (rows : list Row.t) : list (K * option Q) :=
  map (fun g => (fst g, Sql.sum (amounts (snd g)))) (Sql.group_by cmp key rows).

(** A row of [SELECT key, COUNT( * ), SUM, AVG, MIN, MAX ... GROUP BY key] *)
Record Agg (K : Type) : Type := mkAgg {
  key : K;
  count : Z;
  total : option Q;
  average : option Q;
  min_amount : option Q;
  max_amount : option Q
}.

Definition aggregate {K : Type} (g : K * list Row.t) : Agg K :=
  let xs := amounts (snd g) in
  mkAgg (fst g) (Sql.count xs) (Sql.sum xs) (Sql.avg xs) (Sql.min xs)
        (Sql.max xs).

(** [ORDER BY f DESC]: [NULL] comes last. *)
Definition desc_by {A : Type} (f : A -> option Q) (a b : A) : bool :=
  match f a, f b with
  | _, None => true
  | None, Some _ => false
  | Some x, Some y => Qle_bool y x
  end.

(** Using [None] where a number is needed raises [TypeError]. *)
Definition number (o : option Q) : result Q :=
  match o with
  | Some x => Ok x
  | None => Raise TypeError
  end.

(** [range(lo, hi)] *)
Definition py_range (lo hi : Z) : list Z :=
  map (fun i => (lo + Z.of_nat i)%Z) (seq 0 (Z.to_nat (hi - lo))).

(** *** summarize *)

Record SummaryRow : Type := mkSummaryRow {
  sum_category : string;
  sum_total_amount : option Q
}.

Definition summarize (ledger : Ledger) (start_date end_date : string)
  (category : option string) : list SummaryRow :=
  let conds := [in_range start_date end_date] in
  let conds := append_if_truthy category category_is conds in
  map (fun kv => mkSummaryRow (fst kv) (snd kv))
      (sum_by String.compare Row.category (Sql.where_ conds ledger)).

(** *** compare_months *)

Record CompareResponse : Type := mkCompare {
  cm_month1 : string;
  cm_total1 : Q;
  cm_month2 : string;
  cm_total2 : Q;
  cm_difference : Q;
  cm_percent_change : Q;
  cm_category : option string
}.

(** [SELECT SUM(amount) ... WHERE date BETWEEN ? AND ? [AND category = ?]]
    followed by [or 0] *)
Definition month_total (ledger : Ledger) (bounds : string * string)
  (category : option string) : Q :=
  let conds := [in_range (fst bounds) (snd bounds)] in
  let conds := append_if_truthy category category_is conds in
  Money.or0 (Sql.sum (amounts (Sql.where_ conds ledger))).

(** [(diff / total1 * 100) if total1 > 0 else 0] *)
Definition percent_of (part whole : Q) : result Q :=
  if Money.Qltb 0 whole then q <- Money.div part whole ;; Ok (q * 100)
  else Ok 0.

Section WithInt.
Variable py_int : string -> option Z.

Definition compare_months (ledger : Ledger) (month1 month2 : string)
  (category : option string) : result CompareResponse :=
  b1 <- Dates.month_start_end py_int month1 ;;
  b2 <- Dates.month_start_end py_int month2 ;;
  let total1 := month_total ledger b1 category in
  let total2 := month_total ledger b2 category in
  let diff := total2 - total1 in
  pct <- percent_of diff total1 ;;
  Ok (mkCompare month1 (Money.round2 total1) month2 (Money.round2 total2)
        (Money.round2 diff) (Money.round2 pct) category).

End WithInt.

(** *** analyze_trends *)

Record TrendRow : Type := mkTrendRow {
  tr_period : option string;
  tr_expense_count : Z;
  tr_total : Q;
  tr_average : Q;
  tr_min_amount : Q;
  tr_max_amount : Q
}.

Record TrendsResponse : Type := mkTrends {
  tr_group_by : string;
  tr_start_date : string;
  tr_end_date : string;
  tr_trends : list TrendRow
}.

Section WithStrftime.
(** SQLite's [strftime(format, date)]; [None] is [NULL]. *)
Variable strftime : string -> string -> option string.

Definition date_trunc (group_by : string) (r : Row.t) : option string :=
  if (group_by =? "day")%string then Some (Row.date r)
  else if (group_by =? "week")%string then strftime "%Y-W%W" (Row.date r)
  else strftime "%Y-%m" (Row.date r).

Definition trend_row (d : Agg (option string)) : TrendRow :=
  mkTrendRow (key d) (count d)
    (Money.round2 (Money.or0 (total d)))
    (Money.round2 (Money.or0 (average d)))
    (Money.round2 (Money.or0 (min_amount d)))
    (Money.round2 (Money.or0 (max_amount d))).

Definition analyze_trends (ledger : Ledger) (start_date end_date : string)
  (group_by : string) : TrendsResponse :=
  let rows := Sql.where_ [in_range start_date end_date] ledger in
  let periods :=
    map aggregate
      (Sql.group_by (option_compare String.compare) (date_trunc group_by)
         rows) in
  mkTrends group_by start_date end_date (map trend_row periods).

End WithStrftime.

(** *** category_analytics *)

Record CategoryRow : Type := mkCategoryRow {
  ca_category : string;
  ca_count : Z;
  ca_total : Q;
  ca_average : Q;
  ca_min_amount : Q;
  ca_max_amount : Q;
  ca_percentage : Q
}.

Record CategoryResponse : Type := mkCategoryResponse {
  ca_start_date : string;
  ca_end_date : string;
  ca_total_spent : Q;
  ca_categories : list CategoryRow
}.

(** [(d["total"] / total_spent * 100) if total_spent > 0 else 0] *)
Definition share_of (d_total : option Q) (total_spent : Q) : result Q :=
  if Money.Qltb 0 total_spent then
    t <- number d_total ;; q <- Money.div t total_spent ;; Ok (q * 100)
  else Ok 0.

Definition category_row (total_spent : Q) (d : Agg string)
  : result CategoryRow :=
  pct <- share_of (total d) total_spent ;;
  Ok (mkCategoryRow (key d) (count d)
        (Money.round2 (Money.or0 (total d)))
        (Money.round2 (Money.or0 (average d)))
        (Money.round2 (Money.or0 (min_amount d)))
        (Money.round2 (Money.or0 (max_amount d)))
        (Money.round2 pct)).

(** The grouped query of [category_analytics], [ORDER BY total DESC]. *)
Definition category_groups (rows : list Row.t) : list (Agg string) :=
  Sql.order_by (desc_by (@total string))
    (map aggregate (Sql.group_by String.compare Row.category rows)).

Definition category_analytics (ledger : Ledger) (start_date end_date : string)
  : result CategoryResponse :=
  let rows := Sql.where_ [in_range start_date end_date] ledger in
  let total_spent := Money.or0 (Sql.sum (amounts rows)) in
  categories <- mapM (category_row total_spent) (category_groups rows) ;;
  Ok (mkCategoryResponse start_date end_date (Money.round2 total_spent)
        categories).

(** *** get_statistics *)

Record StatisticsResponse : Type := mkStatistics {
  st_start_date : string;
  st_end_date : string;
  st_total_expenses : Z;
  st_total_spent : Q;
  st_average_expense : Q;
  st_min_expense : Q;
  st_max_expense : Q;
  st_daily_average : Q;
  st_most_expensive_day : option string * Q;
  st_top_category : option string * Q
}.

(** [SELECT key, SUM(amount) AS s ... GROUP BY key ORDER BY s DESC LIMIT 1],
    then [fetchone()] *)
Definition top_by (key : Row.t -> string) (rows : list Row.t)
  : option (string * option Q) :=
  hd_error
    (Sql.limit_offset 1 0
       (Sql.order_by (desc_by (@snd string (option Q)))
          (sum_by String.compare key rows))).

(** [{"x": row["x"] if row else None, "total": round(row["s"], 2) if row else 0}] *)
Definition top_entry (row : option (string * option Q))
  : result (option string * Q) :=
  match row with
  | Some (k, s) => t <- number s ;; Ok (Some k, Money.round2 t)
  | None => Ok (None, 0)
  end.

Section WithStrptime.
(** [(strptime(end, "%Y-%m-%d") - strptime(start, "%Y-%m-%d")).days] as a
    function of [start] and [end]; [None] stands for [ValueError]. *)
Variable days_between : string -> string -> option Z.

Definition get_statistics (ledger : Ledger) (start_date end_date : string)
  : result StatisticsResponse :=
  let rows := Sql.where_ [in_range start_date end_date] ledger in
  let stats := aggregate (tt, rows) in
  let expensive_day := top_by Row.date rows in
  let top_category := top_by Row.category rows in
  days_diff <- match days_between start_date end_date with
               | Some d => Ok (d + 1)%Z
               | None => Raise ValueError
               end ;;
  let total := Money.or0 (AnalyticsService.total stats) in
  daily_avg <- (if (0 <? days_diff)%Z then Money.div total (inject_Z days_diff)
                else Ok 0) ;;
  most_expensive_day <- top_entry expensive_day ;;
  top <- top_entry top_category ;;
  Ok (mkStatistics start_date end_date (count stats)
        (Money.round2 total)
        (Money.round2 (Money.or0 (average stats)))
        (Money.round2 (Money.or0 (min_amount stats)))
        (Money.round2 (Money.or0 (max_amount stats)))
        (Money.round2 daily_avg)
        most_expensive_day top).

End WithStrptime.

(** *** forecast_expenses *)

Record Projection : Type := mkProjection {
  fc_month : string;
  fc_projected : Q
}.

Record CategoryForecast : Type := mkCategoryForecast {
  fc_category : string;
  fc_historical_avg_monthly : Q;
  fc_projections : list Projection
}.

Record ForecastResponse : Type := mkForecast {
  fc_based_on_months : Z;
  fc_history_period : string;
  fc_forecast_months : Z;
  fc_monthly_average : Q;
  fc_total_projections : list Projection;
  fc_category_forecasts : list CategoryForecast
}.

(** [f"{y:04d}-{m:02d}"] *)
Definition month_label (ym : Z * Z) : string :=
  Py.format_0d 4 (fst ym) ++ "-" ++ Py.format_0d 2 (snd ym).

(** [datetime.now()], as year, month, day. *)
Record Today : Type := mkToday { year : Z; month : Z; day : Z }.

(** [today.strftime("%Y-%m-%d")] *)
Definition today_ymd (today : Today) : string :=
  Py.format_0d 4 (year today) ++ "-" ++ Py.format_0d 2 (month today) ++ "-"
    ++ Py.format_0d 2 (day today).

(** The values of a column that are not [NULL]; aggregates skip the rest. *)
Definition non_null {A : Type} (l : list (option A)) : list A :=
  flat_map (fun o => match o with Some x => [x] | None => [] end) l.

(** [for i in range(1, months_ahead + 1)] *)
Definition projections (today : Today) (months_ahead : Z) (value : Q)
  : list Projection :=
  map (fun i =>
         mkProjection
           (month_label (Dates.add_months (year today) (month today) i))
           value)
      (py_range 1 (months_ahead + 1)).

Section WithStrftime.
Variable strftime : string -> string -> option string.

(** The inner query: monthly totals per category. *)
Definition monthly_totals (rows : list Row.t)
  : list ((string * option string) * option Q) :=
  sum_by (pair_compare String.compare (option_compare String.compare))
    (fun r => (Row.category r, strftime "%Y-%m" (Row.date r))) rows.

(** The outer query: the average monthly total per category. *)
Definition avg_monthly_spend (rows : list Row.t)
  : list (string * option Q) :=
  map (fun g => (fst g, Sql.avg (non_null (map snd (snd g)))))
      (Sql.group_by String.compare
         (fun m : (string * option string) * option Q => fst (fst m))
         (monthly_totals rows)).

Definition history_start (today : Today) (based_on_last_months : Z)
  : string :=
  month_label
    (Dates.add_months (year today) (month today) (- based_on_last_months))
    ++ "-01".

Definition forecast_expenses (ledger : Ledger) (today : Today)
  (months_ahead based_on_last_months : Z) : ForecastResponse :=
  let history_start := history_start today based_on_last_months in
  let history_end := today_ymd today in
  let rows := Sql.where_ [in_range history_start history_end] ledger in
  let category_forecasts :=
    map (fun row : string * option Q =>
           let (category, avg_spend) := row in
           mkCategoryForecast category
             (Money.round2 (Money.or0 avg_spend))
             (projections today months_ahead
                (Money.round2 (Money.or0 avg_spend))))
        (avg_monthly_spend rows) in
  let total_monthly_avg :=
    Money.sum (map fc_historical_avg_monthly category_forecasts) in
  let total_projections :=
    projections today months_ahead (Money.round2 total_monthly_avg) in
  mkForecast based_on_last_months
    (history_start ++ " to " ++ history_end)
    months_ahead
    (Money.round2 total_monthly_avg) total_projections category_forecasts.

End WithStrftime.

(** *** tax_summary *)

Inductive Bucket : Type :=
| WorkRelated
| Health
| Insurance
| Donations
| Other.

Definition bucket_name (b : Bucket) : string :=
  match b with
  | WorkRelated => "Werbungskosten (Work-related)"
  | Health => "Gesundheitskosten (Health)"
  | Insurance => "Versicherungen (Insurance)"
  | Donations => "Spenden (Donations)"
  | Other => "Sonstige (Other)"
  end.

Definition bucket_eqb (a b : Bucket) : bool :=
  match a, b with
  | WorkRelated, WorkRelated | Health, Health | Insurance, Insurance
  | Donations, Donations | Other, Other => true
  | _, _ => false
  end.

(** The keys of [tax_categories], in insertion order. *)
Definition buckets : list Bucket :=
  [WorkRelated; Health; Insurance; Donations; Other].

(** The [if]/[elif] chain of the loop body. *)
Definition classify (cat : string) (subcategory : option string) : Bucket :=
  if Py.in_list cat ["business"; "education"; "subscriptions"] then WorkRelated
  else if (cat =? "health")%string then Health
  else if Py.str_in "insurance" (Py.lower (Py.or_empty subcategory))
  then Insurance
  else if (cat =? "gifts_donations")%string then Donations
  else Other.

(** A dictionary keyed by bucket: an association list in insertion order. *)
Definition Dict (V : Type) : Type := list (Bucket * V).

(** [d[k]] *)
Definition dict_get {V : Type} (d : Dict V) (k : Bucket) : result V :=
  match find (fun kv => bucket_eqb (fst kv) k) d with
  | Some kv => Ok (snd kv)
  | None => Raise KeyError
  end.

(** [d[k] = f(d[k])], in place *)
Definition dict_update {V : Type} (k : Bucket) (f : V -> V) (d : Dict V)
  : result (Dict V) :=
  _ <- dict_get d k ;;
  Ok (map (fun kv => if bucket_eqb (fst kv) k then (fst kv, f (snd kv)) else kv)
        d).

Record TaxState : Type := mkTaxState {
  tax_categories : Dict (list Row.t);
  totals : Dict Q
}.

Definition tax_init : TaxState :=
  mkTaxState (map (fun k => (k, [])) buckets) (map (fun k => (k, 0)) buckets).

(** The body of [for exp in tax_expenses]. *)
Definition tax_step (st : TaxState) (exp : Row.t) : result TaxState :=
  let cat := Row.category exp in
  let amount := Money.or0 (Some (Row.amount exp)) in
  let bucket := classify cat (Row.subcategory exp) in
  tc <- dict_update bucket (fun l => (l ++ [exp])%list) (tax_categories st) ;;
  ts <- dict_update bucket (fun t => t + amount) (totals st) ;;
  Ok (mkTaxState tc ts).

Fixpoint tax_loop (st : TaxState) (tax_expenses : list Row.t)
  : result TaxState :=
  match tax_expenses with
  | [] => Ok st
  | exp :: rest => st' <- tax_step st exp ;; tax_loop st' rest
  end.

Record TaxEntry : Type := mkTaxEntry {
  tx_tax_category : string;
  tx_total : Q;
  tx_count : Z;
  tx_expenses : list Row.t
}.

Record TaxResponse : Type := mkTaxResponse {
  tx_year : Z;
  tx_filter_category : option string;
  tx_grand_total : Q;
  tx_total_count : Z;
  tx_summary : list TaxEntry
}.

(** [for tax_cat, exps in tax_categories.items(): if exps: summary.append(...)] *)
Fixpoint tax_entries (totals : Dict Q) (items : Dict (list Row.t))
  : result (list TaxEntry) :=
  match items with
  | [] => Ok []
  | (tax_cat, exps) :: items' =>
      match exps with
      | [] => tax_entries totals items'
      | _ :: _ =>
          t <- dict_get totals tax_cat ;;
          rest <- tax_entries totals items' ;;
          Ok (mkTaxEntry (bucket_name tax_cat) (Money.round2 t)
                (Sql.count exps) exps :: rest)
      end
  end.

(** The deductible rows of the year, [ORDER BY date ASC]. *)
Definition tax_expenses_of (ledger : Ledger) (year : Z)
  (category : option string) : list Row.t :=
  let start_date := Py.str_int year ++ "-01-01" in
  let end_date := Py.str_int year ++ "-12-31" in
  let conds :=
    [in_range start_date end_date;
     fun r => null_false (Row.tax_deductible r) (fun v => (v =? 1)%Z)] in
  let conds := append_if_truthy category category_is conds in
  Sql.order_by (fun a b => String.leb (Row.date a) (Row.date b))
    (Sql.where_ conds ledger).

Definition tax_summary (ledger : Ledger) (year : Z) (category : option string)
  : result TaxResponse :=
  let tax_expenses := tax_expenses_of ledger year category in
  st <- tax_loop tax_init tax_expenses ;;
  summary <- tax_entries (totals st) (tax_categories st) ;;
  Ok (mkTaxResponse year category
        (Money.round2 (Money.sum (map snd (totals st))))
        (Sql.count tax_expenses) summary).

End AnalyticsService.

(** ** The library functions on well-formed ISO dates

    Concrete instances of the library parameters, defined on valid calendar
    days written [YYYY-MM-DD]; every other input is refused. They are used to
    run the model on concrete ledgers. *)

Module Iso.

Open Scope string_scope.
Open Scope Z_scope.

(** Days since 1970-01-01 in the proleptic Gregorian calendar. *)
Definition days_from_civil (y m d : Z) : Z :=
  let y' := if m <=? 2 then y - 1 else y in
  let era := y' / 400 in
  let yoe := y' - era * 400 in
  let doy := (153 * (if 2 <? m then m - 3 else m + 9) + 2) / 5 + d - 1 in
  let doe := yoe * 365 + yoe / 4 - yoe / 100 + doy in
  era * 146097 + doe - 719468.

(** [YYYY-MM-DD] to year, month, day, when it names a calendar day. *)
Definition parse_ymd (s : string) : option (Z * Z * Z) :=
  match Py.split "-" s with
  | [ys; ms; ds] =>
      if ((String.length ys =? 4) && (String.length ms =? 2)
          && (String.length ds =? 2))%nat then
        match Dates.int_of_digits ys, Dates.int_of_digits ms,
              Dates.int_of_digits ds with
        | Some y, Some m, Some d =>
            match Dates.monthrange_ndays y m with
            | Ok n => if (1 <=? d) && (d <=? n) then Some (y, m, d) else None
            | Raise _ => None
            end
        | _, _, _ => None
        end
      else None
  | _ => None
  end.

(** [%W]: week of the year, weeks starting on Monday. *)
Definition week_of_year (y m d : Z) : Z :=
  let days := days_from_civil y m d in
  let yday := days - days_from_civil y 1 1 in
  let wday := (days + 3) mod 7 in
  (yday + 7 - wday) / 7.

Definition strftime (format date : string) : option string :=
  match parse_ymd date with
  | Some (y, m, d) =>
      if (format =? "%Y-%m")%string then
        Some (Py.format_0d 4 y ++ "-" ++ Py.format_0d 2 m)%string
      else if (format =? "%Y-W%W")%string then
        Some (Py.format_0d 4 y ++ "-W"
                ++ Py.format_0d 2 (week_of_year y m d))%string
      else None
  | None => None
  end.

Definition days_between (start_date end_date : string) : option Z :=
  match parse_ymd start_date, parse_ymd end_date with
  | Some (y1, m1, d1), Some (y2, m2, d2) =>
      Some (days_from_civil y2 m2 d2 - days_from_civil y1 m1 d1)
  | _, _ => None
  end.

End Iso.

(** ** Sample ledgers *)

Module Samples.

Open Scope string_scope.

Definition row (id : Z) (date : string) (amount : Q) (category : string)
  : Row.t :=
  Row.mk id date amount category (Some "") (Some "") (Some 0%Z) (Some "EUR")
    (Some "").

(** The three rows of the June 2025 example. *)
Definition june : Ledger :=
  [row 1 "2025-06-01" 50 "food";
   row 2 "2025-06-15" 30 "food";
   row 3 "2025-06-20" 20 "transport"].

(** A single row of 0.125. *)
Definition eighth : Ledger := [row 1 "2025-06-10" (1 # 8) "food"].

Definition today : AnalyticsService.Today :=
  AnalyticsService.mkToday 2025 6 15.

End Samples.

(** * Properties *)

(** ** Strings *)

Section StringFacts.
Open Scope string_scope.

Lemma prefix_app (s1 s2 : string) :
  prefix s1 s2 = true <-> exists post, s2 = s1 ++ post.
Proof.
  revert s2. induction s1 as [|a s1 IH]; intros s2.
  - destruct s2; simpl; split; eauto.
  - destruct s2 as [|b s2]; simpl.
    + split; [discriminate|]. intros (post & E). discriminate.
    + destruct (ascii_dec a b) as [->|N].
      * rewrite IH. split; intros (post & E); exists post; congruence.
      * split; [discriminate|]. intros (post & E). congruence.
Qed.

Lemma str_in_spec (needle hay : string) :
  Py.str_in needle hay = true <->
  exists pre post, hay = pre ++ needle ++ post.
Proof.
  induction hay as [|c hay IH].
  - change (Py.str_in needle "") with (prefix needle "" || false).
    rewrite orb_false_r, prefix_app. split.
    + intros (post & E). exists "", post. exact E.
    + intros (pre & post & E). destruct pre; simpl in E; [eauto|discriminate].
  - change (Py.str_in needle (String c hay))
      with (prefix needle (String c hay) || Py.str_in needle hay).
    rewrite orb_true_iff, prefix_app, IH. split.
    + intros [(post & E)|(pre & post & E)].
      * exists "", post. exact E.
      * exists (String c pre), post. simpl. congruence.
    + intros (pre & post & E). destruct pre as [|c' pre]; simpl in E.
      * left. eauto.
      * right. exists pre, post. congruence.
Qed.

Lemma lower_app (a b : string) :
  Py.lower (a ++ b) = Py.lower a ++ Py.lower b.
Proof. induction a as [|c a IH]; simpl; congruence. Qed.

Lemma lower_split (x y s : string) :
  Py.lower s = x ++ y ->
  exists a b, s = a ++ b /\ Py.lower a = x /\ Py.lower b = y.
Proof.
  revert s. induction x as [|c x IH]; intros s E; simpl in E.
  - exists "", s. auto.
  - destruct s as [|d s]; simpl in E; [discriminate|].
    inversion E as [[Hc Hs]]. destruct (IH _ Hs) as (a & b & -> & Ha & Hb).
    exists (String d a), b. simpl. repeat split; congruence.
Qed.

Lemma or_empty_Some (s : string) : Py.or_empty (Some s) = s.
Proof.
  unfold Py.or_empty, Py.truthy.
  destruct (String.eqb_spec s ""); simpl; congruence.
Qed.

Lemma in_list_spec (x : string) (l : list string) :
  Py.in_list x l = true <-> In x l.
Proof.
  induction l as [|y l IH]; simpl; [split; [discriminate|tauto]|].
  rewrite orb_true_iff, String.eqb_eq, IH. split; intros [H|H]; auto.
Qed.

End StringFacts.

(** ** Tax classification *)

Section Classifier.
Import AnalyticsService.
Open Scope string_scope.

(** [hay] has a substring equal to [needle] up to ASCII case. *)
Definition contains_ci (needle hay : string) : Prop :=
  exists pre mid post, hay = pre ++ mid ++ post /\ Py.lower mid = needle.

(** The conditions of the priority list, as stated. *)
Definition is_work (cat : string) : Prop :=
  cat = "business" \/ cat = "education" \/ cat = "subscriptions".
Definition is_health (cat : string) : Prop := cat = "health".
Definition is_insurance (subcategory : option string) : Prop :=
  exists s, subcategory = Some s /\ contains_ci "insurance" s.
Definition is_donation (cat : string) : Prop := cat = "gifts_donations".

Lemma insurance_test (subcategory : option string) :
  Py.str_in "insurance" (Py.lower (Py.or_empty subcategory)) = true <->
  is_insurance subcategory.
Proof.
  unfold is_insurance, contains_ci. split.
  - destruct subcategory as [s|]; [|discriminate].
    rewrite or_empty_Some, str_in_spec. intros (pre & post & E).
    apply lower_split in E. destruct E as (a & bc & -> & Ha & Hbc).
    apply lower_split in Hbc. destruct Hbc as (b & c & -> & Hb & Hc).
    exists (a ++ b ++ c). split; [reflexivity|]. exists a, b, c. auto.
  - intros (s & -> & pre & mid & post & -> & Hmid).
    rewrite or_empty_Some, !lower_app, Hmid. apply str_in_spec. eauto.
Qed.

Lemma work_test (cat : string) :
  Py.in_list cat ["business"; "education"; "subscriptions"] = true <->
  is_work cat.
Proof.
  rewrite in_list_spec. unfold is_work. simpl. intuition congruence.
Qed.

(** The bucket of a row. *)
Definition bucket_of (exp : Row.t) : Bucket :=
  classify (Row.category exp) (Row.subcategory exp).

Definition in_bucket (b : Bucket) (exp : Row.t) : bool :=
  bucket_eqb (bucket_of exp) b.

Lemma bucket_eqb_eq (a b : Bucket) : bucket_eqb a b = true <-> a = b.
Proof. destruct a, b; simpl; split; congruence. Qed.

(** A dictionary holding [f k] under each of the five keys. *)
Definition dict_of {V : Type} (f : Bucket -> V) : Dict V :=
  map (fun k => (k, f k)) buckets.

Lemma dict_of_ext {V : Type} (f g : Bucket -> V) :
  (forall b, f b = g b) -> dict_of f = dict_of g.
Proof. intro H. unfold dict_of. simpl. rewrite !H. reflexivity. Qed.

Lemma dict_get_of {V : Type} (f : Bucket -> V) (b : Bucket) :
  dict_get (dict_of f) b = Ok (f b).
Proof. destruct b; reflexivity. Qed.

Lemma dict_update_of {V : Type} (k : Bucket) (g : V -> V) (f : Bucket -> V) :
  dict_update k g (dict_of f) =
  Ok (dict_of (fun b => if bucket_eqb b k then g (f b) else f b)).
Proof. destruct k; reflexivity. Qed.

(** Adding the amounts of the rows [l] to [t0], as the loop does. *)
Definition accumulate (t0 : Q) (l : list Row.t) : Q :=
  fold_left (fun t exp => (t + Money.or0 (Some (Row.amount exp)))%Q) l t0.

Lemma tax_loop_of (rows : list Row.t) (fc : Bucket -> list Row.t)
  (ft : Bucket -> Q) :
  tax_loop (mkTaxState (dict_of fc) (dict_of ft)) rows =
  Ok (mkTaxState
        (dict_of (fun b => fc b ++ filter (in_bucket b) rows)%list)
        (dict_of (fun b => accumulate (ft b) (filter (in_bucket b) rows)))).
Proof.
  revert fc ft. induction rows as [|exp rows IH]; intros fc ft.
  - simpl. f_equal. f_equal. apply dict_of_ext. intro b.
    symmetry. apply app_nil_r.
  - cbn [tax_loop]. unfold tax_step. cbn [tax_categories totals].
    fold (bucket_of exp). rewrite !dict_update_of. cbn [bind]. rewrite IH.
    f_equal. f_equal; apply dict_of_ext; intro b; cbn [filter];
      unfold in_bucket at 2;
      destruct (bucket_eqb b (bucket_of exp)) eqn:E.
    + apply bucket_eqb_eq in E. subst b.
      replace (bucket_eqb (bucket_of exp) (bucket_of exp)) with true
        by (symmetry; apply bucket_eqb_eq; reflexivity).
      rewrite <- app_assoc. reflexivity.
    + replace (bucket_eqb (bucket_of exp) b) with false; [reflexivity|].
      destruct (bucket_of exp), b; simpl in *; congruence.
    + apply bucket_eqb_eq in E. subst b.
      replace (bucket_eqb (bucket_of exp) (bucket_of exp)) with true
        by (symmetry; apply bucket_eqb_eq; reflexivity).
      reflexivity.
    + replace (bucket_eqb (bucket_of exp) b) with false; [reflexivity|].
      destruct (bucket_of exp), b; simpl in *; congruence.
Qed.

Lemma tax_loop_init (rows : list Row.t) :
  tax_loop tax_init rows =
  Ok (mkTaxState
        (dict_of (fun b => filter (in_bucket b) rows))
        (dict_of (fun b => accumulate 0 (filter (in_bucket b) rows)))).
Proof.
  change tax_init
    with (mkTaxState (dict_of (fun _ : Bucket => @nil Row.t))
            (dict_of (fun _ : Bucket => 0%Q))).
  rewrite tax_loop_of. reflexivity.
Qed.

(** C1: the tax classifier is a total function into the five buckets that
    applies its rules in priority order, first match winning: Work-related
    for the categories business, education and subscriptions; else Health
    for the category health; else Insurance when the subcategory contains
    "insurance" in any letter case; else Donations for the category
    gifts_donations; else Other. The loop of [tax_summary] never raises and
    files every row under its bucket and under no other. *)
Theorem classify_first_match_wins :
  (forall (cat : string) (subcategory : option string),
      (classify cat subcategory = WorkRelated <-> is_work cat) /\
      (classify cat subcategory = Health <->
         ~ is_work cat /\ is_health cat) /\
      (classify cat subcategory = Insurance <->
         ~ is_work cat /\ ~ is_health cat /\ is_insurance subcategory) /\
      (classify cat subcategory = Donations <->
         ~ is_work cat /\ ~ is_health cat /\ ~ is_insurance subcategory /\
         is_donation cat) /\
      (classify cat subcategory = Other <->
         ~ is_work cat /\ ~ is_health cat /\ ~ is_insurance subcategory /\
         ~ is_donation cat)) /\
  (forall tax_expenses : list Row.t,
      exists st,
        tax_loop tax_init tax_expenses = Ok st /\
        map fst (tax_categories st) = buckets /\
        forall b,
          dict_get (tax_categories st) b =
          Ok (filter (fun exp => bucket_eqb (bucket_of exp) b) tax_expenses)).
Proof.
  split.
  - intros cat subcategory.
    pose proof (work_test cat) as Hw.
    pose proof (insurance_test subcategory) as Hi.
    pose proof (String.eqb_eq cat "health") as Hh.
    pose proof (String.eqb_eq cat "gifts_donations") as Hd.
    unfold classify, is_health, is_donation in *.
    destruct (Py.in_list cat _);
      [|destruct (cat =? "health");
        [|destruct (Py.str_in _ _);
          [|destruct (cat =? "gifts_donations")]]];
      repeat split; intros; try discriminate; intuition congruence.
  - intro tax_expenses. eexists. split; [apply tax_loop_init|].
    split; [reflexivity|]. intro b.
    exact (dict_get_of (fun k => filter (in_bucket k) tax_expenses) b).
Qed.

End Classifier.

(** ** Search and CRUD *)

Section Search.
Import ExpensesService.
Open Scope Z_scope.

(** A filter that is skipped when its optional string is absent or empty. *)
Definition given_truthy (o : option string) (p : string -> bool) : bool :=
  match o with
  | Some v => if Py.truthy v then p v else true
  | None => true
  end.

(** A filter that is skipped only when its value is absent. *)
Definition given {A : Type} (o : option A) (p : A -> bool) : bool :=
  match o with
  | Some v => p v
  | None => true
  end.

(** The filter predicate of a search, row by row. *)
Definition matches (start_date end_date category : option string)
  (min_amount max_amount : option Q) (note_contains : option string)
  (tax_deductible : option Z) (r : Row.t) : bool :=
  given_truthy start_date (fun p => String.leb p (Row.date r)) &&
  given_truthy end_date (fun p => String.leb (Row.date r) p) &&
  given_truthy category (fun p => (Row.category r =? p)%string) &&
  given min_amount (fun p => Qle_bool p (Row.amount r)) &&
  given max_amount (fun p => Qle_bool (Row.amount r) p) &&
  given_truthy note_contains
    (fun p => null_false (Row.note r) (Sql.like ("%" ++ p ++ "%"))) &&
  given tax_deductible
    (fun p => null_false (Row.tax_deductible r) (fun v => v =? p)).

(** The rows a search matches, pagination removed. *)
Definition matching (ledger : Ledger) (start_date end_date category : option string)
  (min_amount max_amount : option Q) (note_contains : option string)
  (tax_deductible : option Z) : list Row.t :=
  filter (matches start_date end_date category min_amount max_amount
            note_contains tax_deductible) ledger.

Lemma forallb_snoc {A : Type} (l : list (A -> bool)) (c : A -> bool) (r : A) :
  forallb (fun f => f r) (l ++ [c]) = forallb (fun f => f r) l && c r.
Proof. rewrite forallb_app. simpl. rewrite andb_true_r. reflexivity. Qed.

Lemma forallb_append_if_truthy (o : option string)
  (f : string -> Row.t -> bool) (l : list (Row.t -> bool)) (r : Row.t) :
  forallb (fun c => c r) (append_if_truthy o f l) =
  forallb (fun c => c r) l && given_truthy o (fun p => f p r).
Proof.
  destruct o as [v|]; simpl; [destruct (Py.truthy v)|];
    rewrite ?forallb_snoc, ?andb_true_r; reflexivity.
Qed.

Lemma forallb_append_if_given {A : Type} (o : option A)
  (f : A -> Row.t -> bool) (l : list (Row.t -> bool)) (r : Row.t) :
  forallb (fun c => c r) (append_if_given o f l) =
  forallb (fun c => c r) l && given o (fun p => f p r).
Proof.
  destruct o as [v|]; simpl; rewrite ?forallb_snoc, ?andb_true_r; reflexivity.
Qed.

Lemma search_conds_matches sd ed cat mn mx nc td (r : Row.t) :
  forallb (fun c => c r) (search_conds sd ed cat mn mx nc td) =
  matches sd ed cat mn mx nc td r.
Proof.
  unfold search_conds, matches.
  rewrite !forallb_append_if_given, !forallb_append_if_truthy,
    !forallb_append_if_given, !forallb_append_if_truthy.
  reflexivity.
Qed.

Lemma where_search_conds ledger sd ed cat mn mx nc td :
  Sql.where_ (search_conds sd ed cat mn mx nc td) ledger =
  matching ledger sd ed cat mn mx nc td.
Proof.
  unfold Sql.where_, matching. apply filter_ext. intro r.
  apply search_conds_matches.
Qed.


Lemma In_skipn {A : Type} (n : nat) (l : list A) (a : A) :
  In a (skipn n l) -> In a l.
Proof.
  intro H. rewrite <- (firstn_skipn n l). apply in_or_app. right. exact H.
Qed.

Lemma In_firstn {A : Type} (n : nat) (l : list A) (a : A) :
  In a (firstn n l) -> In a l.
Proof.
  intro H. rewrite <- (firstn_skipn n l). apply in_or_app. left. exact H.
Qed.

Lemma limit_offset_incl {A : Type} (limit offset : Z) (rows : list A) (a : A) :
  In a (Sql.limit_offset limit offset rows) -> In a rows.
Proof.
  unfold Sql.limit_offset. intro H.
  destruct (limit <? 0).
  - eapply In_skipn; eassumption.
  - eapply In_skipn, In_firstn; eassumption.
Qed.

Lemma search_results_match ledger sd ed cat mn mx nc td limit offset :
  Forall (fun r => matches sd ed cat mn mx nc td r = true)
    (results (search_expenses ledger sd ed cat mn mx nc td limit offset)).
Proof.
  apply Forall_forall. intros r H. simpl in H.
  apply limit_offset_incl, Sql.order_by_In in H.
  rewrite where_search_conds in H. apply filter_In in H. apply H.
Qed.

End Search.

Section SearchClaims.
Import ExpensesService.
Open Scope Z_scope.




Lemma select_absent (ledger : Ledger) (id : Z) :
  Forall (fun r => Row.id r <> id) ledger -> select_by_id ledger id = None.
Proof.
  unfold select_by_id. induction 1 as [|r l Hr _ IH]; simpl; [reflexivity|].
  apply Z.eqb_neq in Hr. rewrite Hr. exact IH.
Qed.

(** The message of the not-found record. *)
Definition not_found (id : Z) : string :=
  ("Expense with id " ++ Py.str_int id ++ " not found")%string.

Lemma fetch_absent (ledger : Ledger) (id : Z) :
  Forall (fun r => Row.id r <> id) ledger ->
  fetch_by_id ledger id =
  if Sql.int64 id then Ok None else Raise OverflowError.
Proof.
  intro H. unfold fetch_by_id. rewrite (select_absent H). reflexivity.
Qed.




(** An empty string is dropped, as an absent filter is. *)
Definition drop_empty (o : option string) : option string :=
  match o with
  | Some s => if (s =? "")%string then None else Some s
  | None => None
  end.

Lemma given_truthy_drop_empty (o : option string) (p : string -> bool) :
  given_truthy (drop_empty o) p = given_truthy o p.
Proof.
  destruct o as [s|]; [|reflexivity]. unfold drop_empty, given_truthy, Py.truthy.
  destruct (s =? "")%string eqn:E; simpl; [reflexivity|].
  rewrite E. reflexivity.
Qed.

(** What the filters of a search ask of a row: a string filter asks
    something only when it is given and not empty, a numeric filter
    whenever it is given, also when its value is 0. *)
Definition passes (start_date end_date category : option string)
  (min_amount max_amount : option Q) (note_contains : option string)
  (tax_deductible : option Z) (row : Row.t) : Prop :=
  (forall s, start_date = Some s -> s <> ""%string ->
             String.leb s (Row.date row) = true) /\
  (forall s, end_date = Some s -> s <> ""%string ->
             String.leb (Row.date row) s = true) /\
  (forall s, category = Some s -> s <> ""%string -> Row.category row = s) /\
  (forall m, min_amount = Some m -> (m <= Row.amount row)%Q) /\
  (forall m, max_amount = Some m -> (Row.amount row <= m)%Q) /\
  (forall s, note_contains = Some s -> s <> ""%string ->
             exists note, Row.note row = Some note /\
                          Sql.like ("%" ++ s ++ "%") note = true) /\
  (forall t, tax_deductible = Some t -> Row.tax_deductible row = Some t).

Lemma given_truthy_spec (o : option string) (p : string -> bool) :
  given_truthy o p = true <->
  (forall s, o = Some s -> s <> ""%string -> p s = true).
Proof.
  unfold given_truthy, Py.truthy. destruct o as [v|].
  - destruct (String.eqb_spec v ""); simpl; split.
    + intros _ s E Hs. congruence.
    + reflexivity.
    + intros H s E _. congruence.
    + intro H. apply H; [reflexivity|assumption].
  - split; [discriminate|reflexivity].
Qed.

Lemma given_spec {A : Type} (o : option A) (p : A -> bool) :
  given o p = true <-> (forall v, o = Some v -> p v = true).
Proof.
  unfold given. destruct o as [v|]; split.
  - intros H w E. congruence.
  - intro H. apply H. reflexivity.
  - discriminate.
  - reflexivity.
Qed.

Lemma matches_passes sd ed cat mn mx nc td (row : Row.t) :
  matches sd ed cat mn mx nc td row = true <->
  passes sd ed cat mn mx nc td row.
Proof.
  unfold matches, passes.
  rewrite !andb_true_iff, !given_truthy_spec, !given_spec.
  assert (Hnote : forall s,
    null_false (Row.note row) (Sql.like ("%" ++ s ++ "%")) = true <->
    exists note, Row.note row = Some note /\
                 Sql.like ("%" ++ s ++ "%") note = true).
  { intro s. destruct (Row.note row) as [n|]; simpl.
    - split; [eauto|]. intros (n' & E & H). congruence.
    - split; [discriminate|]. intros (n' & E & _). discriminate. }
  assert (Hflag : forall t,
    null_false (Row.tax_deductible row) (fun v => v =? t) = true <->
    Row.tax_deductible row = Some t).
  { intro t. destruct (Row.tax_deductible row) as [v|]; simpl.
    - rewrite Z.eqb_eq. split; congruence.
    - split; discriminate. }
  split.
  - intros ((((((H1 & H2) & H3) & H4) & H5) & H6) & H7).
    repeat split; intros.
    + eauto.
    + eauto.
    + apply String.eqb_eq. eauto.
    + apply Qle_bool_iff. eauto.
    + apply Qle_bool_iff. eauto.
    + apply Hnote. eauto.
    + apply Hflag. eauto.
  - intros (H1 & H2 & H3 & H4 & H5 & H6 & H7).
    repeat split; intros.
    + eauto.
    + eauto.
    + apply String.eqb_eq. eauto.
    + apply Qle_bool_iff. eauto.
    + apply Qle_bool_iff. eauto.
    + apply Hnote. eauto.
    + apply Hflag. eauto.
Qed.

(** C10: an empty string for start_date, end_date, category or
    note_contains is treated as an absent filter, so the search returns
    what it returns without it (in particular category = "" gives the
    results of category absent), while min_amount, max_amount and
    tax_deductible apply whenever they are given, with any value. The
    search selects exactly the ledger rows that pass the filters so read:
    total_count is their number, every row returned is one of them, and
    without pagination all of them are returned. So with tax_deductible = 0
    only rows flagged 0 come back, and with min_amount = 0.0 only rows
    with an amount of at least 0. *)
Theorem search_empty_strings_are_absent_filters
  (ledger : Ledger) (start_date end_date category : option string)
  (min_amount max_amount : option Q) (note_contains : option string)
  (tax_deductible : option Z) (limit offset : Z) :
  let search := search_expenses ledger in
  let r := search start_date end_date category min_amount max_amount
             note_contains tax_deductible limit offset in
  let passing := passes start_date end_date category min_amount max_amount
                   note_contains tax_deductible in
  let selected := filter (matches start_date end_date category min_amount
                            max_amount note_contains tax_deductible) ledger in
  r = search (drop_empty start_date) (drop_empty end_date)
        (drop_empty category) min_amount max_amount
        (drop_empty note_contains) tax_deductible limit offset /\
  search (Some ""%string) end_date category min_amount max_amount
    note_contains tax_deductible limit offset =
  search None end_date category min_amount max_amount note_contains
    tax_deductible limit offset /\
  search start_date (Some ""%string) category min_amount max_amount
    note_contains tax_deductible limit offset =
  search start_date None category min_amount max_amount note_contains
    tax_deductible limit offset /\
  search start_date end_date (Some ""%string) min_amount max_amount
    note_contains tax_deductible limit offset =
  search start_date end_date None min_amount max_amount note_contains
    tax_deductible limit offset /\
  search start_date end_date category min_amount max_amount
    (Some ""%string) tax_deductible limit offset =
  search start_date end_date category min_amount max_amount None
    tax_deductible limit offset /\
  (forall row, In row selected <-> In row ledger /\ passing row) /\
  total_count r = Z.of_nat (List.length selected) /\
  (forall row, In row (results r) -> In row ledger /\ passing row) /\
  (limit < 0 -> offset <= 0 -> Permutation (results r) selected) /\
  (tax_deductible = Some 0 ->
   Forall (fun row => Row.tax_deductible row = Some 0) (results r)) /\
  (min_amount = Some 0%Q ->
   Forall (fun row => (0 <= Row.amount row)%Q) (results r)) /\
  (forall m, max_amount = Some m ->
   Forall (fun row => (Row.amount row <= m)%Q) (results r)).
Proof.
  cbv zeta.
  assert (Hext : forall sd ed cat mn mx nc td sd' ed' cat' nc',
    (forall r, matches sd ed cat mn mx nc td r =
               matches sd' ed' cat' mn mx nc' td r) ->
    search_expenses ledger sd ed cat mn mx nc td limit offset =
    search_expenses ledger sd' ed' cat' mn mx nc' td limit offset).
  { intros * H. unfold search_expenses. rewrite !where_search_conds.
    unfold matching. rewrite (filter_ext _ _ H). reflexivity. }
  assert (Hsound : forall row,
    In row (results (search_expenses ledger start_date end_date category
                       min_amount max_amount note_contains tax_deductible
                       limit offset)) ->
    In row ledger /\
    passes start_date end_date category min_amount max_amount note_contains
      tax_deductible row).
  { intros row H. cbn [results search_expenses] in H.
    apply limit_offset_incl, Sql.order_by_In in H.
    rewrite where_search_conds in H. apply filter_In in H.
    destruct H as [Hin Hm]. split; [exact Hin|].
    apply matches_passes, Hm. }
  split; [|split; [|split; [|split; [|split; [|split; [|split; [|split;
    [|split; [|split; [|split]]]]]]]]]].
  - apply Hext. intro r. unfold matches.
    rewrite !given_truthy_drop_empty. reflexivity.
  - apply Hext. intro r. reflexivity.
  - apply Hext. intro r. reflexivity.
  - apply Hext. intro r. reflexivity.
  - apply Hext. intro r. reflexivity.
  - intro row. rewrite filter_In, matches_passes. reflexivity.
  - unfold search_expenses. cbn [total_count]. unfold Sql.count.
    rewrite where_search_conds. reflexivity.
  - exact Hsound.
  - intros Hl Ho. unfold search_expenses. cbn [results].
    rewrite where_search_conds. unfold Sql.limit_offset, matching.
    apply Z.ltb_lt in Hl. rewrite Hl.
    replace (Z.to_nat offset) with 0%nat by lia. cbn [skipn].
    symmetry. apply Sql.order_by_perm.
  - intros ->. apply Forall_forall. intros row H.
    apply Hsound in H. destruct H as [_ H]. apply H. reflexivity.
  - intros ->. apply Forall_forall. intros row H.
    apply Hsound in H. destruct H as [_ H].
    destruct H as (_ & _ & _ & H & _). apply H. reflexivity.
  - intros m ->. apply Forall_forall. intros row H.
    apply Hsound in H. destruct H as [_ H].
    destruct H as (_ & _ & _ & _ & H & _). apply H. reflexivity.
Qed.

Lemma search_empty_strings_are_absent_filters_witness :
  Permutation
    (results (search_expenses Samples.june None None (Some ""%string) None
                (Some (30 # 1)) None (Some 0) (-1) 0))
    [Samples.row 2 "2025-06-15" 30 "food";
     Samples.row 3 "2025-06-20" 20 "transport"].
Proof.
  apply (search_empty_strings_are_absent_filters Samples.june None None
           (Some ""%string) None (Some (30 # 1)) None (Some 0) (-1) 0); lia.
Defined.

End SearchClaims.

(** ** Aggregation *)

Section AggregationFacts.
Import ExpensesService AnalyticsService.
Open Scope Q_scope.

Lemma cmp_eqb_string (a b : string) :
  cmp_eqb String.compare a b = (a =? b)%string.
Proof.
  apply eq_true_iff_eq.
  rewrite (cmp_eqb_true (cmp := String.compare)), String.eqb_eq.
  reflexivity.
Qed.

Lemma StronglySorted_map {A B : Type} (R : B -> B -> Prop) (f : A -> B)
  (l : list A) :
  StronglySorted R (map f l) ->
  StronglySorted (fun a b => R (f a) (f b)) l.
Proof.
  induction l as [|a l IH]; simpl; intro H; [constructor|].
  inversion H as [|? ? Hs Hf]; subst. constructor; [apply IH, Hs|].
  rewrite Forall_forall in Hf |- *. intros b Hb. apply Hf, in_map, Hb.
Qed.

Lemma sql_sum_nonempty (xs : list Q) :
  xs <> [] -> Sql.sum xs = Some (Money.sum xs).
Proof. destruct xs; [congruence|reflexivity]. Qed.

Lemma amounts_nonempty (rows : list Row.t) : rows <> [] -> amounts rows <> [].
Proof. destruct rows; simpl; congruence. Qed.

(** The rows selected by [date BETWEEN ? AND ?] and the optional
    [category = ?]. *)
Definition in_scope (start_date end_date : string) (category : option string)
  (r : Row.t) : bool :=
  in_range start_date end_date r &&
  given_truthy category (fun p => category_is p r).

Definition scope (ledger : Ledger) (start_date end_date : string)
  (category : option string) : list Row.t :=
  filter (in_scope start_date end_date category) ledger.

Lemma where_scope ledger start_date end_date category :
  Sql.where_
    (append_if_truthy category category_is [in_range start_date end_date])
    ledger
  = scope ledger start_date end_date category.
Proof.
  unfold Sql.where_, scope. apply filter_ext. intro r.
  rewrite forallb_append_if_truthy. unfold in_scope. simpl.
  rewrite andb_true_r. reflexivity.
Qed.

Lemma where_range ledger start_date end_date :
  Sql.where_ [in_range start_date end_date] ledger
  = scope ledger start_date end_date None.
Proof. exact (where_scope ledger start_date end_date None). Qed.

(** The rows of [rows] in category [c]. *)
Definition of_category (c : string) (rows : list Row.t) : list Row.t :=
  filter (fun r => (Row.category r =? c)%string) rows.

Lemma members_category (c : string) (rows : list Row.t) :
  Sql.members String.compare Row.category c rows = of_category c rows.
Proof.
  unfold Sql.members, of_category. apply filter_ext. intro r.
  apply cmp_eqb_string.
Qed.

Lemma summarize_unfold ledger start_date end_date category :
  summarize ledger start_date end_date category =
  map (fun c =>
         mkSummaryRow c
           (Sql.sum (amounts
              (of_category c (scope ledger start_date end_date category)))))
      (Sql.distinct_keys String.compare Row.category
         (scope ledger start_date end_date category)).
Proof.
  unfold summarize, sum_by, Sql.group_by. rewrite where_scope, !map_map.
  apply map_ext. intro c. simpl. rewrite members_category. reflexivity.
Qed.

(** C5: summarize groups the rows of the range (and of the category, when
    one is given) by category and returns the sum of the amounts of each
    category, categories strictly ascending in byte order; every returned
    category has at least one matching row, so a category without rows is
    never listed, and every matching row's category is listed. On the June
    example it returns food with 80 and then transport with 20. *)
Theorem summarize_sums_per_category
  (ledger : Ledger) (start_date end_date : string) (category : option string) :
  let rows := scope ledger start_date end_date category in
  let out := summarize ledger start_date end_date category in
  StronglySorted
    (fun a b => String.compare (sum_category a) (sum_category b) = Lt) out /\
  Forall (fun e =>
            (exists r, In r rows /\ Row.category r = sum_category e) /\
            exists s, sum_total_amount e = Some s /\
                      s == Money.sum (amounts (of_category (sum_category e) rows)))
         out /\
  Forall (fun r => In (Row.category r) (map sum_category out)) rows /\
  summarize Samples.june "2025-06-01" "2025-06-30" None =
    [mkSummaryRow "food" (Some 80); mkSummaryRow "transport" (Some 20)].
Proof.
  cbv zeta. rewrite summarize_unfold.
  set (rows := scope ledger start_date end_date category).
  split; [|split; [|split]].
  - apply (@StronglySorted_map _ _ (fun a b => String.compare a b = Lt)
             sum_category).
    rewrite map_map. simpl. rewrite map_id.
    apply (Sql.distinct_keys_sorted (cmp := String.compare)).
  - apply Forall_forall. intros e He. apply in_map_iff in He.
    destruct He as (c & <- & Hc). simpl.
    apply (Sql.distinct_keys_In (cmp := String.compare)) in Hc.
    destruct Hc as (r & Hr & Hk). split; [eauto|].
    eexists. split; [|reflexivity].
    apply sql_sum_nonempty, amounts_nonempty. intro Hnil.
    assert (Hin : In r (of_category c rows)).
    { apply filter_In. split; [exact Hr|]. apply String.eqb_eq, Hk. }
    rewrite Hnil in Hin. exact Hin.
  - apply Forall_forall. intros r Hr. rewrite map_map. simpl. rewrite map_id.
    apply (Sql.distinct_keys_In (cmp := String.compare)). eauto.
  - reflexivity.
Qed.

End AggregationFacts.

Section TrendsAndForecast.
Import ExpensesService AnalyticsService.
Open Scope Z_scope.

Variable strftime : string -> string -> option string.

(** The period key of a row under a grouping choice. *)
Definition period_of (group_by : string) (r : Row.t) : option string :=
  date_trunc strftime group_by r.

(** The rows of [rows] whose period key is [p]. *)
Definition in_period (group_by : string) (p : option string)
  (rows : list Row.t) : list Row.t :=
  Sql.members (option_compare String.compare) (period_of group_by) p rows.

Lemma in_period_In group_by p rows r :
  In r (in_period group_by p rows) <->
  In r rows /\ period_of group_by r = p.
Proof. apply Sql.members_In. typeclasses eauto. Qed.

(** C8: for every range and every grouping choice (day, week, month or
    anything else, which groups by month), each period emitted by
    analyze_trends counts at least one row, its expense_count being the
    number of rows of the range with that period key, and the periods are
    strictly ascending by key. *)
Theorem analyze_trends_periods_nonempty_ascending
  (ledger : Ledger) (start_date end_date group_by : string) :
  let rows := scope ledger start_date end_date None in
  let out := tr_trends (analyze_trends strftime ledger start_date end_date
                          group_by) in
  Forall (fun t =>
            1 <= tr_expense_count t /\
            tr_expense_count t =
              Z.of_nat (List.length (in_period group_by (tr_period t) rows)))
         out /\
  StronglySorted
    (fun a b =>
       option_compare String.compare (tr_period a) (tr_period b) = Lt) out.
Proof.
  cbv zeta. unfold analyze_trends. cbn [tr_trends].
  rewrite where_range. set (rows := scope ledger start_date end_date None).
  unfold Sql.group_by. rewrite !map_map. split.
  - apply Forall_forall. intros t Ht. apply in_map_iff in Ht.
    destruct Ht as (p & <- & Hp). cbn.
    apply (Sql.distinct_keys_In (cmp := option_compare String.compare)) in Hp.
    destruct Hp as (r & Hr & Hk).
    unfold Sql.count, amounts. rewrite length_map.
    split; [|reflexivity].
    assert (Hin : In r (in_period group_by p rows))
      by (apply in_period_In; auto).
    unfold in_period, period_of in Hin.
    destruct (Sql.members _ _ p rows); [destruct Hin|simpl; lia].
  - apply (@StronglySorted_map _ _
             (fun a b => option_compare String.compare a b = Lt) tr_period).
    rewrite map_map. cbn. rewrite map_id.
    apply (Sql.distinct_keys_sorted (cmp := option_compare String.compare)).
Qed.



End TrendsAndForecast.

Section ForecastExamples.
Import AnalyticsService.
Open Scope Z_scope.


End ForecastExamples.

Section CompareMonths.
Import ExpensesService AnalyticsService.
Open Scope Q_scope.

Variable py_int : string -> option Z.

Lemma or0_sql_sum (xs : list Q) : Money.or0 (Sql.sum xs) == Money.sum xs.
Proof. rewrite Money.or0_eq. destruct xs; reflexivity. Qed.

(** The sum of the amounts of the rows in a range (and category). *)
Definition exact_total (ledger : Ledger) (bounds : string * string)
  (category : option string) : Q :=
  Money.sum (amounts (scope ledger (fst bounds) (snd bounds) category)).

Lemma month_total_exact ledger bounds category :
  month_total ledger bounds category == exact_total ledger bounds category.
Proof.
  unfold month_total, exact_total. rewrite where_scope. apply or0_sql_sum.
Qed.

Lemma div_nonzero (a b : Q) : ~ b == 0 -> Money.div a b = Ok (a / b).
Proof.
  intro H. unfold Money.div. destruct (Qeq_bool b 0) eqn:E; [|reflexivity].
  apply Qeq_bool_iff in E. contradiction.
Qed.

Lemma percent_of_spec (part whole : Q) :
  exists pct,
    percent_of part whole = Ok pct /\
    (0 < whole -> pct == part / whole * 100) /\
    (whole <= 0 -> pct == 0).
Proof.
  unfold percent_of. destruct (Money.Qltb 0 whole) eqn:E.
  - apply Money.Qltb_lt in E. rewrite div_nonzero by lra. cbn [bind].
    eexists. split; [reflexivity|]. split; [reflexivity|]. lra.
  - apply Money.Qltb_false in E. eexists. split; [reflexivity|].
    split; [lra|reflexivity].
Qed.

Lemma month_start_end_raises (month_ym : string) (e : exn) :
  Dates.month_start_end py_int month_ym = Raise e -> e <> ZeroDivisionError.
Proof.
  unfold Dates.month_start_end, Dates.parse_month, Dates.int,
    Dates.monthrange_ndays.
  destruct (Py.split _ month_ym) as [|a [|b [|c l]]]; cbn [bind];
    try (intro H; inversion H; discriminate).
  destruct (py_int a); cbn [bind]; [|intro H; inversion H; discriminate].
  destruct (py_int b); cbn [bind]; [|intro H; inversion H; discriminate].
  destruct (_ && _)%bool; cbn [bind]; intro H; inversion H; discriminate.
Qed.

(** C3: compare_months never fails with a division by zero; whenever both
    month tokens resolve to day bounds it returns a response whose
    difference is total2 - total1 and whose percent_change is
    difference / total1 * 100 when total1 > 0 and 0 when total1 <= 0,
    in particular when month1 has no rows, each rounded to two decimals at
    the response field; the totals are the sums of the amounts of each
    month's rows, a month without rows counting as 0. *)
Theorem compare_months_guards_zero_total
  (ledger : Ledger) (month1 month2 : string) (category : option string) :
  compare_months py_int ledger month1 month2 category
    <> Raise ZeroDivisionError /\
  forall b1 b2,
    Dates.month_start_end py_int month1 = Ok b1 ->
    Dates.month_start_end py_int month2 = Ok b2 ->
    let total1 := exact_total ledger b1 category in
    let total2 := exact_total ledger b2 category in
    exists r difference percent_change,
      compare_months py_int ledger month1 month2 category = Ok r /\
      difference == total2 - total1 /\
      (0 < total1 -> percent_change == difference / total1 * 100) /\
      (total1 <= 0 -> percent_change == 0) /\
      (scope ledger (fst b1) (snd b1) category = [] -> percent_change == 0) /\
      cm_total1 r == Money.round2 total1 /\
      cm_total2 r == Money.round2 total2 /\
      cm_difference r == Money.round2 difference /\
      cm_percent_change r == Money.round2 percent_change.
Proof.
  split.
  - unfold compare_months.
    destruct (Dates.month_start_end py_int month1) as [b1|e1] eqn:E1;
      cbn [bind]; [|intro H; inversion H; subst;
                    exact (month_start_end_raises _ E1 eq_refl)].
    destruct (Dates.month_start_end py_int month2) as [b2|e2] eqn:E2;
      cbn [bind]; [|intro H; inversion H; subst;
                    exact (month_start_end_raises _ E2 eq_refl)].
    destruct (percent_of_spec
                (month_total ledger b2 category
                 - month_total ledger b1 category)
                (month_total ledger b1 category)) as (pct & -> & _).
    cbn [bind]. discriminate.
  - intros b1 b2 E1 E2 total1 total2. unfold compare_months.
    rewrite E1, E2. cbn [bind].
    pose proof (month_total_exact ledger b1 category) as H1.
    pose proof (month_total_exact ledger b2 category) as H2.
    fold total1 in H1. fold total2 in H2.
    destruct (percent_of_spec
                (month_total ledger b2 category
                 - month_total ledger b1 category)
                (month_total ledger b1 category))
      as (pct & -> & Hpos & Hnonpos).
    cbn [bind]. eexists. exists (total2 - total1), pct.
    split; [reflexivity|]. cbn.
    split; [reflexivity|].
    split; [intro H; rewrite Hpos by lra; rewrite H1, H2; reflexivity|].
    split; [intro H; apply Hnonpos; lra|].
    split; [intro H; apply Hnonpos; rewrite H1; unfold total1, exact_total;
            rewrite H; simpl; lra|].
    rewrite H1, H2. repeat split; reflexivity.
Qed.

End CompareMonths.

Section CompareMonthsExamples.
Import AnalyticsService.
Open Scope Q_scope.

Lemma compare_months_guards_zero_total_witness :
  exists r difference percent_change,
    compare_months Dates.int_of_digits Samples.june "2025-01" "2025-06" None
      = Ok r /\
    difference == 100 - 0 /\
    percent_change == 0 /\
    cm_difference r == Money.round2 difference /\
    cm_percent_change r == Money.round2 percent_change.
Proof.
  destruct (compare_months_guards_zero_total Dates.int_of_digits Samples.june
              "2025-01" "2025-06" None) as [_ H].
  destruct (H ("2025-01-01", "2025-01-31")%string
              ("2025-06-01", "2025-06-30")%string eq_refl eq_refl)
    as (r & d & p & Hr & Hd & _ & Hp & _ & _ & _ & Hrd & Hrp).
  exists r, d, p. repeat split; try assumption.
  apply Hp. vm_compute. discriminate.
Defined.

End CompareMonthsExamples.

(** ** Sums over groups *)

Section GroupSums.
Import AnalyticsService.
Open Scope Q_scope.

Lemma mapM_map {A B : Type} (f : A -> result B) (g : A -> B) (l : list A) :
  (forall a, In a l -> f a = Ok (g a)) -> mapM f l = Ok (map g l).
Proof.
  induction l as [|a l IH]; intro H; simpl; [reflexivity|].
  rewrite (H a (or_introl eq_refl)). cbn [bind].
  rewrite IH by (intros b Hb; apply H; right; exact Hb). reflexivity.
Qed.

Lemma sum_perm (l l' : list Q) :
  Permutation l l' -> Money.sum l == Money.sum l'.
Proof.
  induction 1 as [|x l l' _ IH|x y l|l l' l'' _ IH1 _ IH2]; simpl.
  - reflexivity.
  - rewrite IH. reflexivity.
  - lra.
  - rewrite IH1. exact IH2.
Qed.

Lemma sum_map_ext {A : Type} (f g : A -> Q) (l : list A) :
  (forall a, In a l -> f a == g a) ->
  Money.sum (map f l) == Money.sum (map g l).
Proof.
  induction l as [|a l IH]; intro H; simpl; [reflexivity|].
  rewrite (H a (or_introl eq_refl)), IH; [reflexivity|].
  intros b Hb. apply H. right. exact Hb.
Qed.

Lemma sum_map_scale {A : Type} (f : A -> Q) (c : Q) (l : list A) :
  Money.sum (map (fun a => f a * c) l) == Money.sum (map f l) * c.
Proof. induction l as [|a l IH]; simpl; [lra|]. rewrite IH. lra. Qed.

Lemma sum_map_zero {A : Type} (l : list A) :
  Money.sum (map (fun _ => 0) l) == 0.
Proof. induction l as [|a l IH]; simpl; [reflexivity|]. rewrite IH. lra. Qed.

Lemma sum_map_add {A : Type} (f g : A -> Q) (l : list A) :
  Money.sum (map (fun a => f a + g a) l) ==
  Money.sum (map f l) + Money.sum (map g l).
Proof. induction l as [|a l IH]; simpl; [lra|]. rewrite IH. lra. Qed.

(** Rounding each of [n] terms moves their sum by at most [n] half
    cents. *)
Lemma sum_round2_err (l : list Q) :
  Qabs (Money.sum (map Money.round2 l) - Money.sum l)
    <= inject_Z (Z.of_nat (List.length l)) * (1 # 200).
Proof.
  induction l as [|x l IH].
  - cbn [map Money.sum List.length]. apply Qabs_Qle_condition.
    change (inject_Z (Z.of_nat 0)) with 0. split; lra.
  - cbn [map Money.sum List.length].
    rewrite Nat2Z.inj_succ, <- Z.add_1_r, inject_Z_plus.
    pose proof (Money.round2_err x) as Hx.
    apply Qabs_Qle_condition in Hx. apply Qabs_Qle_condition in IH.
    apply Qabs_Qle_condition. change (inject_Z 1) with 1. split; lra.
Qed.

Context {K : Type} (cmp : K -> K -> comparison) `{!TotalCmp cmp}.
Variable key : Row.t -> K.

Lemma sorted_keys_NoDup (ks : list K) :
  StronglySorted (cmp_lt cmp) ks -> NoDup ks.
Proof.
  induction 1 as [|k ks _ IH Hk]; constructor; [|exact IH].
  intro Hin. rewrite Forall_forall in Hk. specialize (Hk _ Hin).
  unfold cmp_lt in Hk. rewrite cmp_refl in Hk. discriminate.
Qed.

(** Exactly one key of a duplicate-free list equals a key it contains. *)
Lemma sum_indicator (k0 : K) (a : Q) (ks : list K) :
  NoDup ks ->
  Money.sum (map (fun k => if cmp_eqb cmp k0 k then a else 0) ks) ==
  if existsb (cmp_eqb cmp k0) ks then a else 0.
Proof.
  induction 1 as [|k ks Hk _ IH]; simpl; [reflexivity|].
  rewrite IH. destruct (cmp_eqb cmp k0 k) eqn:E; simpl; [|lra].
  apply (cmp_eqb_true (cmp := cmp)) in E. subst k.
  destruct (existsb (cmp_eqb cmp k0) ks) eqn:Ex; [|lra].
  exfalso. apply existsb_exists in Ex. destruct Ex as (k & Hin & Ek).
  apply (cmp_eqb_true (cmp := cmp)) in Ek. subst k. contradiction.
Qed.

(** The sums of the groups add up to the sum of all rows, whenever the
    keys are distinct and cover the rows. *)
Lemma sum_members (ks : list K) (rows : list Row.t) :
  NoDup ks ->
  (forall r, In r rows -> In (key r) ks) ->
  Money.sum (map (fun k => Money.sum (amounts (Sql.members cmp key k rows))) ks)
    == Money.sum (amounts rows).
Proof.
  intros Hnd. induction rows as [|r rows IH]; intro Hcover.
  - simpl. apply sum_map_zero.
  - rewrite (sum_map_ext
               (fun k => Money.sum (amounts (Sql.members cmp key k (r :: rows))))
               (fun k => (if cmp_eqb cmp (key r) k then Row.amount r else 0)
                         + Money.sum (amounts (Sql.members cmp key k rows)))).
    + rewrite sum_map_add, IH, sum_indicator by auto using in_cons.
      assert (Hex : existsb (cmp_eqb cmp (key r)) ks = true).
      { apply existsb_exists. exists (key r). split.
        - apply Hcover. left. reflexivity.
        - apply (cmp_eqb_true (cmp := cmp)). reflexivity. }
      rewrite Hex. simpl. reflexivity.
    + intros k _. unfold Sql.members. simpl.
      destruct (cmp_eqb cmp (key r) k); simpl; lra.
Qed.

Lemma sum_group_totals (rows : list Row.t) :
  Money.sum
    (map (fun g => Money.sum (amounts (snd g))) (Sql.group_by cmp key rows))
    == Money.sum (amounts rows).
Proof.
  unfold Sql.group_by. rewrite map_map. cbn [snd].
  apply sum_members.
  - apply sorted_keys_NoDup, Sql.distinct_keys_sorted. assumption.
  - intros r Hr. apply Sql.distinct_keys_In; eauto.
Qed.

End GroupSums.

(** ** Category analytics *)

Section CategoryAnalytics.
Import AnalyticsService.
Open Scope Q_scope.

Lemma desc_by_total {A : Type} (f : A -> option Q) (a b : A) :
  desc_by f a b = true \/ desc_by f b a = true.
Proof.
  unfold desc_by. destruct (f a) as [x|], (f b) as [y|]; auto.
  destruct (Qlt_le_dec x y) as [H|H].
  - right. apply Qle_bool_iff. lra.
  - left. apply Qle_bool_iff. exact H.
Qed.

Lemma desc_by_trans {A : Type} (f : A -> option Q) (a b c : A) :
  desc_by f a b = true -> desc_by f b c = true -> desc_by f a c = true.
Proof.
  unfold desc_by.
  destruct (f a) as [x|], (f b) as [y|], (f c) as [z|]; auto;
    try discriminate.
  rewrite !Qle_bool_iff. intros. lra.
Qed.

Lemma order_by_desc_sorted {A : Type} (f : A -> option Q) (l : list A) :
  StronglySorted (fun a b => desc_by f a b = true)
    (Sql.order_by (desc_by f) l).
Proof.
  apply Sql.order_by_sorted; [apply desc_by_total|apply desc_by_trans].
Qed.

Lemma StronglySorted_map_In {A B : Type} (R : A -> A -> Prop)
  (R' : B -> B -> Prop) (g : A -> B) (l : list A) :
  (forall a b, In a l -> In b l -> R a b -> R' (g a) (g b)) ->
  StronglySorted R l -> StronglySorted R' (map g l).
Proof.
  intros H Hs. induction Hs as [|a l Hs IH Ha]; simpl; [constructor|].
  constructor.
  - apply IH. intros x y Hx Hy. apply H; right; assumption.
  - rewrite Forall_forall in Ha |- *. intros y Hy.
    apply in_map_iff in Hy. destruct Hy as (b & <- & Hb).
    apply H; [left; reflexivity|right; exact Hb|apply Ha, Hb].
Qed.

(** The sum of the amounts of category [c] among [rows]. *)
Definition category_total (rows : list Row.t) (c : string) : Q :=
  Money.sum (amounts (of_category c rows)).

Lemma category_groups_In (rows : list Row.t) (d : Agg string) :
  In d (category_groups rows) ->
  d = aggregate (key d, of_category (key d) rows) /\
  total d = Some (category_total rows (key d)).
Proof.
  unfold category_groups. rewrite Sql.order_by_In, in_map_iff.
  intros ([c g] & <- & Hg). cbn [aggregate key fst snd total].
  pose proof (Sql.group_by_nonempty _ _ _ Hg) as Hne.
  apply Sql.group_by_In in Hg; [|typeclasses eauto].
  destruct Hg as (-> & _). rewrite members_category in *.
  split; [reflexivity|].
  apply sql_sum_nonempty, amounts_nonempty, Hne.
Qed.

Lemma category_groups_sum (rows : list Row.t) :
  Money.sum (map (fun d => category_total rows (key d)) (category_groups rows))
    == Money.sum (amounts rows).
Proof.
  unfold category_groups.
  rewrite <- (sum_perm (Permutation_map _ (Sql.order_by_perm _ _))).
  rewrite map_map.
  rewrite <- (sum_group_totals (cmp := String.compare) Row.category rows).
  unfold Sql.group_by. rewrite !map_map. cbn.
  apply sum_map_ext. intros c _. unfold category_total.
  rewrite members_category. reflexivity.
Qed.

(** The share of a group in [total_spent], before rounding. *)
Definition share (total_spent : Q) (d : Agg string) : Q :=
  if Money.Qltb 0 total_spent then
    match total d with
    | Some t => t / total_spent * 100
    | None => 0
    end
  else 0.

Definition row_of (total_spent : Q) (d : Agg string) : CategoryRow :=
  mkCategoryRow (key d) (count d)
    (Money.round2 (Money.or0 (total d)))
    (Money.round2 (Money.or0 (average d)))
    (Money.round2 (Money.or0 (min_amount d)))
    (Money.round2 (Money.or0 (max_amount d)))
    (Money.round2 (share total_spent d)).

Lemma category_row_ok (total_spent : Q) (d : Agg string) (t : Q) :
  total d = Some t -> category_row total_spent d = Ok (row_of total_spent d).
Proof.
  intro Ht. unfold category_row, share_of, row_of, share. rewrite Ht.
  destruct (Money.Qltb 0 total_spent) eqn:E; cbn [bind number];
    [|reflexivity].
  apply Money.Qltb_lt in E. rewrite div_nonzero by lra. reflexivity.
Qed.

Lemma category_analytics_unfold ledger start_date end_date :
  let rows := scope ledger start_date end_date None in
  let total_spent := Money.or0 (Sql.sum (amounts rows)) in
  category_analytics ledger start_date end_date =
  Ok (mkCategoryResponse start_date end_date (Money.round2 total_spent)
        (map (row_of total_spent) (category_groups rows))).
Proof.
  cbv zeta. unfold category_analytics. rewrite where_range.
  set (rows := scope ledger start_date end_date None).
  set (ts := Money.or0 (Sql.sum (amounts rows))).
  rewrite (@mapM_map _ _ (category_row ts) (row_of ts)
             (category_groups rows)); [reflexivity|].
  intros d Hd. apply category_groups_In in Hd. destruct Hd as [_ Ht].
  eapply category_row_ok, Ht.
Qed.

(** C4: category_analytics returns, for every range, one entry per
    category whose percentage is category_total / grand_total * 100 when
    the grand total of the range is positive and 0 when it is zero or
    negative (each rounded to two decimals at the response field); the
    entries are ordered by total amount descending; and when the grand
    total is positive the percentages add up to 100 within half a cent of
    rounding per category. The operation never raises. *)
Theorem category_analytics_percentages
  (ledger : Ledger) (start_date end_date : string) :
  let rows := scope ledger start_date end_date None in
  let grand_total := Money.sum (amounts rows) in
  exists r,
    category_analytics ledger start_date end_date = Ok r /\
    ca_total_spent r == Money.round2 grand_total /\
    Forall (fun c =>
              (exists row, In row rows /\ Row.category row = ca_category c) /\
              ca_total c == Money.round2 (category_total rows (ca_category c)) /\
              (0 < grand_total ->
               ca_percentage c ==
                 Money.round2
                   (category_total rows (ca_category c) / grand_total * 100)) /\
              (grand_total <= 0 -> ca_percentage c == 0))
           (ca_categories r) /\
    StronglySorted
      (fun a b => category_total rows (ca_category b)
                  <= category_total rows (ca_category a))
      (ca_categories r) /\
    StronglySorted (fun a b => ca_total b <= ca_total a) (ca_categories r) /\
    (0 < grand_total ->
     Qabs (Money.sum (map ca_percentage (ca_categories r)) - 100)
       <= inject_Z (Z.of_nat (List.length (ca_categories r))) * (1 # 200)).
Proof.
  intros rows grand_total.
  pose proof (category_analytics_unfold ledger start_date end_date) as Hr.
  cbv zeta in Hr. fold rows in Hr.
  set (ts := Money.or0 (Sql.sum (amounts rows))) in Hr.
  assert (Hts : ts == grand_total) by apply or0_sql_sum.
  assert (Hsorted : StronglySorted
            (fun a b => category_total rows (key b)
                        <= category_total rows (key a))
            (category_groups rows)).
  { pose proof (order_by_desc_sorted (@total string)
                  (map aggregate
                     (Sql.group_by String.compare Row.category rows))) as Hs.
    fold (category_groups rows) in Hs.
    rewrite <- (map_id (category_groups rows)).
    eapply StronglySorted_map_In; [|exact Hs].
    intros a b Ha Hb Hab. cbv beta.
    apply category_groups_In in Ha. apply category_groups_In in Hb.
    destruct Ha as [_ Ha]. destruct Hb as [_ Hb].
    unfold desc_by in Hab. rewrite Ha, Hb in Hab.
    apply Qle_bool_iff in Hab. exact Hab. }
  eexists. split; [exact Hr|]. cbn [ca_total_spent ca_categories].
  split; [rewrite Hts; reflexivity|].
  split; [|split; [|split]].
  - apply Forall_forall. intros c Hc. apply in_map_iff in Hc.
    destruct Hc as (d & <- & Hd). cbn.
    pose proof (category_groups_In _ _ Hd) as [Hshape Ht].
    split.
    { unfold category_groups in Hd.
      rewrite Sql.order_by_In, in_map_iff in Hd.
      destruct Hd as ([k g] & <- & Hg). cbn.
      apply Sql.group_by_In in Hg; [|typeclasses eauto].
      destruct Hg as (_ & row & Hrow & Hk). eauto. }
    rewrite Ht. split; [rewrite Money.or0_eq; reflexivity|].
    unfold share. rewrite Ht. split; intro Hg.
    + assert (E : Money.Qltb 0 ts = true) by (apply Money.Qltb_lt; lra).
      rewrite E, Hts. reflexivity.
    + assert (E : Money.Qltb 0 ts = false) by (apply Money.Qltb_false; lra).
      rewrite E. reflexivity.
  - eapply StronglySorted_map_In; [|exact Hsorted].
    intros a b _ _ H. exact H.
  - eapply StronglySorted_map_In; [|exact Hsorted].
    intros a b Ha Hb H. cbn.
    apply category_groups_In in Ha. apply category_groups_In in Hb.
    destruct Ha as [_ Ha]. destruct Hb as [_ Hb]. rewrite Ha, Hb.
    apply Money.round2_mono. rewrite !Money.or0_eq. exact H.
  - intro Hpos. rewrite length_map, map_map. cbn [ca_percentage row_of].
    assert (E : Money.Qltb 0 ts = true) by (apply Money.Qltb_lt; lra).
    assert (Hexact :
      Money.sum (map (share ts) (category_groups rows)) == 100).
    { rewrite (sum_map_ext (share ts)
                 (fun d => category_total rows (key d) * (100 / grand_total))).
      - rewrite sum_map_scale, category_groups_sum.
        fold grand_total. field. lra.
      - intros d Hd. apply category_groups_In in Hd. destruct Hd as [_ Ht].
        unfold share. rewrite E, Ht, Hts. field. lra. }
    rewrite <- Hexact.
    pose proof (sum_round2_err (map (share ts) (category_groups rows))) as Herr.
    rewrite map_map, length_map in Herr. exact Herr.
Qed.

End CategoryAnalytics.

Section CategoryAnalyticsExamples.
Import AnalyticsService.
Open Scope Q_scope.

Lemma category_analytics_percentages_witness :
  exists r,
    category_analytics Samples.june "2025-06-01" "2025-06-30" = Ok r /\
    Qabs (Money.sum (map ca_percentage (ca_categories r)) - 100)
      <= inject_Z (Z.of_nat (List.length (ca_categories r))) * (1 # 200).
Proof.
  destruct (category_analytics_percentages Samples.june
              "2025-06-01" "2025-06-30")
    as (r & Hr & _ & _ & _ & _ & Hsum).
  exists r. split; [exact Hr|]. apply Hsum. vm_compute. reflexivity.
Defined.

End CategoryAnalyticsExamples.

(** ** Rounding of the response fields *)

Section Rounding.
Import AnalyticsService.
Open Scope Q_scope.

Variable py_int : string -> option Z.
Variable strftime : string -> string -> option string.
Variable days_between : string -> string -> option Z.

(** The aggregated amounts of each response. *)
Definition compare_amounts (r : CompareResponse) : list Q :=
  [cm_total1 r; cm_total2 r; cm_difference r].

Definition trend_amounts (t : TrendRow) : list Q :=
  [tr_total t; tr_average t; tr_min_amount t; tr_max_amount t].

Definition category_amounts (c : CategoryRow) : list Q :=
  [ca_total c; ca_average c; ca_min_amount c; ca_max_amount c].

Definition statistics_amounts (r : StatisticsResponse) : list Q :=
  [st_total_spent r; st_average_expense r; st_min_expense r;
   st_max_expense r; st_daily_average r; snd (st_most_expensive_day r);
   snd (st_top_category r)].

Definition forecast_amounts (r : ForecastResponse) : list Q :=
  fc_monthly_average r
    :: map fc_projected (fc_total_projections r)
    ++ flat_map (fun cf => fc_historical_avg_monthly cf
                             :: map fc_projected (fc_projections cf))
         (fc_category_forecasts r).

Definition tax_amounts (r : TaxResponse) : list Q :=
  tx_grand_total r :: map tx_total (tx_summary r).

Lemma two_dp_0 : Money.two_dp 0.
Proof. exists 0%Z. reflexivity. Qed.

Lemma top_entry_two_dp row p : top_entry row = Ok p -> Money.two_dp (snd p).
Proof.
  unfold top_entry. destruct row as [[k [t|]]|]; cbn; intro H;
    inversion H; subst; cbn; auto using Money.round2_two_dp, two_dp_0.
Qed.

Lemma projections_two_dp today months_ahead x :
  Forall Money.two_dp
    (map fc_projected (projections today months_ahead (Money.round2 x))).
Proof.
  unfold projections. rewrite map_map. cbn. apply Forall_forall.
  intros y Hy. apply in_map_iff in Hy. destruct Hy as (i & <- & _).
  apply Money.round2_two_dp.
Qed.

Lemma accumulate_sum (t0 : Q) (l : list Row.t) :
  accumulate t0 l == t0 + Money.sum (amounts l).
Proof.
  unfold accumulate. revert t0. induction l as [|r l IH]; intro t0; simpl.
  - lra.
  - rewrite IH. destruct (Qeq_bool (Row.amount r) 0) eqn:E; [|lra].
    apply Qeq_bool_iff in E. rewrite E. lra.
Qed.

Lemma bucket_sum_cons (b : Bucket) (r : Row.t) (rows : list Row.t) :
  Money.sum (amounts (filter (in_bucket b) (r :: rows))) ==
  (if bucket_eqb (bucket_of r) b then Row.amount r else 0)
  + Money.sum (amounts (filter (in_bucket b) rows)).
Proof.
  cbn [filter]. unfold in_bucket at 1.
  destruct (bucket_eqb (bucket_of r) b); simpl; lra.
Qed.

Lemma bucket_partition_sum (rows : list Row.t) :
  Money.sum
    (map (fun b => Money.sum (amounts (filter (in_bucket b) rows))) buckets)
    == Money.sum (amounts rows).
Proof.
  induction rows as [|r rows IH]; [reflexivity|].
  cbn [map buckets Money.sum] in IH |- *.
  rewrite !bucket_sum_cons. cbn [amounts map Money.sum].
  fold (amounts rows). rewrite <- IH.
  destruct (bucket_of r); cbn [bucket_eqb]; lra.
Qed.

(** The entries built from the two dictionaries after the loop. *)
Definition entries_of (fc : Bucket -> list Row.t) (ft : Bucket -> Q)
  (ks : list Bucket) : list TaxEntry :=
  flat_map (fun k => match fc k with
                     | [] => []
                     | _ :: _ => [mkTaxEntry (bucket_name k)
                                    (Money.round2 (ft k))
                                    (Sql.count (fc k)) (fc k)]
                     end) ks.

Lemma tax_entries_of fc ft (ks : list Bucket) :
  tax_entries (dict_of ft) (map (fun k => (k, fc k)) ks)
  = Ok (entries_of fc ft ks).
Proof.
  induction ks as [|k ks IH]; [reflexivity|].
  cbn [map tax_entries entries_of flat_map].
  destruct (fc k) eqn:E; [exact IH|].
  rewrite dict_get_of. cbn [bind]. rewrite IH. reflexivity.
Qed.

Lemma tax_entries_dict fc ft :
  tax_entries (dict_of ft) (dict_of fc) = Ok (entries_of fc ft buckets).
Proof. exact (tax_entries_of fc ft buckets). Qed.

Lemma tax_summary_unfold ledger year category :
  let rows := tax_expenses_of ledger year category in
  let fc := fun b => filter (in_bucket b) rows in
  let ft := fun b => accumulate 0 (filter (in_bucket b) rows) in
  tax_summary ledger year category =
  Ok (mkTaxResponse year category
        (Money.round2 (Money.sum (map snd (dict_of ft))))
        (Sql.count rows) (entries_of fc ft buckets)).
Proof.
  cbv zeta. unfold tax_summary. rewrite tax_loop_init. cbn [bind].
  cbn [totals tax_categories]. rewrite tax_entries_dict. reflexivity.
Qed.

End Rounding.

Section RoundingExamples.
Import AnalyticsService.
Open Scope Q_scope.

(** C6, as stated, fails for summarize: it returns the raw SUM of each
    category. A single row of 0.125 is summarized as 0.125, which has three
    decimals. *)
Lemma summarize_returns_unrounded_sum :
  summarize Samples.eighth "2025-06-01" "2025-06-30" None
    = [mkSummaryRow "food" (Some (1 # 8))] /\
  ~ Money.two_dp (1 # 8).
Proof.
  split; [reflexivity|]. intros [k Hk]. unfold Qeq in Hk. simpl in Hk. lia.
Qed.

End RoundingExamples.


(** * Further operations and their properties *)

(** ** Month arithmetic and month bounds ([utils/dates.py]) *)

Section MonthArithmetic.
Open Scope Z_scope.

(** The month index of a (year, month) pair: months counted from year 0. *)
Definition month_index (ym : Z * Z) : Z := fst ym * 12 + (snd ym - 1).

(** X1: add_months returns a month between 1 and 12 and moves the month
    index year * 12 + (month - 1) by exactly delta, for every integer input
    (also a negative delta, and a month outside 1..12). *)
Theorem add_months_shifts_month_index (year month delta : Z) :
  1 <= snd (Dates.add_months year month delta) <= 12 /\
  month_index (Dates.add_months year month delta)
    = month_index (year, month) + delta.
Proof.
  unfold Dates.add_months, month_index. cbn [fst snd].
  pose proof (Z.mod_pos_bound (year * 12 + (month - 1) + delta) 12 eq_refl).
  pose proof (Z.div_mod (year * 12 + (month - 1) + delta) 12).
  lia.
Qed.

(** X2: shifting by a and then by b is shifting by a + b; and for a month
    between 1 and 12, shifting by delta and back by -delta returns the
    starting (year, month). *)
Theorem add_months_compose (year month a b : Z) :
  (let (y1, m1) := Dates.add_months year month a in
   Dates.add_months y1 m1 b = Dates.add_months year month (a + b)) /\
  (1 <= month <= 12 ->
   let (y1, m1) := Dates.add_months year month a in
   Dates.add_months y1 m1 (- a) = (year, month)).
Proof.
  unfold Dates.add_months.
  pose proof (Z.div_mod (year * 12 + (month - 1) + a) 12 ltac:(lia)) as Ha.
  split.
  - replace ((year * 12 + (month - 1) + a) / 12 * 12
             + ((year * 12 + (month - 1) + a) mod 12 + 1 - 1) + b)
      with (year * 12 + (month - 1) + (a + b)) by lia.
    reflexivity.
  - intro Hm.
    replace ((year * 12 + (month - 1) + a) / 12 * 12
             + ((year * 12 + (month - 1) + a) mod 12 + 1 - 1) + - a)
      with ((month - 1) + year * 12) by lia.
    rewrite Z.div_add, Z.mod_add by lia.
    rewrite Z.div_small, Z.mod_small by lia. f_equal; lia.
Qed.

Lemma add_months_compose_witness :
  let (y1, m1) := Dates.add_months 2025 1 (-14) in
  Dates.add_months y1 m1 (- -14) = (2025, 1).
Proof. apply (add_months_compose 2025 1 (-14) 0). lia. Defined.

End MonthArithmetic.

Section MonthBounds.
Open Scope string_scope.
Open Scope Z_scope.

Variable py_int : string -> option Z.

(** The token splits at "-" into exactly two parts that [int] accepts. *)
Definition token_parses (month_ym : string) (year month : Z) : Prop :=
  exists a b, Py.split "-" month_ym = [a; b] /\
              py_int a = Some year /\ py_int b = Some month.

(** [f"{y:04d}-{m:02d}-{d:02d}"], an ISO day. *)
Definition iso_date (y m d : Z) : string :=
  Py.format_0d 4 y ++ "-" ++ Py.format_0d 2 m ++ "-" ++ Py.format_0d 2 d.

Lemma parse_month_parses month_ym year month :
  Dates.parse_month py_int month_ym = Ok (year, month) <->
  token_parses month_ym year month.
Proof.
  unfold Dates.parse_month, Dates.int, token_parses. split.
  - destruct (Py.split "-" month_ym) as [|a [|b [|c l]]]; try discriminate.
    destruct (py_int a) as [y|] eqn:Ea; cbn [bind]; [|discriminate].
    destruct (py_int b) as [m|] eqn:Eb; cbn [bind]; [|discriminate].
    intro H. inversion H; subst. eauto.
  - intros (a & b & -> & -> & ->). reflexivity.
Qed.

(** X3: month_start_end raises ValueError when the token does not split
    into two integers, raises IllegalMonthError when it does but the month
    is outside 1..12, and otherwise returns; it raises nothing else. *)
Theorem month_start_end_errors (month_ym : string) :
  ((forall year month, ~ token_parses month_ym year month) ->
   Dates.month_start_end py_int month_ym = Raise ValueError) /\
  (forall year month,
      token_parses month_ym year month -> ~ (1 <= month <= 12) ->
      Dates.month_start_end py_int month_ym = Raise IllegalMonthError) /\
  (forall year month,
      token_parses month_ym year month -> 1 <= month <= 12 ->
      exists bounds, Dates.month_start_end py_int month_ym = Ok bounds).
Proof.
  unfold Dates.month_start_end. split; [|split].
  - intro Hno.
    destruct (Dates.parse_month py_int month_ym) as [[y m]|e] eqn:E.
    + apply parse_month_parses in E. destruct (Hno _ _ E).
    + cbn [bind]. f_equal. revert E.
      unfold Dates.parse_month, Dates.int.
      destruct (Py.split "-" month_ym) as [|a [|b [|c l]]];
        try (intro H; inversion H; reflexivity).
      destruct (py_int a); cbn [bind]; [|intro H; inversion H; reflexivity].
      destruct (py_int b); cbn [bind]; intro H; inversion H; reflexivity.
  - intros year month Hp Hm. apply parse_month_parses in Hp. rewrite Hp.
    cbn [bind]. unfold Dates.monthrange_ndays.
    destruct (Z.leb_spec 1 month); destruct (Z.leb_spec month 12);
      cbn [andb bind]; try reflexivity; lia.
  - intros year month Hp Hm. apply parse_month_parses in Hp. rewrite Hp.
    cbn [bind]. unfold Dates.monthrange_ndays.
    destruct (Z.leb_spec 1 month); destruct (Z.leb_spec month 12);
      cbn [andb bind]; try lia. eauto.
Qed.

End MonthBounds.

Section MonthBoundsExamples.
Open Scope string_scope.
Open Scope Z_scope.

Lemma month_start_end_errors_witness :
  Dates.month_start_end Dates.int_of_digits "2025-13" = Raise IllegalMonthError
  /\ exists bounds,
       Dates.month_start_end Dates.int_of_digits "2024-02" = Ok bounds.
Proof.
  split.
  - apply (month_start_end_errors Dates.int_of_digits "2025-13") with 2025 13.
    + exists "2025", "13". repeat split; reflexivity.
    + lia.
  - apply (month_start_end_errors Dates.int_of_digits "2024-02") with 2024 2.
    + exists "2024", "02". repeat split; reflexivity.
    + lia.
Defined.

End MonthBoundsExamples.

Section MonthSelection.
Open Scope string_scope.
Open Scope Z_scope.

Lemma ascii_compare_refl (c : ascii) : Ascii.compare c c = Eq.
Proof. unfold Ascii.compare. apply N.compare_refl. Qed.

Lemma compare_app_prefix (p a b : string) :
  String.compare (p ++ a) (p ++ b) = String.compare a b.
Proof.
  induction p as [|c p IH]; simpl; [reflexivity|].
  rewrite ascii_compare_refl. exact IH.
Qed.

(** Strings that start with different prefixes of one length compare as
    their prefixes do. *)
Lemma compare_app_length (a b x y : string) :
  String.length a = String.length b ->
  String.compare (a ++ x) (b ++ y) =
  match String.compare a b with
  | Eq => String.compare x y
  | c => c
  end.
Proof.
  revert b. induction a as [|c a IH]; intros [|d b] H; simpl in *;
    try discriminate; [reflexivity|].
  destruct (Ascii.compare c d); try reflexivity. apply IH. congruence.
Qed.

Lemma between_app_prefix (p x lo hi : string) :
  Sql.between (p ++ x) (p ++ lo) (p ++ hi) = Sql.between x lo hi.
Proof.
  unfold Sql.between, String.leb. rewrite !compare_app_prefix. reflexivity.
Qed.

Lemma between_other_prefix (a b x lo hi : string) :
  String.length a = String.length b -> a <> b ->
  Sql.between (a ++ x) (b ++ lo) (b ++ hi) = false.
Proof.
  intros Hlen Hne. unfold Sql.between, String.leb.
  rewrite (compare_app_length b a lo x) by congruence.
  rewrite (compare_app_length a b x hi) by congruence.
  rewrite (String.compare_antisym b a).
  destruct (String.compare a b) eqn:E; try reflexivity.
  apply String.compare_eq_iff in E. contradiction.
Qed.

Definition range_Z (lo n : nat) : list Z := map Z.of_nat (seq lo n).

Lemma range_Z_In (lo n : nat) (z : Z) :
  Z.of_nat lo <= z < Z.of_nat lo + Z.of_nat n -> In z (range_Z lo n).
Proof.
  intro H. unfold range_Z. apply in_map_iff. exists (Z.to_nat z).
  split; [lia|]. apply in_seq. lia.
Qed.

(** Four-digit years print in four characters and read back. *)
Definition year_prints (y : Z) : bool :=
  (String.length (Py.format_0d 4 y) =? 4)%nat &&
  match Dates.int_of_digits (Py.format_0d 4 y) with
  | Some v => v =? y
  | None => false
  end.

Lemma year_table : forallb year_prints (range_Z 0 (Z.to_nat 10000)) = true.
Proof. vm_compute. reflexivity. Qed.

Lemma year_prints_ok (y : Z) :
  0 <= y <= 9999 ->
  String.length (Py.format_0d 4 y) = 4%nat /\
  Dates.int_of_digits (Py.format_0d 4 y) = Some y.
Proof.
  intro H. pose proof year_table as T. rewrite forallb_forall in T.
  specialize (T y (@range_Z_In 0 (Z.to_nat 10000) y ltac:(lia))).
  unfold year_prints in T. apply andb_prop in T. destruct T as [T1 T2].
  split; [apply Nat.eqb_eq, T1|].
  destruct (Dates.int_of_digits (Py.format_0d 4 y)); [|discriminate].
  apply Z.eqb_eq in T2. congruence.
Qed.

(** The month and day part of an ISO day. *)
Definition month_day (m d : Z) : string :=
  "-" ++ Py.format_0d 2 m ++ "-" ++ Py.format_0d 2 d.

(** The days of month [m], February having [feb] days. *)
Definition month_length (feb m : Z) : Z := if m =? 2 then feb else Dates.mdays m.

Definition month_cell (feb m m' d' : Z) : bool :=
  Bool.eqb
    (Sql.between (month_day m' d') (month_day m 1)
       (month_day m (month_length feb m)))
    ((m' =? m) && (d' <=? month_length feb m)).

Lemma month_table :
  forallb (fun feb =>
    forallb (fun m =>
      forallb (fun m' =>
        forallb (month_cell feb m m') (range_Z 1 31))
        (range_Z 1 12))
      (range_Z 1 12))
    [28; 29] = true.
Proof. vm_compute. reflexivity. Qed.

Lemma month_cell_ok (feb m m' d' : Z) :
  feb = 28 \/ feb = 29 -> 1 <= m <= 12 -> 1 <= m' <= 12 -> 1 <= d' <= 31 ->
  Sql.between (month_day m' d') (month_day m 1)
    (month_day m (month_length feb m)) = true
  <-> m' = m /\ d' <= month_length feb m.
Proof.
  intros Hfeb Hm Hm' Hd'. pose proof month_table as T.
  rewrite forallb_forall in T.
  assert (Hin : In feb [28; 29]) by (simpl; intuition).
  specialize (T _ Hin). rewrite forallb_forall in T.
  specialize (T m (@range_Z_In 1 12 m ltac:(lia))).
  rewrite forallb_forall in T.
  specialize (T m' (@range_Z_In 1 12 m' ltac:(lia))).
  rewrite forallb_forall in T.
  specialize (T d' (@range_Z_In 1 31 d' ltac:(lia))).
  unfold month_cell in T. apply Bool.eqb_prop in T. rewrite T.
  rewrite andb_true_iff, Z.eqb_eq, Z.leb_le. reflexivity.
Qed.

Variable py_int : string -> option Z.

(** X4: for a month token of a year 0..9999 and a month 1..12,
    month_start_end returns bounds that select exactly the days of that
    month: an ISO day (year 0..9999, month 1..12, day 1..31) lies between
    them iff it has that year and month and its day does not exceed the
    length of the month (28 to 31 days, 29 for February of a leap year). *)
Theorem month_bounds_select_the_month (month_ym : string) (year month : Z) :
  token_parses py_int month_ym year month ->
  0 <= year <= 9999 -> 1 <= month <= 12 ->
  exists start_date end_date last_day,
    Dates.month_start_end py_int month_ym = Ok (start_date, end_date) /\
    Dates.monthrange_ndays year month = Ok last_day /\
    28 <= last_day <= 31 /\
    (last_day = 29 <-> month = 2 /\ Dates.isleap year = true) /\
    forall y m d,
      0 <= y <= 9999 -> 1 <= m <= 12 -> 1 <= d <= 31 ->
      (Sql.between (iso_date y m d) start_date end_date = true
       <-> y = year /\ m = month /\ d <= last_day).
Proof.
  intros Hp Hy Hm. apply parse_month_parses in Hp.
  unfold Dates.month_start_end. rewrite Hp. cbn [bind].
  set (feb := if Dates.isleap year then 29 else 28).
  assert (Hnd : Dates.monthrange_ndays year month
                = Ok (month_length feb month)).
  { unfold Dates.monthrange_ndays, month_length, feb.
    destruct (Z.leb_spec 1 month); [|lia].
    destruct (Z.leb_spec month 12); [|lia]. cbn [andb].
    destruct (Z.eqb_spec month 2) as [->|]; cbn [andb];
      [destruct (Dates.isleap year); reflexivity|].
    f_equal. lia. }
  assert (Hfeb : feb = 28 \/ feb = 29)
    by (unfold feb; destruct (Dates.isleap year); auto).
  rewrite Hnd. cbn [bind]. do 3 eexists. split; [reflexivity|].
  split; [reflexivity|]. split; [|split].
  - unfold month_length.
    destruct (Z.eqb_spec month 2); [lia|].
    assert (Hc : month = 1 \/ month = 3 \/ month = 4 \/ month = 5 \/ month = 6
                 \/ month = 7 \/ month = 8 \/ month = 9 \/ month = 10
                 \/ month = 11 \/ month = 12) by lia.
    repeat (destruct Hc as [->|Hc]; [cbn; lia|]). subst. cbn. lia.
  - unfold month_length, feb.
    destruct (Z.eqb_spec month 2) as [->|Hne].
    + destruct (Dates.isleap year); split; intros; try lia; intuition.
    + split; [|intros [? _]; contradiction].
      assert (Hc : month = 1 \/ month = 3 \/ month = 4 \/ month = 5 \/ month = 6
                   \/ month = 7 \/ month = 8 \/ month = 9 \/ month = 10
                   \/ month = 11 \/ month = 12) by lia.
      repeat (destruct Hc as [->|Hc]; [cbn; lia|]). subst. cbn. lia.
  - intros y m d Hy' Hm' Hd'.
    change (iso_date y m d) with (Py.format_0d 4 y ++ month_day m d)%string.
    change (Py.format_0d 4 year ++ "-" ++ Py.format_0d 2 month ++ "-01")%string
      with (Py.format_0d 4 year ++ month_day month 1)%string.
    change (Py.format_0d 4 year ++ "-" ++ Py.format_0d 2 month ++ "-"
              ++ Py.format_0d 2 (month_length feb month))%string
      with (Py.format_0d 4 year ++ month_day month (month_length feb month))%string.
    destruct (Z.eq_dec y year) as [->|Hne].
    + rewrite between_app_prefix, (month_cell_ok Hfeb Hm Hm' Hd'). intuition.
    + destruct (year_prints_ok Hy) as [L1 R1].
      destruct (year_prints_ok Hy') as [L2 R2].
      rewrite between_other_prefix; [intuition congruence|congruence|].
      intro E. rewrite E in R2. congruence.
Qed.

End MonthSelection.

Section MonthSelectionExamples.
Open Scope string_scope.
Open Scope Z_scope.

Lemma month_bounds_select_the_month_witness :
  exists start_date end_date last_day,
    Dates.month_start_end Dates.int_of_digits "2024-02"
      = Ok (start_date, end_date) /\
    last_day = 29 /\
    (Sql.between (iso_date 2024 2 29) start_date end_date = true
     <-> 2024 = 2024 /\ 2 = 2 /\ 29 <= last_day).
Proof.
  destruct (@month_bounds_select_the_month Dates.int_of_digits "2024-02"
              2024 2)
    as (s & e & l & Hs & Hl & _ & H29 & Hsel).
  - exists "2024", "02". repeat split; reflexivity.
  - lia.
  - lia.
  - exists s, e, l. split; [exact Hs|]. split.
    + apply H29. split; reflexivity.
    + apply Hsel; lia.
Defined.

End MonthSelectionExamples.

(** ** Listing and inserting ([services/expenses_service.py]) *)

Module Crud.

Import ExpensesService.

(** The table together with the counter SQLite keeps for an
    [INTEGER PRIMARY KEY AUTOINCREMENT] column: the largest rowid ever
    used. *)
Record Store : Type := mkStore {
  rows : Ledger;
  seq : Z
}.

(** The largest id among the rows, 0 for an empty table. *)
Definition max_id (ledger : Ledger) : Z :=
  fold_right Z.max 0%Z (map Row.id ledger).

(** The rowid of the next insert: one more than the largest rowid that is
    or ever was in the table. *)
Definition next_id (st : Store) : Z := (Z.max (seq st) (max_id (rows st)) + 1)%Z.

(** [{"status": "ok", "id": cur.lastrowid}] *)
Inductive AddResponse : Type :=
| AddOk (id : Z).

Definition add_expense (st : Store) (date : string) (amount : Q)
  (category subcategory note : string) (tax_deductible : Z)
  (currency payment_method : string) : AddResponse * Store :=
  let id := next_id st in
  let row := Row.mk id date amount category (Some subcategory) (Some note)
               (Some tax_deductible) (Some currency) (Some payment_method) in
  (AddOk id, mkStore (rows st ++ [row])%list id).

(** [WHERE date BETWEEN ? AND ? ORDER BY date DESC, id DESC] *)
Definition list_expenses (ledger : Ledger) (start_date end_date : string)
  : list Row.t :=
  Sql.order_by newest_first
    (Sql.where_ [fun r => Sql.between (Row.date r) start_date end_date] ledger).

End Crud.

Section Listing.
Import ExpensesService Crud.
Open Scope Z_scope.

(** [a] may come before [b] under [ORDER BY date DESC, id DESC]. *)
Definition newer_or_same (a b : Row.t) : Prop :=
  String.compare (Row.date b) (Row.date a) = Lt \/
  (Row.date a = Row.date b /\ Row.id b <= Row.id a).

Lemma newest_first_spec (a b : Row.t) :
  newest_first a b = true <-> newer_or_same a b.
Proof.
  unfold newest_first, newer_or_same.
  destruct (String.compare (Row.date b) (Row.date a)) eqn:E.
  - apply String.compare_eq_iff in E. rewrite Z.leb_le. split.
    + intro H. right. split; [congruence|exact H].
    + intros [H|[_ H]]; [discriminate|exact H].
  - split; auto.
  - split; [discriminate|]. intros [H|[H _]]; [discriminate|].
    rewrite H, string_compare_refl in E. discriminate.
Qed.

Lemma newest_first_total (a b : Row.t) :
  newest_first a b = true \/ newest_first b a = true.
Proof.
  unfold newest_first. rewrite (String.compare_antisym (Row.date a)).
  destruct (String.compare (Row.date b) (Row.date a)); simpl; auto.
  destruct (Z.leb_spec (Row.id b) (Row.id a)); auto.
  right. apply Z.leb_le. lia.
Qed.

Lemma newest_first_trans (a b c : Row.t) :
  newest_first a b = true -> newest_first b c = true ->
  newest_first a c = true.
Proof.
  rewrite !newest_first_spec. unfold newer_or_same.
  intros [H1|[E1 H1]] [H2|[E2 H2]].
  - left. eapply string_compare_lt_trans; eassumption.
  - left. rewrite <- E2. exact H1.
  - left. rewrite E1. exact H2.
  - right. split; [congruence|lia].
Qed.

Lemma where_in_range ledger start_date end_date :
  Sql.where_ [fun r => Sql.between (Row.date r) start_date end_date] ledger
  = filter (fun r => Sql.between (Row.date r) start_date end_date) ledger.
Proof.
  unfold Sql.where_. apply filter_ext. intro r. simpl. apply andb_true_r.
Qed.

(** X5: list_expenses returns exactly the rows whose date lies in the
    inclusive range, each as often as it is in the ledger, ordered by date
    descending and, within a date, by id descending. *)
Theorem list_expenses_in_range_newest_first
  (ledger : Ledger) (start_date end_date : string) :
  Permutation
    (filter (fun r => Sql.between (Row.date r) start_date end_date) ledger)
    (list_expenses ledger start_date end_date) /\
  StronglySorted newer_or_same (list_expenses ledger start_date end_date).
Proof.
  unfold list_expenses. rewrite where_in_range. split.
  - apply Sql.order_by_perm.
  - rewrite <- (map_id (Sql.order_by _ _)).
    eapply (@StronglySorted_map_In _ _ (fun a b => newest_first a b = true)).
    + intros a b _ _ H. apply newest_first_spec, H.
    + apply Sql.order_by_sorted;
        [apply newest_first_total|apply newest_first_trans].
Qed.

Lemma firstn_add {A : Type} (a b : nat) (l : list A) :
  firstn (a + b) l = (firstn a l ++ firstn b (skipn a l))%list.
Proof.
  revert l. induction a as [|a IH]; intro l; [reflexivity|].
  destruct l as [|x l]; simpl.
  - rewrite firstn_nil. reflexivity.
  - rewrite IH. reflexivity.
Qed.

(** X6: a search with both date bounds and no other filter, unpaginated
    (limit -1, offset 0), returns what list_expenses returns; and for
    non-negative limits and offset, the page of a rows at offset o followed
    by the page of b rows at offset o + a is the page of a + b rows at
    offset o, for every combination of filters. *)
Theorem search_pages_concatenate
  (ledger : Ledger) (start_date end_date category : option string)
  (min_amount max_amount : option Q) (note_contains : option string)
  (tax_deductible : option Z) :
  let page := fun limit offset =>
    results (search_expenses ledger start_date end_date category min_amount
               max_amount note_contains tax_deductible limit offset) in
  (forall a b o, 0 <= a -> 0 <= b -> 0 <= o ->
      (page a o ++ page b (o + a))%list = page (a + b) o) /\
  (forall s e, s <> ""%string -> e <> ""%string ->
      results (search_expenses ledger (Some s) (Some e) None None None None
                 None (-1) 0)
      = list_expenses ledger s e).
Proof.
  cbv zeta. split.
  - intros a b o Ha Hb Ho. unfold search_expenses. cbn [results].
    unfold Sql.limit_offset.
    destruct (Z.ltb_spec a 0); [lia|]. destruct (Z.ltb_spec b 0); [lia|].
    destruct (Z.ltb_spec (a + b) 0); [lia|].
    rewrite !Z2Nat.inj_add by lia.
    rewrite firstn_add, skipn_skipn, (Nat.add_comm (Z.to_nat a)).
    reflexivity.
  - intros s e Hs He. unfold search_expenses, list_expenses. cbn [results].
    unfold Sql.limit_offset. cbn. f_equal.
    unfold Sql.where_. apply filter_ext. intro r.
    unfold search_conds, append_if_truthy, append_if_given, Py.truthy.
    destruct (String.eqb_spec s ""); [contradiction|].
    destruct (String.eqb_spec e ""); [contradiction|].
    cbn. unfold Sql.between. rewrite !andb_true_r. reflexivity.
Qed.

End Listing.

Section ListingExamples.
Import ExpensesService Crud.
Open Scope Z_scope.

Lemma search_pages_concatenate_witness :
  (results (search_expenses Samples.june None None None None None None None 1 0)
   ++ results (search_expenses Samples.june None None None None None None None
                 1 (0 + 1)))%list
  = results (search_expenses Samples.june None None None None None None None
               (1 + 1) 0).
Proof.
  apply (search_pages_concatenate Samples.june None None None None None None
           None); lia.
Defined.

End ListingExamples.

(** ** Inserting, editing and deleting *)

Section CrudFacts.
Import ExpensesService Crud.
Open Scope Z_scope.

Lemma max_id_ge (ledger : Ledger) (r : Row.t) :
  In r ledger -> Row.id r <= max_id ledger.
Proof.
  unfold max_id. induction ledger as [|x l IH]; simpl; [tauto|].
  intros [->|H]; [lia|]. specialize (IH H). lia.
Qed.

Lemma find_app {A : Type} (f : A -> bool) (l1 l2 : list A) :
  find f (l1 ++ l2)%list =
  match find f l1 with
  | Some x => Some x
  | None => find f l2
  end.
Proof.
  induction l1 as [|x l1 IH]; simpl; [reflexivity|].
  destruct (f x); [reflexivity|exact IH].
Qed.

Lemma filter_all {A : Type} (f : A -> bool) (l : list A) :
  Forall (fun x => f x = true) l -> filter f l = l.
Proof.
  induction 1 as [|x l Hx _ IH]; simpl; [reflexivity|].
  rewrite Hx, IH. reflexivity.
Qed.

Lemma filter_none {A : Type} (f : A -> bool) (l : list A) :
  (forall x, In x l -> f x = false) -> filter f l = [].
Proof.
  induction l as [|x l IH]; intro H; simpl; [reflexivity|].
  rewrite (H x (or_introl eq_refl)). apply IH. intros y Hy. apply H.
  right. exact Hy.
Qed.

Lemma select_present (ledger : Ledger) (id : Z) :
  In id (map Row.id ledger) ->
  exists r, select_by_id ledger id = Some r /\ In r ledger /\ Row.id r = id.
Proof.
  intro Hin. unfold select_by_id.
  destruct (find (fun r => Row.id r =? id) ledger) as [r|] eqn:E.
  - apply find_some in E. destruct E as [Hr Hid]. apply Z.eqb_eq in Hid. eauto.
  - exfalso. apply in_map_iff in Hin. destruct Hin as (r & Hid & Hr).
    apply (find_none _ _ E) in Hr. apply Z.eqb_neq in Hr. contradiction.
Qed.

(** X7: add_expense gives the new row an id larger than every id in the
    table and than every id used before, appends it with exactly the given
    fields, leaves the lookup of every other id as it was, and deleting the
    returned id restores the rows; a later insert, whatever was deleted in
    between, gets a larger id still. *)
Theorem add_expense_inserts_fresh_row (st : Store) (date : string) (amount : Q)
  (category subcategory note : string) (tax_deductible : Z)
  (currency payment_method : string) :
  let out := add_expense st date amount category subcategory note
               tax_deductible currency payment_method in
  let st' := snd out in
  exists id,
    fst out = AddOk id /\
    seq st < id /\ Forall (fun r => Row.id r < id) (rows st) /\
    select_by_id (rows st') id =
      Some (Row.mk id date amount category (Some subcategory) (Some note)
              (Some tax_deductible) (Some currency) (Some payment_method)) /\
    (forall j, j <> id -> select_by_id (rows st') j = select_by_id (rows st) j) /\
    List.length (rows st') = S (List.length (rows st)) /\
    (exists message,
        delete_expense (rows st') id = (Ok (StatusOkMessage message), rows st)) /\
    (forall ledger2, id < next_id (mkStore ledger2 (seq st'))).
Proof.
  cbv zeta. unfold add_expense. cbn [fst snd rows seq].
  set (id := next_id st).
  set (row := Row.mk id date amount category (Some subcategory) (Some note)
                (Some tax_deductible) (Some currency) (Some payment_method)).
  assert (Hfresh : Forall (fun r => Row.id r < id) (rows st)).
  { apply Forall_forall. intros r Hr. apply max_id_ge in Hr.
    unfold id, next_id. lia. }
  assert (Hnone : select_by_id (rows st) id = None).
  { apply select_absent. eapply Forall_impl; [|exact Hfresh].
    cbv beta. intros r H. lia. }
  assert (Hsel : select_by_id (rows st ++ [row])%list id = Some row).
  { unfold select_by_id in *. rewrite find_app, Hnone. simpl.
    rewrite Z.eqb_refl. reflexivity. }
  exists id. split; [reflexivity|]. split; [unfold id, next_id; lia|].
  split; [exact Hfresh|]. split; [exact Hsel|]. split; [|split; [|split]].
  - intros j Hj. unfold select_by_id. rewrite find_app. simpl.
    destruct (Z.eqb_spec id j); [congruence|].
    destruct (find _ (rows st)); reflexivity.
  - rewrite length_app. simpl. lia.
  - unfold delete_expense, fetch_by_id. rewrite Hsel. eexists. f_equal.
    unfold sql_delete. rewrite filter_app. simpl. rewrite Z.eqb_refl. simpl.
    rewrite app_nil_r. apply filter_all.
    eapply Forall_impl; [|exact Hfresh]. cbv beta. intros r H.
    apply negb_true_iff, Z.eqb_neq. lia.
  - intro ledger2. unfold next_id. cbn [seq rows]. lia.
Qed.

(** The row after [UPDATE ... SET] with the given fields. *)
Definition updated (r : Row.t) (date : option string) (amount : option Q)
  (category subcategory note : option string) (tax_deductible : option Z)
  (currency payment_method : option string) : Row.t :=
  let keep {A : Type} (new : option A) (old : A) : A :=
    match new with Some v => v | None => old end in
  let keep_opt {A : Type} (new old : option A) : option A :=
    match new with Some v => Some v | None => old end in
  Row.mk (Row.id r)
    (keep date (Row.date r)) (keep amount (Row.amount r))
    (keep category (Row.category r))
    (keep_opt subcategory (Row.subcategory r)) (keep_opt note (Row.note r))
    (keep_opt tax_deductible (Row.tax_deductible r))
    (keep_opt currency (Row.currency r))
    (keep_opt payment_method (Row.payment_method r)).

(** X8: editing an existing id with at least one field given succeeds; it
    sets the given fields and keeps the others in every row with that id,
    never changes an id, leaves all other rows and the order of the rows as
    they were, and returns the first row with that id as it is after the
    update. *)
Theorem edit_expense_updates_given_fields (ledger : Ledger) (id : Z)
  (date : option string) (amount : option Q)
  (category subcategory note : option string) (tax_deductible : option Z)
  (currency payment_method : option string) :
  In id (map Row.id ledger) ->
  ~ (date = None /\ amount = None /\ category = None /\ subcategory = None /\
     note = None /\ tax_deductible = None /\ currency = None /\
     payment_method = None) ->
  let change := fun r =>
    if Row.id r =? id
    then updated r date amount category subcategory note tax_deductible
           currency payment_method
    else r in
  exists old,
    select_by_id ledger id = Some old /\
    edit_expense ledger id date amount category subcategory note
      tax_deductible currency payment_method
    = (Ok (StatusOkExpense
             (Some (updated old date amount category subcategory note
                      tax_deductible currency payment_method))),
       map change ledger) /\
    map Row.id (map change ledger) = map Row.id ledger.
Proof.
  intros Hin Hgiven change.
  destruct (select_present ledger id Hin) as (old & Hsel & Hold & Hid).
  exists old. split; [exact Hsel|].
  assert (Hids : forall r, Row.id (change r) = Row.id r).
  { intro r. unfold change. destruct (Row.id r =? id); reflexivity. }
  assert (Hsel' : select_by_id (map change ledger) id = Some (change old)).
  { clear Hold Hin. unfold select_by_id in *. revert Hsel.
    induction ledger as [|x l IH]; simpl; [discriminate|].
    rewrite Hids. destruct (Row.id x =? id); [congruence|exact IH]. }
  assert (Hold' : change old
                  = updated old date amount category subcategory note
                      tax_deductible currency payment_method).
  { unfold change. rewrite Hid, Z.eqb_refl. reflexivity. }
  rewrite <- Hold'. split.
  - unfold edit_expense, fetch_by_id. rewrite Hsel.
    destruct date, amount, category, subcategory, note, tax_deductible,
      currency, payment_method;
      try (exfalso; apply Hgiven; repeat split; reflexivity);
      cbn [append_if_given app]; unfold sql_update;
      match goal with
      | |- (_, map ?f ledger) = _ =>
          assert (E : map f ledger = map change ledger)
            by (apply map_ext; intro r; unfold change;
                destruct (Row.id r =? id); [destruct r|]; reflexivity)
      end;
      rewrite E, Hsel'; reflexivity.
  - rewrite map_map. apply map_ext. exact Hids.
Qed.

Lemma edit_expense_updates_given_fields_witness :
  exists old,
    select_by_id Samples.june 2 = Some old /\
    edit_expense Samples.june 2 None (Some (45 # 1)) None None None None None
      None
    = (Ok (StatusOkExpense
             (Some (updated old None (Some (45 # 1)) None None None None None
                      None))),
       map (fun r => if Row.id r =? 2
                     then updated r None (Some (45 # 1)) None None None None
                            None None
                     else r) Samples.june).
Proof.
  destruct (@edit_expense_updates_given_fields Samples.june 2 None
              (Some (45 # 1)) None None None None None None)
    as (old & Hsel & Hedit & _).
  - simpl. lia.
  - intros (_ & H & _). discriminate H.
  - exists old. split; [exact Hsel|exact Hedit].
Defined.

(** X9: deleting an existing id succeeds and removes exactly the rows with
    that id, keeping the others in order; afterwards the id is gone, so a
    second delete and an edit of it both return the not-found error (for an
    id of the 64-bit range, as every rowid is; OverflowError otherwise) and
    change nothing, while the lookup of every other id is as before. *)
Theorem delete_expense_removes_the_row (ledger : Ledger) (id : Z) :
  In id (map Row.id ledger) ->
  exists message ledger',
    delete_expense ledger id = (Ok (StatusOkMessage message), ledger') /\
    ledger' = filter (fun r => negb (Row.id r =? id)) ledger /\
    Forall (fun r => Row.id r <> id) ledger' /\
    (forall r, In r ledger -> Row.id r <> id -> In r ledger') /\
    (forall j, j <> id -> select_by_id ledger' j = select_by_id ledger j) /\
    delete_expense ledger' id
      = (if Sql.int64 id then Ok (StatusError (not_found id))
         else Raise OverflowError, ledger') /\
    (forall date amount category subcategory note tax_deductible currency
            payment_method,
        edit_expense ledger' id date amount category subcategory note
          tax_deductible currency payment_method
        = (if Sql.int64 id then Ok (StatusError (not_found id))
           else Raise OverflowError, ledger')).
Proof.
  intro Hin. destruct (select_present ledger id Hin) as (old & Hsel & _).
  set (ledger' := filter (fun r => negb (Row.id r =? id)) ledger).
  assert (Hgone : Forall (fun r => Row.id r <> id) ledger').
  { apply Forall_forall. intros r Hr. apply filter_In in Hr.
    destruct Hr as [_ Hr]. apply negb_true_iff, Z.eqb_neq in Hr. exact Hr. }
  pose proof (select_absent Hgone) as Hnone.
  pose proof (fetch_absent Hgone) as Hfetch.
  eexists. exists ledger'. split.
  { unfold delete_expense, fetch_by_id. rewrite Hsel. reflexivity. }
  split; [reflexivity|]. split; [exact Hgone|]. split; [|split; [|split]].
  - intros r Hr Hne. apply filter_In. split; [exact Hr|].
    apply negb_true_iff, Z.eqb_neq, Hne.
  - intros j Hj. unfold select_by_id, ledger'. clear - Hj.
    induction ledger as [|x l IH]; simpl; [reflexivity|].
    destruct (Z.eqb_spec (Row.id x) id) as [E|E]; simpl.
    + destruct (Z.eqb_spec (Row.id x) j); [congruence|exact IH].
    + destruct (Row.id x =? j); [reflexivity|exact IH].
  - unfold delete_expense. rewrite Hfetch.
    destruct (Sql.int64 id); reflexivity.
  - intros. unfold edit_expense. rewrite Hfetch.
    destruct (Sql.int64 id); reflexivity.
Qed.

Lemma delete_expense_removes_the_row_witness :
  exists message ledger',
    delete_expense Samples.june 2 = (Ok (StatusOkMessage message), ledger') /\
    Forall (fun r => Row.id r <> 2) ledger' /\
    delete_expense ledger' 2
      = (Ok (StatusError "Expense with id 2 not found"%string), ledger').
Proof.
  destruct (@delete_expense_removes_the_row Samples.june 2)
    as (m & l & Hd & _ & Hg & _ & _ & Hagain & _).
  - simpl. lia.
  - exists m, l. split; [exact Hd|]. split; [exact Hg|exact Hagain].
Defined.

End CrudFacts.

(** ** Ranges whose end comes before their start *)

Section ReversedRange.
Import ExpensesService AnalyticsService Crud.
Open Scope Q_scope.

Variable strftime : string -> string -> option string.

Lemma leb_trans (a b c : string) :
  String.leb a b = true -> String.leb b c = true -> String.leb a c = true.
Proof.
  unfold String.leb.
  destruct (String.compare a b) eqn:E1; try discriminate;
    destruct (String.compare b c) eqn:E2; try discriminate; intros _ _.
  - apply String.compare_eq_iff in E1. apply String.compare_eq_iff in E2.
    subst. rewrite string_compare_refl. reflexivity.
  - apply String.compare_eq_iff in E1. subst. rewrite E2. reflexivity.
  - apply String.compare_eq_iff in E2. subst. rewrite E1. reflexivity.
  - rewrite (string_compare_lt_trans _ _ _ E1 E2). reflexivity.
Qed.

Lemma between_reversed (x lo hi : string) :
  String.ltb hi lo = true -> Sql.between x lo hi = false.
Proof.
  intro H. unfold Sql.between.
  destruct (String.leb lo x) eqn:E1; [|reflexivity].
  destruct (String.leb x hi) eqn:E2; [|reflexivity].
  pose proof (leb_trans _ _ _ E1 E2) as E. exfalso.
  unfold String.ltb in H. unfold String.leb in E.
  rewrite String.compare_antisym in E.
  destruct (String.compare hi lo); simpl in *; discriminate.
Qed.

Lemma scope_reversed ledger start_date end_date category :
  String.ltb end_date start_date = true ->
  scope ledger start_date end_date category = [].
Proof.
  intro H. unfold scope. apply filter_none. intros r _.
  unfold in_scope, in_range. rewrite between_reversed by exact H. reflexivity.
Qed.

(** X10: a range whose end date sorts before its start date is accepted
    and selects nothing: list_expenses and summarize return the empty list,
    analyze_trends no period, category_analytics a total of 0 with no
    category, and compare-style sums see no row; nothing raises. *)
Theorem reversed_range_selects_nothing
  (ledger : Ledger) (start_date end_date : string) :
  String.ltb end_date start_date = true ->
  list_expenses ledger start_date end_date = [] /\
  (forall category, summarize ledger start_date end_date category = []) /\
  (forall group_by,
      tr_trends (analyze_trends strftime ledger start_date end_date group_by)
      = []) /\
  (exists r,
      category_analytics ledger start_date end_date = Ok r /\
      ca_categories r = [] /\ ca_total_spent r == 0) /\
  (forall category,
      month_total ledger (start_date, end_date) category == 0).
Proof.
  intro H. split; [|split; [|split; [|split]]].
  - unfold list_expenses. rewrite where_in_range, filter_none; [reflexivity|].
    intros r _. apply between_reversed, H.
  - intro category. rewrite summarize_unfold, scope_reversed by exact H.
    reflexivity.
  - intro group_by. unfold analyze_trends. cbn [tr_trends].
    rewrite where_range, scope_reversed by exact H. reflexivity.
  - eexists. split; [apply category_analytics_unfold|].
    rewrite scope_reversed by exact H. split; reflexivity.
  - intro category. rewrite month_total_exact. unfold exact_total.
    cbn [fst snd]. rewrite scope_reversed by exact H. reflexivity.
Qed.

End ReversedRange.

Section ReversedRangeExamples.
Import Crud.

Lemma reversed_range_selects_nothing_witness :
  list_expenses Samples.june "2025-06-30" "2025-06-01" = [].
Proof.
  apply (@reversed_range_selects_nothing Iso.strftime Samples.june
           "2025-06-30" "2025-06-01"). reflexivity.
Defined.

End ReversedRangeExamples.

(** ** Consistency between the aggregations *)

Section AggregationConsistency.
Import ExpensesService AnalyticsService.
Open Scope Q_scope.

Variable strftime : string -> string -> option string.

Lemma category_groups_keys (rows : list Row.t) :
  Permutation (Sql.distinct_keys String.compare Row.category rows)
    (map (@key string) (category_groups rows)).
Proof.
  unfold category_groups.
  rewrite <- (Permutation_map _ (Sql.order_by_perm _ _)).
  unfold Sql.group_by. rewrite !map_map. cbn. rewrite map_id. reflexivity.
Qed.

(** X11: over one range, the per-category sums returned by summarize add
    up to the sum of all amounts of the range, of which the total_spent of
    category_analytics is the two-decimal rounding; and both operations list
    the same categories, each once. *)
Theorem summarize_agrees_with_category_analytics
  (ledger : Ledger) (start_date end_date : string) :
  let rows := scope ledger start_date end_date None in
  let summary := summarize ledger start_date end_date None in
  Money.sum (map (fun e => Money.or0 (sum_total_amount e)) summary)
    == Money.sum (amounts rows) /\
  NoDup (map sum_category summary) /\
  exists r,
    category_analytics ledger start_date end_date = Ok r /\
    ca_total_spent r ==
      Money.round2
        (Money.sum (map (fun e => Money.or0 (sum_total_amount e)) summary)) /\
    Permutation (map sum_category summary) (map ca_category (ca_categories r)).
Proof.
  cbv zeta. rewrite summarize_unfold.
  set (rows := scope ledger start_date end_date None).
  assert (Hsum :
    Money.sum
      (map (fun e => Money.or0 (sum_total_amount e))
         (map (fun c => mkSummaryRow c
                          (Sql.sum (amounts (of_category c rows))))
            (Sql.distinct_keys String.compare Row.category rows)))
    == Money.sum (amounts rows)).
  { rewrite map_map. cbn [sum_total_amount].
    rewrite <- (sum_group_totals (cmp := String.compare) Row.category rows).
    unfold Sql.group_by. rewrite map_map. cbn [snd].
    apply sum_map_ext. intros c _. rewrite or0_sql_sum, members_category.
    reflexivity. }
  split; [exact Hsum|]. split.
  - rewrite map_map. cbn [sum_category]. rewrite map_id.
    apply (sorted_keys_NoDup (cmp := String.compare)).
    apply Sql.distinct_keys_sorted. typeclasses eauto.
  - eexists. split; [apply category_analytics_unfold|].
    cbn [ca_total_spent ca_categories]. fold rows. split.
    + rewrite Hsum, or0_sql_sum. reflexivity.
    + rewrite !map_map. cbn [sum_category ca_category row_of]. rewrite map_id.
      apply category_groups_keys.
Qed.

(** The sum of a list of integers. *)
Definition Zsum (l : list Z) : Z := fold_right Z.add 0%Z l.

Lemma Zsum_map_ext {A : Type} (f g : A -> Z) (l : list A) :
  (forall a, In a l -> f a = g a) -> Zsum (map f l) = Zsum (map g l).
Proof.
  induction l as [|a l IH]; intro H; simpl; [reflexivity|].
  rewrite (H a (or_introl eq_refl)), IH; [reflexivity|].
  intros b Hb. apply H. right. exact Hb.
Qed.

Lemma Zsum_indicator {K : Type} (cmp : K -> K -> comparison) `{!TotalCmp cmp}
  (k0 : K) (ks : list K) :
  NoDup ks -> In k0 ks ->
  Zsum (map (fun k => if cmp_eqb cmp k0 k then 1%Z else 0%Z) ks) = 1%Z.
Proof.
  induction 1 as [|k ks Hk Hnd IH]; simpl; [tauto|].
  intros [->|Hin].
  - rewrite (proj2 (cmp_eqb_true (cmp := cmp) k0 k0) eq_refl).
    rewrite (Zsum_map_ext _ (fun _ => 0%Z)).
    + clear. unfold Zsum. induction ks; simpl in *; lia.
    + intros k Hin. destruct (cmp_eqb cmp k0 k) eqn:E; [|reflexivity].
      apply (cmp_eqb_true (cmp := cmp)) in E. subst. contradiction.
  - destruct (cmp_eqb cmp k0 k) eqn:E.
    + apply (cmp_eqb_true (cmp := cmp)) in E. subst. contradiction.
    + rewrite IH by exact Hin. reflexivity.
Qed.

(** The sizes of the groups add up to the number of rows. *)
Lemma group_sizes_add_up {K : Type} (cmp : K -> K -> comparison)
  `{!TotalCmp cmp} (key : Row.t -> K) (rows : list Row.t) :
  Zsum (map (fun k => Z.of_nat (List.length (Sql.members cmp key k rows)))
          (Sql.distinct_keys cmp key rows))
  = Z.of_nat (List.length rows).
Proof.
  pose proof (sorted_keys_NoDup (Sql.distinct_keys_sorted key rows)) as Hnd.
  assert (Hcover : forall r, In r rows ->
            In (key r) (Sql.distinct_keys cmp key rows)).
  { intros r Hr. apply Sql.distinct_keys_In; eauto. }
  revert Hnd Hcover. generalize (Sql.distinct_keys cmp key rows) as ks.
  intros ks Hnd. induction rows as [|r rows IH]; intro Hcover.
  - simpl. clear. unfold Zsum. induction ks; simpl in *; lia.
  - rewrite (Zsum_map_ext _
      (fun k => ((if cmp_eqb cmp (key r) k then 1 else 0)
                 + Z.of_nat (List.length (Sql.members cmp key k rows)))%Z)).
    + assert (Hadd : forall (f g : K -> Z) l,
                Zsum (map (fun k => (f k + g k)%Z) l)
                = (Zsum (map f l) + Zsum (map g l))%Z).
      { intros f g l. unfold Zsum. induction l; simpl in *; lia. }
      rewrite Hadd, IH by auto using in_cons.
      rewrite Zsum_indicator by auto using in_eq.
      cbn [List.length]. lia.
    + intros k _. unfold Sql.members. simpl.
      destruct (cmp_eqb cmp (key r) k); cbn [List.length]; lia.
Qed.

(** X12: analyze_trends assigns every row of the range to exactly one
    emitted period: the period keys are distinct, every row's key is among
    them, and the expense_count values add up to the number of rows of the
    range. *)
Theorem analyze_trends_partitions_the_range
  (ledger : Ledger) (start_date end_date group_by : string) :
  let rows := scope ledger start_date end_date None in
  let out := tr_trends (analyze_trends strftime ledger start_date end_date
                          group_by) in
  NoDup (map tr_period out) /\
  Forall (fun r => In (period_of strftime group_by r) (map tr_period out)) rows /\
  Zsum (map tr_expense_count out) = Z.of_nat (List.length rows).
Proof.
  cbv zeta. unfold analyze_trends. cbn [tr_trends]. rewrite where_range.
  set (rows := scope ledger start_date end_date None).
  unfold Sql.group_by. rewrite !map_map. cbn [trend_row aggregate key fst snd
    count tr_period tr_expense_count]. rewrite map_id.
  split; [|split].
  - apply (sorted_keys_NoDup (cmp := option_compare String.compare)).
    apply Sql.distinct_keys_sorted. typeclasses eauto.
  - apply Forall_forall. intros r Hr.
    apply (Sql.distinct_keys_In (cmp := option_compare String.compare)).
    exists r. split; [exact Hr|reflexivity].
  - rewrite <- (group_sizes_add_up (cmp := option_compare String.compare)
                  (date_trunc strftime group_by) rows).
    apply Zsum_map_ext. intros p _. unfold Sql.count, amounts.
    rewrite length_map. reflexivity.
Qed.

End AggregationConsistency.

(** ** Quick statistics *)

Section Statistics.
Import ExpensesService AnalyticsService.
Open Scope Q_scope.

Variable days_between : string -> string -> option Z.

(** The sum of the amounts of the rows whose [key] is [k]. *)
Definition key_total (key : Row.t -> string) (k : string) (rows : list Row.t)
  : Q :=
  Money.sum (amounts (Sql.members String.compare key k rows)).

Lemma hd_limit_one {A : Type} (l : list A) :
  hd_error (Sql.limit_offset 1 0 l) = hd_error l.
Proof. destruct l; reflexivity. Qed.

Lemma sum_by_In (key : Row.t -> string) (rows : list Row.t) (k : string)
  (s : option Q) :
  In (k, s) (sum_by String.compare key rows) ->
  s = Some (key_total key k rows) /\ exists r, In r rows /\ key r = k.
Proof.
  unfold sum_by. rewrite in_map_iff. intros ([k' g] & E & Hg).
  cbn in E. inversion E; subst; clear E.
  pose proof (Sql.group_by_nonempty _ _ _ Hg) as Hne.
  apply Sql.group_by_In in Hg; [|typeclasses eauto].
  destruct Hg as (-> & Hr). split; [|exact Hr].
  apply sql_sum_nonempty, amounts_nonempty, Hne.
Qed.

Lemma top_by_nil (key : Row.t -> string) : top_by key [] = None.
Proof. reflexivity. Qed.

(** The first row of the descending order carries the largest sum. *)
Lemma top_by_spec (key : Row.t -> string) (rows : list Row.t) :
  rows <> [] ->
  exists k,
    top_by key rows = Some (k, Some (key_total key k rows)) /\
    (exists r, In r rows /\ key r = k) /\
    forall r, In r rows -> key_total key (key r) rows <= key_total key k rows.
Proof.
  intro Hne. unfold top_by. rewrite hd_limit_one.
  pose proof (order_by_desc_sorted (@snd string (option Q))
                (sum_by String.compare key rows)) as Hs.
  pose proof (Sql.order_by_In (desc_by (@snd string (option Q))))
    as Hin.
  destruct (Sql.order_by (desc_by (@snd string (option Q)))
              (sum_by String.compare key rows)) as [|[k s] rest] eqn:E.
  - exfalso. destruct rows as [|r rows]; [congruence|].
    assert (Hr : In (key r, Sql.sum (amounts
                   (Sql.members String.compare key (key r) (r :: rows))))
                   (sum_by String.compare key (r :: rows))).
    { unfold sum_by. apply in_map_iff.
      exists (key r, Sql.members String.compare key (key r) (r :: rows)).
      split; [reflexivity|].
      apply (@Sql.group_by_complete _ _ String.compare _ key r).
      left. reflexivity. }
    apply Hin in Hr. rewrite E in Hr. exact Hr.
  - assert (Hk : In (k, s) (sum_by String.compare key rows)).
    { apply Hin. rewrite E. left. reflexivity. }
    apply sum_by_In in Hk. destruct Hk as (-> & Hr).
    exists k. split; [reflexivity|]. split; [exact Hr|].
    intros r Hr'. inversion Hs as [|? ? _ Hall]; subst.
    assert (Hin' : In (key r, Some (key_total key (key r) rows))
                     ((k, Some (key_total key k rows)) :: rest)).
    { rewrite <- E. apply Hin. unfold sum_by. apply in_map_iff.
      exists (key r, Sql.members String.compare key (key r) rows).
      split.
      - cbn. f_equal. apply sql_sum_nonempty, amounts_nonempty.
        intro Hnil.
        assert (Hm : In r (Sql.members String.compare key (key r) rows))
          by (apply (@Sql.members_In _ _ String.compare _ key); auto).
        rewrite Hnil in Hm. exact Hm.
      - apply (@Sql.group_by_complete _ _ String.compare _ key r), Hr'. }
    destruct Hin' as [Heq|Hrest].
    + inversion Heq. apply Qle_refl.
    + rewrite Forall_forall in Hall. specialize (Hall _ Hrest).
      unfold desc_by in Hall. cbn in Hall. apply Qle_bool_iff, Hall.
Qed.

(** The daily average before rounding. *)
Definition daily_average (total : Q) (days_diff : Z) : Q :=
  if (0 <? days_diff)%Z then total / inject_Z days_diff else 0.

Lemma get_statistics_unfold ledger start_date end_date d :
  days_between start_date end_date = Some d ->
  let rows := scope ledger start_date end_date None in
  let stats := aggregate (tt, rows) in
  get_statistics days_between ledger start_date end_date =
  (most_expensive_day <- top_entry (top_by Row.date rows) ;;
   top <- top_entry (top_by Row.category rows) ;;
   Ok (mkStatistics start_date end_date (count stats)
         (Money.round2 (Money.or0 (total stats)))
         (Money.round2 (Money.or0 (average stats)))
         (Money.round2 (Money.or0 (min_amount stats)))
         (Money.round2 (Money.or0 (max_amount stats)))
         (Money.round2 (daily_average (Money.or0 (total stats)) (d + 1)))
         most_expensive_day top)).
Proof.
  intro Hd. cbv zeta. unfold get_statistics. rewrite Hd, where_range.
  cbn [bind]. unfold daily_average.
  destruct (Z.ltb_spec 0 (d + 1)); [|reflexivity].
  rewrite div_nonzero; [reflexivity|].
  intro H0. unfold Qeq in H0. simpl in H0. lia.
Qed.

(** X13: get_statistics raises ValueError exactly when a date does not
    parse and raises nothing else. Otherwise it returns the number of rows
    of the range, their rounded sum, and a daily average of
    total / (days + 1) that is 0 when the span days + 1 is not positive;
    over a range without rows the totals are 0 and the most expensive day
    and the top category are None with total 0. *)
Theorem get_statistics_outcomes (ledger : Ledger) (start_date end_date : string) :
  let rows := scope ledger start_date end_date None in
  (days_between start_date end_date = None ->
   get_statistics days_between ledger start_date end_date = Raise ValueError) /\
  (forall d,
      days_between start_date end_date = Some d ->
      exists r,
        get_statistics days_between ledger start_date end_date = Ok r /\
        st_total_expenses r = Z.of_nat (List.length rows) /\
        st_total_spent r == Money.round2 (Money.sum (amounts rows)) /\
        ((0 < d + 1)%Z ->
         st_daily_average r ==
           Money.round2 (Money.sum (amounts rows) / inject_Z (d + 1))) /\
        ((d + 1 <= 0)%Z -> st_daily_average r == 0) /\
        (rows = [] ->
         st_total_spent r == 0 /\ st_average_expense r == 0 /\
         st_daily_average r == 0 /\
         st_most_expensive_day r = (None, 0) /\
         st_top_category r = (None, 0))).
Proof.
  intro rows. split.
  - intro Hd. unfold get_statistics. rewrite Hd. reflexivity.
  - intros d Hd. pose proof (get_statistics_unfold ledger Hd) as Hu.
    cbv zeta in Hu. rewrite Hu. clear Hu. fold rows.
    destruct rows as [|x rows'] eqn:Erows.
    + cbn [top_by]. rewrite !top_by_nil. cbn [top_entry bind].
      eexists. split; [reflexivity|]. cbn.
      unfold daily_average. split; [reflexivity|]. split; [reflexivity|].
      split; [intro H; apply Z.ltb_lt in H; rewrite H; reflexivity|].
      split; [intro H; apply Z.ltb_ge in H; rewrite H; reflexivity|].
      intros _. destruct (0 <? d + 1)%Z; repeat split; reflexivity.
    + rewrite <- Erows.
      destruct (@top_by_spec Row.date rows) as (day & -> & _);
        [rewrite Erows; discriminate|].
      destruct (@top_by_spec Row.category rows) as (c & -> & _);
        [rewrite Erows; discriminate|].
      cbn [top_entry number bind]. eexists. split; [reflexivity|].
      cbn [st_total_expenses st_total_spent st_daily_average aggregate
           count total fst snd].
      unfold Sql.count, amounts. rewrite length_map.
      split; [reflexivity|].
      split; [rewrite or0_sql_sum; reflexivity|].
      unfold daily_average.
      split; [intro H; apply Z.ltb_lt in H; rewrite H, or0_sql_sum;
              reflexivity|].
      split; [intro H; apply Z.ltb_ge in H; rewrite H; reflexivity|].
      intro H. rewrite Erows in H. discriminate.
Qed.

(** X14: over a range with at least one row (and dates that parse), the
    most expensive day is a day of the range whose summed amount is at
    least that of every other day, and the top category a category of the
    range whose summed amount is at least that of every other category;
    their totals are these sums rounded to two decimals. *)
Theorem get_statistics_top_entries_dominate
  (ledger : Ledger) (start_date end_date : string) (d : Z) :
  let rows := scope ledger start_date end_date None in
  days_between start_date end_date = Some d ->
  rows <> [] ->
  exists r day c,
    get_statistics days_between ledger start_date end_date = Ok r /\
    st_most_expensive_day r
      = (Some day, Money.round2 (key_total Row.date day rows)) /\
    st_top_category r
      = (Some c, Money.round2 (key_total Row.category c rows)) /\
    (exists x, In x rows /\ Row.date x = day) /\
    (exists x, In x rows /\ Row.category x = c) /\
    Forall (fun x =>
              key_total Row.date (Row.date x) rows
                <= key_total Row.date day rows /\
              key_total Row.category (Row.category x) rows
                <= key_total Row.category c rows) rows.
Proof.
  intros rows Hd Hne. pose proof (get_statistics_unfold ledger Hd) as Hu.
  cbv zeta in Hu. rewrite Hu. clear Hu. fold rows.
  destruct (@top_by_spec Row.date rows Hne) as (day & -> & Hday & Hdmax).
  destruct (@top_by_spec Row.category rows Hne) as (c & -> & Hc & Hcmax).
  cbn [top_entry number bind]. eexists. exists day, c.
  split; [reflexivity|]. cbn [st_most_expensive_day st_top_category].
  split; [reflexivity|]. split; [reflexivity|].
  split; [exact Hday|]. split; [exact Hc|].
  apply Forall_forall. intros x Hx. split; auto.
Qed.

End Statistics.

Section StatisticsExamples.
Import AnalyticsService.
Open Scope Q_scope.

Lemma get_statistics_outcomes_witness :
  get_statistics Iso.days_between Samples.june "2025-06-01" "junk"
  = Raise ValueError.
Proof.
  apply (get_statistics_outcomes Iso.days_between Samples.june
           "2025-06-01" "junk"). reflexivity.
Defined.

Lemma get_statistics_top_entries_dominate_witness :
  exists r day c,
    get_statistics Iso.days_between Samples.june "2025-06-01" "2025-06-30"
      = Ok r /\
    st_most_expensive_day r
      = (Some day,
         Money.round2
           (key_total Row.date day
              (scope Samples.june "2025-06-01" "2025-06-30" None))) /\
    st_top_category r
      = (Some c,
         Money.round2
           (key_total Row.category c
              (scope Samples.june "2025-06-01" "2025-06-30" None))).
Proof.
  destruct (@get_statistics_top_entries_dominate Iso.days_between Samples.june
              "2025-06-01" "2025-06-30" 29)
    as (r & day & c & Hr & Hday & Hc & _).
  - reflexivity.
  - vm_compute. discriminate.
  - exists r, day, c. repeat split; assumption.
Defined.

End StatisticsExamples.

(** ** Forecast *)

Section Forecast.
Import ExpensesService AnalyticsService.
Open Scope Q_scope.

Variable strftime : string -> string -> option string.

(** The labels of the [n] months after the current one. *)
Definition future_months (today : Today) (months_ahead : Z) : list string :=
  map (fun i => month_label (Dates.add_months (year today) (month today) i))
      (py_range 1 (months_ahead + 1)).

Lemma projections_months today months_ahead value :
  map fc_month (projections today months_ahead value)
  = future_months today months_ahead.
Proof. unfold projections, future_months. rewrite map_map. reflexivity. Qed.

Lemma projections_values today months_ahead value :
  map fc_projected (projections today months_ahead value)
  = repeat value (Z.to_nat months_ahead).
Proof.
  unfold projections. rewrite map_map. cbn [fc_projected].
  unfold py_range. rewrite map_map.
  replace (Z.to_nat (months_ahead + 1 - 1)) with (Z.to_nat months_ahead)
    by (f_equal; lia).
  generalize (Z.to_nat months_ahead) as n. generalize 0%nat as s.
  intros s n. revert s. induction n as [|n IH]; intro s; simpl;
    [reflexivity|]. rewrite IH. reflexivity.
Qed.

Lemma py_range_In (lo hi i : Z) :
  In i (py_range lo hi) -> (lo <= i < hi)%Z.
Proof.
  unfold py_range. rewrite in_map_iff. intros (n & <- & Hn).
  apply in_seq in Hn. lia.
Qed.

(** X15: the forecast is constant: every category projects its rounded
    historical monthly average for each future month, the total forecast
    projects the monthly average for each, all projection lists carry the
    same month labels, one for each i from 1 to months_ahead, the i-th
    naming the month that lies i months after the current one. *)
Theorem forecast_is_constant
  (ledger : Ledger) (today : Today) (months_ahead lookback_months : Z) :
  let r := forecast_expenses strftime ledger today months_ahead
             lookback_months in
  map fc_projected (fc_total_projections r)
    = repeat (fc_monthly_average r) (Z.to_nat months_ahead) /\
  map fc_month (fc_total_projections r) = future_months today months_ahead /\
  Forall (fun cf =>
            map fc_projected (fc_projections cf)
              = repeat (fc_historical_avg_monthly cf) (Z.to_nat months_ahead) /\
            map fc_month (fc_projections cf) = future_months today months_ahead)
    (fc_category_forecasts r) /\
  Forall (fun i =>
            (1 <= i <= months_ahead)%Z /\
            month_index (Dates.add_months (year today) (month today) i)
              = (month_index (year today, month today) + i)%Z)
    (py_range 1 (months_ahead + 1)).
Proof.
  cbv zeta. unfold forecast_expenses.
  cbn [fc_total_projections fc_monthly_average fc_category_forecasts].
  split; [apply projections_values|]. split; [apply projections_months|].
  split.
  - apply Forall_forall. intros cf Hcf. apply in_map_iff in Hcf.
    destruct Hcf as ([c a] & <- & _). cbn [fc_projections fc_historical_avg_monthly].
    split; [apply projections_values|apply projections_months].
  - apply Forall_forall. intros i Hi. apply py_range_In in Hi.
    split; [lia|]. unfold Dates.add_months, month_index. cbn [fst snd].
    pose proof (Z.div_mod (year today * 12 + (month today - 1) + i) 12).
    lia.
Qed.

(** The (category, month) pairs of the window with category [c]: the months
    in which the category has a row. *)
Definition active_months (c : string) (rows : list Row.t)
  : list (string * option string) :=
  filter (fun k => cmp_eqb String.compare (fst k) c)
    (Sql.distinct_keys
       (pair_compare String.compare (option_compare String.compare))
       (fun r => (Row.category r, strftime "%Y-%m" (Row.date r))) rows).

(** The rows of the history window. *)
Definition history (ledger : Ledger) (today : Today) (lookback_months : Z)
  : list Row.t :=
  scope ledger (history_start today lookback_months) (today_ymd today) None.

End Forecast.

Section ForecastAverage.
Import ExpensesService AnalyticsService.
Open Scope Q_scope.

Variable strftime : string -> string -> option string.

Let pcmp := pair_compare String.compare (option_compare String.compare).
Let key2 := fun r : Row.t => (Row.category r, strftime "%Y-%m" (Row.date r)).

Lemma filter_map_commute {A B : Type} (f : A -> B) (p : B -> bool)
  (l : list A) :
  filter p (map f l) = map f (filter (fun a => p (f a)) l).
Proof.
  induction l as [|a l IH]; simpl; [reflexivity|].
  destruct (p (f a)); simpl; rewrite IH; reflexivity.
Qed.

Lemma filter_filter_implies {A : Type} (p q : A -> bool) (l : list A) :
  (forall a, p a = true -> q a = true) ->
  filter p (filter q l) = filter p l.
Proof.
  intro H. induction l as [|a l IH]; simpl; [reflexivity|].
  destruct (q a) eqn:Eq; simpl; rewrite IH; [reflexivity|].
  destruct (p a) eqn:Ep; [|reflexivity].
  rewrite (H _ Ep) in Eq. discriminate.
Qed.

Lemma non_null_map_Some {A B : Type} (g : A -> B) (h : A -> option B)
  (l : list A) :
  (forall a, In a l -> h a = Some (g a)) -> non_null (map h l) = map g l.
Proof.
  unfold non_null. induction l as [|a l IH]; intro H; simpl; [reflexivity|].
  rewrite (H a (or_introl eq_refl)). simpl. f_equal. apply IH.
  intros b Hb. apply H. right. exact Hb.
Qed.

Lemma sql_avg_nonempty (xs : list Q) :
  xs <> [] -> Sql.avg xs = Some (Money.sum xs / inject_Z (Sql.count xs)).
Proof. destruct xs; [congruence|reflexivity]. Qed.

Lemma active_months_In (c c' : string) (m : option string)
  (rows : list Row.t) :
  In (c', m) (active_months strftime c rows) <->
  c' = c /\ exists x, In x rows /\ Row.category x = c /\
                      strftime "%Y-%m" (Row.date x) = m.
Proof.
  unfold active_months. rewrite filter_In. split.
  - intros [Hk Hc]. apply (Sql.distinct_keys_In (cmp := pcmp) key2) in Hk.
    apply (cmp_eqb_true (cmp := String.compare)) in Hc. cbn [fst] in Hc.
    destruct Hk as (x & Hx & E). unfold key2 in E. inversion E; subst.
    split; [reflexivity|]. exists x. auto.
  - intros (-> & x & Hx & Hc & Hm). split.
    + apply (Sql.distinct_keys_In (cmp := pcmp) key2).
      exists x. split; [exact Hx|]. unfold key2. congruence.
    + apply (cmp_eqb_true (cmp := String.compare)). reflexivity.
Qed.

Lemma active_months_NoDup (c : string) (rows : list Row.t) :
  NoDup (active_months strftime c rows).
Proof.
  unfold active_months. apply NoDup_filter.
  apply (sorted_keys_NoDup (cmp := pcmp)).
  apply Sql.distinct_keys_sorted. typeclasses eauto.
Qed.

(** The sum of the monthly totals of a category is the sum of its rows. *)
Lemma active_months_sum (c : string) (rows : list Row.t) :
  Money.sum
    (map (fun k => Money.sum (amounts (Sql.members pcmp key2 k rows)))
       (active_months strftime c rows))
  == Money.sum (amounts (of_category c rows)).
Proof.
  rewrite <- (sum_members (cmp := pcmp) key2
                (ks := active_months strftime c rows) (of_category c rows)).
  - apply sum_map_ext. intros [c' m] Hk.
    apply active_months_In in Hk. destruct Hk as [-> _].
    unfold Sql.members, of_category.
    rewrite filter_filter_implies; [reflexivity|].
    intros r Hr. apply (cmp_eqb_true (cmp := pcmp)) in Hr.
    unfold key2 in Hr. inversion Hr. apply String.eqb_refl.
  - apply active_months_NoDup.
  - intros r Hr. unfold of_category in Hr. apply filter_In in Hr.
    destruct Hr as [Hr Hc]. apply String.eqb_eq in Hc.
    apply active_months_In. split; [exact Hc|]. exists r. auto.
Qed.

Lemma avg_monthly_spend_unfold (rows : list Row.t) :
  avg_monthly_spend strftime rows =
  map (fun c =>
         (c, Sql.avg
               (map (fun k => Money.sum (amounts (Sql.members pcmp key2 k rows)))
                  (active_months strftime c rows))))
      (Sql.distinct_keys String.compare
         (fun m : (string * option string) * option Q => fst (fst m))
         (monthly_totals strftime rows)).
Proof.
  unfold avg_monthly_spend, Sql.group_by. rewrite map_map. cbn [fst snd].
  apply map_ext. intro c. f_equal. f_equal.
  unfold Sql.members at 1. unfold monthly_totals, sum_by, Sql.group_by.
  rewrite map_map. cbn [fst snd]. rewrite filter_map_commute. cbn [fst].
  fold (active_months strftime c rows). rewrite map_map. cbn [snd].
  apply non_null_map_Some. intros [c' m] Hk.
  apply sql_sum_nonempty, amounts_nonempty. intro Hnil.
  apply active_months_In in Hk. destruct Hk as (-> & x & Hx & Hc & Hm).
  assert (Hin : In x (Sql.members pcmp key2 (c, m) rows)).
  { apply (Sql.members_In (cmp := pcmp)). split; [exact Hx|].
    unfold key2. congruence. }
  assert (H0 : In x []) by (rewrite <- Hnil; exact Hin). exact H0.
Qed.

Lemma monthly_categories (rows : list Row.t) (c : string) :
  In c (Sql.distinct_keys String.compare
          (fun m : (string * option string) * option Q => fst (fst m))
          (monthly_totals strftime rows))
  <-> exists x, In x rows /\ Row.category x = c.
Proof.
  rewrite (Sql.distinct_keys_In (cmp := String.compare)). split.
  - intros ([[c' m] s] & Hm & <-). cbn [fst].
    unfold monthly_totals, sum_by in Hm. apply in_map_iff in Hm.
    destruct Hm as ([k g] & E & Hg). cbn in E. inversion E; subst.
    apply Sql.group_by_In in Hg; [|typeclasses eauto].
    destruct Hg as (_ & x & Hx & Hk). inversion Hk. eauto.
  - intros (x & Hx & <-).
    exists (key2 x, Sql.sum (amounts (Sql.members pcmp key2 (key2 x) rows))).
    split; [|reflexivity].
    unfold monthly_totals, sum_by. apply in_map_iff.
    exists (key2 x, Sql.members pcmp key2 (key2 x) rows).
    split; [reflexivity|].
    apply (@Sql.group_by_complete _ _ pcmp _ key2 x), Hx.
Qed.

(** A row of the outer query: the average of a category over its active
    months. *)
Lemma avg_monthly_spend_In (rows : list Row.t) (c : string) (a : option Q) :
  In (c, a) (avg_monthly_spend strftime rows) ->
  active_months strftime c rows <> [] /\
  Money.or0 a ==
    Money.sum (amounts (of_category c rows))
    / inject_Z (Z.of_nat (List.length (active_months strftime c rows))).
Proof.
  rewrite avg_monthly_spend_unfold, in_map_iff.
  intros (c' & E & Hc). inversion E; subst c' a; clear E.
  apply monthly_categories in Hc. destruct Hc as (x & Hx & Hcx).
  assert (Hne : active_months strftime c rows <> []).
  { intro Hnil.
    assert (Hin : In (c, strftime "%Y-%m" (Row.date x))
                     (active_months strftime c rows))
      by (apply active_months_In; eauto).
    rewrite Hnil in Hin. exact Hin. }
  split; [exact Hne|].
  rewrite Money.or0_eq.
  rewrite sql_avg_nonempty
    by (destruct (active_months strftime c rows); [congruence|discriminate]).
  rewrite active_months_sum. unfold Sql.count. rewrite length_map.
  reflexivity.
Qed.

(** X16: the historical monthly average of a category is the sum of its
    amounts in the history window divided by the number of months of the
    window in which it has at least one row (months without activity do not
    count), rounded to two decimals; the forecast lists each category of the
    window once, and no other. *)
Theorem forecast_averages_over_active_months
  (ledger : Ledger) (today : Today) (months_ahead lookback_months : Z) :
  let rows := history ledger today lookback_months in
  let r := forecast_expenses strftime ledger today months_ahead
             lookback_months in
  Forall (fun cf =>
            let months := active_months strftime (fc_category cf) rows in
            months <> [] /\
            fc_historical_avg_monthly cf ==
              Money.round2
                (Money.sum (amounts (of_category (fc_category cf) rows))
                 / inject_Z (Z.of_nat (List.length months))))
    (fc_category_forecasts r) /\
  NoDup (map fc_category (fc_category_forecasts r)) /\
  (forall c,
      In c (map fc_category (fc_category_forecasts r)) <->
      exists x, In x rows /\ Row.category x = c) /\
  (forall c, NoDup (active_months strftime c rows)) /\
  (forall c c' m,
      In (c', m) (active_months strftime c rows) <->
      c' = c /\ exists x, In x rows /\ Row.category x = c /\
                          strftime "%Y-%m" (Row.date x) = m).
Proof.
  cbv zeta. unfold forecast_expenses, history.
  cbn [fc_category_forecasts]. rewrite where_range.
  set (rows := scope ledger (history_start today lookback_months)
                 (today_ymd today) None).
  rewrite avg_monthly_spend_unfold, !map_map.
  split; [|split; [|split; [|split]]].
  - apply Forall_forall. intros cf Hcf. apply in_map_iff in Hcf.
    destruct Hcf as (c & <- & Hc).
    cbn [fc_category fc_historical_avg_monthly].
    apply monthly_categories in Hc. destruct Hc as (x & Hx & Hcx).
    assert (Hne : active_months strftime c rows <> []).
    { intro Hnil.
      assert (Hin : In (c, strftime "%Y-%m" (Row.date x))
                       (active_months strftime c rows))
        by (apply active_months_In; eauto).
      rewrite Hnil in Hin. exact Hin. }
    split; [exact Hne|].
    apply Money.round2_Proper. rewrite Money.or0_eq.
    rewrite sql_avg_nonempty
      by (destruct (active_months strftime c rows); [congruence|discriminate]).
    rewrite active_months_sum. unfold Sql.count. rewrite length_map.
    reflexivity.
  - cbn [fc_category]. rewrite map_id.
    apply (sorted_keys_NoDup (cmp := String.compare)).
    apply Sql.distinct_keys_sorted. typeclasses eauto.
  - intro c. cbn [fc_category]. rewrite map_id. apply monthly_categories.
  - intro c. apply active_months_NoDup.
  - intros c c' m. apply active_months_In.
Qed.

End ForecastAverage.

(** ** The forecast and its history window *)

Section ForecastWindow.
Import ExpensesService AnalyticsService.
Open Scope string_scope.
Open Scope Z_scope.

Variable strftime : string -> string -> option string.





End ForecastWindow.

Section ForecastWindowExamples.
Import AnalyticsService.
Open Scope string_scope.
Open Scope Z_scope.


End ForecastWindowExamples.

(** ** Rounding at the response fields *)

Section RoundedFields.
Import ExpensesService AnalyticsService.
Open Scope Q_scope.

Variable py_int : string -> option Z.
Variable strftime : string -> string -> option string.
Variable days_between : string -> string -> option Z.

(** The exact aggregates of a list of amounts. *)
Definition least (xs : list Q) (m : Q) : Prop :=
  In m xs /\ forall x, In x xs -> m <= x.

Definition greatest (xs : list Q) (m : Q) : Prop :=
  In m xs /\ forall x, In x xs -> x <= m.

Definition mean (xs : list Q) : Q :=
  Money.sum xs / inject_Z (Z.of_nat (List.length xs)).

(** The total, average, minimum and maximum fields of an entry are the
    roundings of the exact sum, mean, least and greatest amount of [xs]. *)
Definition rounded_stats (xs : list Q) (t a lo hi : Q) : Prop :=
  t == Money.round2 (Money.sum xs) /\
  a == Money.round2 (mean xs) /\
  (exists m, least xs m /\ lo == Money.round2 m) /\
  (exists m, greatest xs m /\ hi == Money.round2 m).

Lemma fold_Qmin_least (xs : list Q) (x : Q) :
  least (x :: xs) (fold_left Sql.Qmin xs x).
Proof.
  revert x. induction xs as [|y xs IH]; intro x; cbn [fold_left].
  - split; [left; reflexivity|]. intros z [<-|[]]. apply Qle_refl.
  - destruct (IH (Sql.Qmin x y)) as [Hin Hle].
    assert (Hxy : (Sql.Qmin x y = x /\ x <= y) \/ (Sql.Qmin x y = y /\ y <= x)).
    { unfold Sql.Qmin. destruct (Qle_bool x y) eqn:E.
      - left. split; [reflexivity|]. apply Qle_bool_iff, E.
      - right. split; [reflexivity|].
        apply Qlt_le_weak, Money.Qltb_lt. unfold Money.Qltb. rewrite E.
        reflexivity. }
    set (m := fold_left Sql.Qmin xs (Sql.Qmin x y)) in *.
    pose proof (Hle _ (or_introl eq_refl)) as Hm.
    split.
    + destruct Hin as [E|Hin]; [|right; right; exact Hin].
      rewrite <- E. destruct Hxy as [[-> _]|[-> _]]; simpl; auto.
    + intros z [Hz|[Hz|Hz]].
      * rewrite <- Hz. destruct Hxy as [[E _]|[E H]]; rewrite E in Hm; lra.
      * rewrite <- Hz. destruct Hxy as [[E H]|[E _]]; rewrite E in Hm; lra.
      * apply Hle. right. exact Hz.
Qed.

Lemma fold_Qmax_greatest (xs : list Q) (x : Q) :
  greatest (x :: xs) (fold_left Sql.Qmax xs x).
Proof.
  revert x. induction xs as [|y xs IH]; intro x; cbn [fold_left].
  - split; [left; reflexivity|]. intros z [<-|[]]. apply Qle_refl.
  - destruct (IH (Sql.Qmax x y)) as [Hin Hle].
    assert (Hxy : (Sql.Qmax x y = y /\ x <= y) \/ (Sql.Qmax x y = x /\ y <= x)).
    { unfold Sql.Qmax. destruct (Qle_bool x y) eqn:E.
      - left. split; [reflexivity|]. apply Qle_bool_iff, E.
      - right. split; [reflexivity|].
        apply Qlt_le_weak, Money.Qltb_lt. unfold Money.Qltb. rewrite E.
        reflexivity. }
    set (m := fold_left Sql.Qmax xs (Sql.Qmax x y)) in *.
    pose proof (Hle _ (or_introl eq_refl)) as Hm.
    split.
    + destruct Hin as [E|Hin]; [|right; right; exact Hin].
      rewrite <- E. destruct Hxy as [[-> _]|[-> _]]; simpl; auto.
    + intros z [Hz|[Hz|Hz]].
      * rewrite <- Hz. destruct Hxy as [[E H]|[E _]]; rewrite E in Hm; lra.
      * rewrite <- Hz. destruct Hxy as [[E _]|[E H]]; rewrite E in Hm; lra.
      * apply Hle. right. exact Hz.
Qed.

(** The aggregates of a non-empty group, rounded as the responses do. *)
Lemma aggregate_rounded {K : Type} (k : K) (rows : list Row.t) :
  rows <> [] ->
  let d := aggregate (k, rows) in
  rounded_stats (amounts rows)
    (Money.round2 (Money.or0 (total d)))
    (Money.round2 (Money.or0 (average d)))
    (Money.round2 (Money.or0 (min_amount d)))
    (Money.round2 (Money.or0 (max_amount d))).
Proof.
  intro Hne. destruct rows as [|r rows]; [congruence|]. cbv zeta.
  unfold aggregate. cbn [fst snd total average min_amount max_amount].
  cbn [amounts map]. fold (amounts rows).
  cbn [Sql.sum Sql.avg Sql.min Sql.max].
  split; [|split; [|split]].
  - rewrite Money.or0_eq. reflexivity.
  - rewrite Money.or0_eq. reflexivity.
  - exists (fold_left Sql.Qmin (amounts rows) (Row.amount r)).
    split; [apply fold_Qmin_least|]. rewrite Money.or0_eq. reflexivity.
  - exists (fold_left Sql.Qmax (amounts rows) (Row.amount r)).
    split; [apply fold_Qmax_greatest|]. rewrite Money.or0_eq. reflexivity.
Qed.

Lemma round2_or0_two_dp (o : option Q) :
  Money.two_dp (Money.round2 (Money.or0 o)).
Proof. apply Money.round2_two_dp. Qed.

(** C6 (amended): in the responses of compare_months, analyze_trends,
    category_analytics, get_statistics and tax_summary every aggregated
    amount is a two-decimal value obtained by rounding the unrounded
    aggregate at the response field: the totals are the rounded exact sums,
    the averages the rounded exact means, the minima and maxima the rounded
    least and greatest amounts, the difference the rounded difference of
    the exact month sums, the daily average the rounded quotient of the
    exact sum by the number of days, the totals of the most expensive day
    and of the top category the rounded exact sums of that day and
    category, and the bucket totals and the grand total of the tax summary
    the rounded exact sums of their rows. forecast_expenses also returns
    two-decimal amounts, each category average being the rounded exact
    average over its active months, but its total monthly average is the
    rounded sum of the already rounded category averages. summarize is not
    covered: it returns the raw sums. *)
Theorem aggregates_rounded_at_response_fields (ledger : Ledger) :
  (forall month1 month2 category r,
      compare_months py_int ledger month1 month2 category = Ok r ->
      Forall Money.two_dp (compare_amounts r) /\
      exists b1 b2,
        Dates.month_start_end py_int month1 = Ok b1 /\
        Dates.month_start_end py_int month2 = Ok b2 /\
        cm_total1 r == Money.round2 (exact_total ledger b1 category) /\
        cm_total2 r == Money.round2 (exact_total ledger b2 category) /\
        cm_difference r ==
          Money.round2 (exact_total ledger b2 category
                        - exact_total ledger b1 category)) /\
  (forall start_date end_date group_by,
      Forall (fun t =>
                Forall Money.two_dp (trend_amounts t) /\
                rounded_stats
                  (amounts
                     (in_period strftime group_by (tr_period t)
                        (scope ledger start_date end_date None)))
                  (tr_total t) (tr_average t) (tr_min_amount t)
                  (tr_max_amount t))
        (tr_trends (analyze_trends strftime ledger start_date end_date
                      group_by))) /\
  (forall start_date end_date r,
      category_analytics ledger start_date end_date = Ok r ->
      ca_total_spent r ==
        Money.round2
          (Money.sum (amounts (scope ledger start_date end_date None))) /\
      Forall (fun c =>
                Forall Money.two_dp (category_amounts c) /\
                rounded_stats
                  (amounts
                     (of_category (ca_category c)
                        (scope ledger start_date end_date None)))
                  (ca_total c) (ca_average c) (ca_min_amount c)
                  (ca_max_amount c))
        (ca_categories r)) /\
  (forall start_date end_date r,
      get_statistics days_between ledger start_date end_date = Ok r ->
      let rows := scope ledger start_date end_date None in
      Forall Money.two_dp (statistics_amounts r) /\
      st_total_spent r == Money.round2 (Money.sum (amounts rows)) /\
      (exists d,
          days_between start_date end_date = Some d /\
          st_daily_average r ==
            Money.round2
              (if (0 <? d + 1)%Z
               then Money.sum (amounts rows) / inject_Z (d + 1)
               else 0)) /\
      (rows <> [] ->
       rounded_stats (amounts rows) (st_total_spent r)
         (st_average_expense r) (st_min_expense r) (st_max_expense r) /\
       (exists day,
           st_most_expensive_day r
           = (Some day, Money.round2 (key_total Row.date day rows))) /\
       (exists c,
           st_top_category r
           = (Some c, Money.round2 (key_total Row.category c rows)))) /\
      (rows = [] ->
       st_average_expense r == 0 /\ st_min_expense r == 0 /\
       st_max_expense r == 0 /\
       st_most_expensive_day r = (None, 0) /\
       st_top_category r = (None, 0))) /\
  (forall today months_ahead lookback_months,
      let r := forecast_expenses strftime ledger today months_ahead
                 lookback_months in
      let rows := history ledger today lookback_months in
      Forall Money.two_dp (forecast_amounts r) /\
      Forall (fun cf =>
                fc_historical_avg_monthly cf ==
                  Money.round2
                    (Money.sum (amounts (of_category (fc_category cf) rows))
                     / inject_Z
                         (Z.of_nat
                            (List.length
                               (active_months strftime (fc_category cf)
                                  rows)))) /\
                Forall (fun p => fc_projected p = fc_historical_avg_monthly cf)
                  (fc_projections cf))
        (fc_category_forecasts r) /\
      fc_monthly_average r ==
        Money.round2
          (Money.sum
             (map fc_historical_avg_monthly (fc_category_forecasts r))) /\
      Forall (fun p => fc_projected p = fc_monthly_average r)
        (fc_total_projections r)) /\
  (forall year category,
      exists r,
        tax_summary ledger year category = Ok r /\
        Forall Money.two_dp (tax_amounts r) /\
        tx_grand_total r ==
          Money.round2
            (Money.sum (amounts (tax_expenses_of ledger year category))) /\
        Forall (fun e =>
                  tx_total e == Money.round2 (Money.sum (amounts (tx_expenses e))))
          (tx_summary r)).
Proof.
  split; [|split; [|split; [|split; [|split]]]].
  - intros month1 month2 category r H. unfold compare_months in H.
    destruct (Dates.month_start_end py_int month1) as [b1|] eqn:E1;
      cbn [bind] in H; [|discriminate].
    destruct (Dates.month_start_end py_int month2) as [b2|] eqn:E2;
      cbn [bind] in H; [|discriminate].
    destruct (percent_of _ _) as [pct|]; cbn [bind] in H; [|discriminate].
    inversion H; subst; clear H. split.
    + repeat constructor; apply Money.round2_two_dp.
    + exists b1, b2. cbn. rewrite !month_total_exact.
      repeat split; reflexivity.
  - intros start_date end_date group_by.
    unfold analyze_trends. cbn [tr_trends]. rewrite where_range.
    set (rows := scope ledger start_date end_date None).
    rewrite map_map. apply Forall_forall.
    intros t Ht. apply in_map_iff in Ht. destruct Ht as ([p g] & <- & Hg).
    pose proof (Sql.group_by_nonempty _ _ _ Hg) as Hne.
    apply Sql.group_by_In in Hg; [|typeclasses eauto].
    destruct Hg as (-> & _). split.
    + repeat constructor; apply Money.round2_two_dp.
    + unfold trend_row.
      cbn [tr_period tr_total tr_average tr_min_amount tr_max_amount].
      change (key (aggregate (p, Sql.members (option_compare String.compare)
                                   (date_trunc strftime group_by) p rows)))
        with p.
      apply (aggregate_rounded p Hne).
  - intros start_date end_date r H.
    rewrite category_analytics_unfold in H. inversion H; subst; clear H.
    cbn [ca_total_spent ca_categories]. split.
    + rewrite or0_sql_sum. reflexivity.
    + apply Forall_forall. intros c Hc. apply in_map_iff in Hc.
      destruct Hc as (d & <- & Hd). split.
      * repeat constructor; apply Money.round2_two_dp.
      * apply category_groups_In in Hd. destruct Hd as [Hd Ht].
        unfold row_of.
        cbn [ca_category ca_total ca_average ca_min_amount ca_max_amount].
        rewrite Hd at 2 3 4 5.
        apply aggregate_rounded. intro Hnil.
        rewrite Hd in Ht. cbn [aggregate total fst snd] in Ht.
        rewrite Hnil in Ht. discriminate Ht.
  - intros start_date end_date r H. cbv zeta.
    destruct (days_between start_date end_date) as [d|] eqn:Hd;
      [|unfold get_statistics in H; rewrite Hd in H; discriminate H].
    pose proof (@get_statistics_unfold days_between ledger start_date
                  end_date d Hd) as Hu.
    cbv zeta in Hu. rewrite Hu in H. clear Hu.
    set (rows := scope ledger start_date end_date None) in *.
    destruct rows as [|x rows'] eqn:Erows.
    + rewrite !top_by_nil in H. cbn [top_entry bind] in H.
      inversion H; subst r; clear H.
      cbn [st_total_spent st_daily_average st_average_expense
           st_min_expense st_max_expense st_most_expensive_day
           st_top_category statistics_amounts snd].
      split; [repeat (apply Forall_cons;
                        [first [apply Money.round2_two_dp|apply two_dp_0]|]);
              apply Forall_nil|].
      split; [reflexivity|].
      split; [exists d; split; [reflexivity|];
              unfold daily_average; cbn;
              destruct (0 <? d + 1)%Z; reflexivity|].
      split; [intro Hne; congruence|].
      intros _. cbn. repeat split; reflexivity.
    + rewrite <- Erows in *.
      assert (Hne : rows <> []) by (rewrite Erows; discriminate).
      destruct (@top_by_spec Row.date rows Hne) as (day & Eday & _).
      destruct (@top_by_spec Row.category rows Hne) as (c & Ecat & _).
      rewrite Eday, Ecat in H. cbn [top_entry number bind] in H.
      inversion H; subst r; clear H.
      cbn [st_total_spent st_daily_average st_average_expense
           st_min_expense st_max_expense st_most_expensive_day
           st_top_category statistics_amounts snd].
      split; [repeat (apply Forall_cons; [apply Money.round2_two_dp|]);
              apply Forall_nil|].
      pose proof (aggregate_rounded tt Hne) as Hagg. cbv zeta in Hagg.
      split; [apply Hagg|].
      split.
      { exists d. split; [reflexivity|]. unfold daily_average.
        apply Money.round2_Proper.
        destruct (0 <? d + 1)%Z; [|reflexivity].
        cbn [aggregate total fst snd]. rewrite or0_sql_sum. reflexivity. }
      split.
      { intros _. split; [exact Hagg|]. split; eauto. }
      intro Hnil. congruence.
  - intros today months_ahead lookback_months. cbv zeta.
    split; [|split; [|split]].
    + unfold forecast_amounts, forecast_expenses.
      cbn [fc_monthly_average fc_total_projections fc_category_forecasts].
      constructor; [apply Money.round2_two_dp|].
      apply Forall_app. split; [apply projections_two_dp|].
      apply Forall_forall. intros x Hx. apply in_flat_map in Hx.
      destruct Hx as (cf & Hcf & Hx). apply in_map_iff in Hcf.
      destruct Hcf as ([c a] & <- & _). cbn in Hx.
      destruct Hx as [<-|Hx]; [apply Money.round2_two_dp|].
      pose proof (projections_two_dp today months_ahead (Money.or0 a)) as Hp.
      rewrite Forall_forall in Hp. apply Hp, Hx.
    + unfold forecast_expenses, history. cbn [fc_category_forecasts].
      rewrite where_range. apply Forall_forall. intros cf Hcf.
      apply in_map_iff in Hcf. destruct Hcf as ([c a] & <- & Hca).
      cbn [fc_category fc_historical_avg_monthly fc_projections].
      apply avg_monthly_spend_In in Hca. destruct Hca as [_ Havg].
      split; [rewrite Havg; reflexivity|].
      apply Forall_forall. intros p Hp. unfold projections in Hp.
      apply in_map_iff in Hp. destruct Hp as (i & <- & _). reflexivity.
    + reflexivity.
    + unfold forecast_expenses.
      cbn [fc_total_projections fc_monthly_average].
      apply Forall_forall. intros p Hp. unfold projections in Hp.
      apply in_map_iff in Hp. destruct Hp as (i & <- & _). reflexivity.
  - intros year category. eexists. split; [apply tax_summary_unfold|].
    cbn [tx_grand_total tx_summary tax_amounts].
    set (rows := tax_expenses_of ledger year category).
    assert (Hentries : forall e,
      In e (entries_of (fun b => filter (in_bucket b) rows)
              (fun b => accumulate 0 (filter (in_bucket b) rows)) buckets) ->
      exists b, tx_expenses e = filter (in_bucket b) rows /\
                tx_total e =
                  Money.round2 (accumulate 0 (filter (in_bucket b) rows))).
    { intros e He. unfold entries_of in He. apply in_flat_map in He.
      destruct He as (b & _ & He). exists b. cbv beta in He.
      destruct (filter (in_bucket b) rows) eqn:E; [destruct He|].
      destruct He as [<-|[]]. cbn. rewrite ?E. auto. }
    split; [|split].
    + constructor; [apply Money.round2_two_dp|].
      apply Forall_forall. intros x Hx. apply in_map_iff in Hx.
      destruct Hx as (e & <- & He). apply Hentries in He.
      destruct He as (b & _ & ->). apply Money.round2_two_dp.
    + rewrite <- (bucket_partition_sum rows).
      unfold dict_of. rewrite map_map. cbn [snd].
      apply Money.round2_Proper. apply sum_map_ext. intros b _.
      rewrite accumulate_sum. lra.
    + apply Forall_forall. intros e He. apply Hentries in He.
      destruct He as (b & -> & ->). rewrite accumulate_sum.
      apply Money.round2_Proper. lra.
Qed.

End RoundedFields.

Section RoundedFieldsExamples.
Import AnalyticsService.
Open Scope Q_scope.

Lemma aggregates_rounded_at_response_fields_witness :
  exists r,
    compare_months Dates.int_of_digits Samples.eighth "2025-05" "2025-06" None
      = Ok r /\
    cm_total2 r == 12 # 100 /\ cm_difference r == 12 # 100.
Proof.
  eexists. split; [vm_compute; reflexivity|].
  destruct (aggregates_rounded_at_response_fields Dates.int_of_digits
              Iso.strftime Iso.days_between Samples.eighth) as [Hcompare _].
  destruct (Hcompare "2025-05"%string "2025-06"%string (@None string) _
              eq_refl) as (_ & b1 & b2 & Hb1 & Hb2 & _ & Ht2 & Hdiff).
  vm_compute in Hb1. vm_compute in Hb2.
  inversion Hb1; subst b1. inversion Hb2; subst b2.
  split; [rewrite Ht2|rewrite Hdiff]; vm_compute; reflexivity.
Defined.

End RoundedFieldsExamples.

(** ** Tax summary *)

Section TaxSummary.
Import ExpensesService AnalyticsService.
Open Scope Z_scope.








End TaxSummary.

(** ** Month comparison, both ways *)

Section CompareSwap.
Import ExpensesService AnalyticsService.
Open Scope Q_scope.

Variable py_int : string -> option Z.

Lemma floor_unique (x : Q) (n : Z) :
  inject_Z n <= x -> x < inject_Z n + 1 -> Qfloor x = n.
Proof.
  intros Hlo Hhi. pose proof (Money.floor_lt_iff Hlo) as H1.
  destruct (Money.floor_bounds x) as [H2 _].
  assert (H3 : inject_Z (Qfloor x) < inject_Z (n + 1)).
  { rewrite inject_Z_plus. change (inject_Z 1) with 1. lra. }
  rewrite <- Zlt_Qlt in H3. lia.
Qed.

Lemma even_opp_pred (f : Z) : Z.even (- f - 1) = negb (Z.even f).
Proof.
  replace (- f - 1)%Z with (- (Z.succ f))%Z by lia.
  rewrite Z.even_opp, Z.even_succ, <- Z.negb_even. reflexivity.
Qed.

(** Rounding half to even is symmetric about zero. *)
Lemma round_half_even_opp (x : Q) :
  Money.round_half_even (- x) = (- Money.round_half_even x)%Z.
Proof.
  destruct (Money.floor_bounds x) as [Hlo Hhi].
  destruct (Qeq_dec x (inject_Z (Qfloor x))) as [E|N].
  - rewrite (Money.round_half_even_comp (x := x) (y := inject_Z (Qfloor x)) E).
    rewrite (Money.round_half_even_comp (x := - x)
               (y := inject_Z (- Qfloor x))).
    + rewrite !Money.round_half_even_Z. reflexivity.
    + rewrite E at 1. rewrite inject_Z_opp. reflexivity.
  - assert (Hlt : inject_Z (Qfloor x) < x).
    { apply Qle_lteq in Hlo. destruct Hlo as [H|H]; [exact H|].
      exfalso. apply N. symmetry. exact H. }
    assert (Hinj : inject_Z (- Qfloor x - 1) == - inject_Z (Qfloor x) - 1).
    { unfold Qeq, Qminus, Qplus, Qopp, inject_Z. simpl. lia. }
    assert (Hf : Qfloor (- x) = (- Qfloor x - 1)%Z).
    { apply floor_unique; rewrite Hinj; lra. }
    unfold Money.round_half_even. rewrite Hf.
    destruct (Qcompare_spec (x - inject_Z (Qfloor x)) (1 # 2)) as [E1|L1|G1];
    destruct (Qcompare_spec (- x - inject_Z (- Qfloor x - 1)) (1 # 2))
      as [E2|L2|G2]; rewrite Hinj in *; try (exfalso; lra); try lia.
    rewrite even_opp_pred. destruct (Z.even (Qfloor x)); simpl; lia.
Qed.

Lemma round2_opp (x : Q) : Money.round2 (- x) == - Money.round2 x.
Proof.
  unfold Money.round2.
  rewrite (Money.round_half_even_comp (x := - x * 100) (y := - (x * 100)))
    by lra.
  rewrite round_half_even_opp. reflexivity.
Qed.

(** X18: when both month tokens resolve, comparing month1 with month2 and
    month2 with month1 both return; the second response has the totals
    exchanged and the opposite difference. Comparing a month with itself
    gives a difference of 0 and a percent_change of 0. *)
Theorem compare_months_swapped
  (ledger : Ledger) (month1 month2 : string) (category : option string)
  (b1 b2 : string * string) :
  Dates.month_start_end py_int month1 = Ok b1 ->
  Dates.month_start_end py_int month2 = Ok b2 ->
  exists forth back same,
    compare_months py_int ledger month1 month2 category = Ok forth /\
    compare_months py_int ledger month2 month1 category = Ok back /\
    compare_months py_int ledger month1 month1 category = Ok same /\
    cm_total1 back = cm_total2 forth /\
    cm_total2 back = cm_total1 forth /\
    cm_difference back == - cm_difference forth /\
    cm_difference same == 0 /\
    cm_percent_change same == 0.
Proof.
  intros E1 E2. unfold compare_months. rewrite E1, E2. cbn [bind].
  set (t1 := month_total ledger b1 category).
  set (t2 := month_total ledger b2 category).
  destruct (percent_of_spec (t2 - t1) t1) as (p12 & -> & _).
  destruct (percent_of_spec (t1 - t2) t2) as (p21 & -> & _).
  destruct (percent_of_spec (t1 - t1) t1) as (p11 & -> & Hpos & Hnon).
  cbn [bind]. do 3 eexists.
  split; [reflexivity|]. split; [reflexivity|]. split; [reflexivity|].
  cbn. split; [reflexivity|]. split; [reflexivity|]. split; [|split].
  - rewrite <- round2_opp. apply Money.round2_Proper. lra.
  - rewrite (Money.round2_Proper (x := t1 - t1) (y := 0)) by lra.
    reflexivity.
  - destruct (Qlt_le_dec 0 t1) as [H|H].
    + rewrite (Money.round2_Proper (x := p11) (y := 0)); [reflexivity|].
      rewrite (Hpos H). field. lra.
    + rewrite (Money.round2_Proper (x := p11) (y := 0)); [reflexivity|].
      apply Hnon, H.
Qed.

End CompareSwap.

Section CompareSwapExamples.
Import AnalyticsService.
Open Scope Q_scope.

Lemma compare_months_swapped_witness :
  exists forth back,
    compare_months Dates.int_of_digits Samples.june "2025-05" "2025-06" None
      = Ok forth /\
    compare_months Dates.int_of_digits Samples.june "2025-06" "2025-05" None
      = Ok back /\
    cm_difference back == - cm_difference forth.
Proof.
  destruct (@compare_months_swapped Dates.int_of_digits Samples.june
              "2025-05" "2025-06" None
              ("2025-05-01", "2025-05-31")%string
              ("2025-06-01", "2025-06-30")%string eq_refl eq_refl)
    as (f & b & _ & Hf & Hb & _ & _ & _ & Hd & _).
  exists f, b. repeat split; assumption.
Defined.

End CompareSwapExamples.

(** ** What a search returns *)

Section SearchResults.
Import ExpensesService Crud.
Open Scope Z_scope.

Lemma StronglySorted_app_inv {A : Type} (R : A -> A -> Prop) (l1 l2 : list A) :
  StronglySorted R (l1 ++ l2)%list -> StronglySorted R l1 /\ StronglySorted R l2.
Proof.
  induction l1 as [|a l1 IH]; simpl; intro H; [split; [constructor|exact H]|].
  inversion H as [|? ? Hs Hf]; subst. destruct (IH Hs) as [H1 H2].
  split; [|exact H2]. constructor; [exact H1|].
  apply Forall_app in Hf. apply Hf.
Qed.

Lemma limit_offset_sorted {A : Type} (R : A -> A -> Prop) (limit offset : Z)
  (l : list A) :
  StronglySorted R l -> StronglySorted R (Sql.limit_offset limit offset l).
Proof.
  intro H. unfold Sql.limit_offset.
  assert (Hskip : StronglySorted R (skipn (Z.to_nat offset) l)).
  { rewrite <- (firstn_skipn (Z.to_nat offset) l) in H.
    apply StronglySorted_app_inv in H. apply H. }
  destruct (limit <? 0); [exact Hskip|].
  rewrite <- (firstn_skipn (Z.to_nat limit) (skipn (Z.to_nat offset) l))
    in Hskip.
  apply StronglySorted_app_inv in Hskip. apply Hskip.
Qed.

(** X19: every row a search returns is a ledger row that satisfies all the
    given filters; the rows come newest first (date descending, then id
    descending); and with a negative limit and no offset the search returns
    all matching rows, each as often as it is in the ledger. *)
Theorem search_returns_matching_rows_newest_first
  (ledger : Ledger) (start_date end_date category : option string)
  (min_amount max_amount : option Q) (note_contains : option string)
  (tax_deductible : option Z) (limit offset : Z) :
  let found := results (search_expenses ledger start_date end_date category
                          min_amount max_amount note_contains tax_deductible
                          limit offset) in
  Forall (fun r =>
            In r ledger /\
            matches start_date end_date category min_amount max_amount
              note_contains tax_deductible r = true) found /\
  StronglySorted newer_or_same found /\
  (limit < 0 -> offset <= 0 ->
   Permutation
     (matching ledger start_date end_date category min_amount max_amount
        note_contains tax_deductible) found).
Proof.
  cbv zeta. split; [|split].
  - apply Forall_forall. intros r Hr. split.
    + unfold search_expenses in Hr. cbn [results] in Hr.
      apply limit_offset_incl, Sql.order_by_In in Hr.
      unfold Sql.where_ in Hr. apply filter_In in Hr. apply Hr.
    + pose proof (search_results_match ledger start_date end_date category
                    min_amount max_amount note_contains tax_deductible limit
                    offset) as H.
      rewrite Forall_forall in H. apply H, Hr.
  - unfold search_expenses. cbn [results]. apply limit_offset_sorted.
    rewrite <- (map_id (Sql.order_by _ _)).
    eapply (@StronglySorted_map_In _ _ (fun a b => newest_first a b = true)).
    + intros a b _ _ H. apply newest_first_spec, H.
    + apply Sql.order_by_sorted;
        [apply newest_first_total|apply newest_first_trans].
  - intros Hl Ho. unfold search_expenses. cbn [results].
    unfold Sql.limit_offset. destruct (Z.ltb_spec limit 0); [|lia].
    replace (Z.to_nat offset) with 0%nat by lia. cbn [skipn].
    rewrite where_search_conds. apply Sql.order_by_perm.
Qed.

Lemma search_returns_matching_rows_newest_first_witness :
  Permutation
    (matching Samples.june None None (Some "food"%string) None None None None)
    (results (search_expenses Samples.june None None (Some "food"%string) None
                None None None (-1) 0)).
Proof.
  apply (search_returns_matching_rows_newest_first Samples.june None None
           (Some "food"%string) None None None None (-1) 0); lia.
Defined.

End SearchResults.

(** ** The note filter *)

Section NoteFilter.
Import ExpensesService.
Open Scope string_scope.

(** No [%] and no [_] in the string. *)
Fixpoint no_wildcard (p : string) : bool :=
  match p with
  | EmptyString => true
  | String c p' =>
      negb (Ascii.eqb c "%") && negb (Ascii.eqb c "_") && no_wildcard p'
  end.

Lemma like_percent_step (q s : string) :
  Sql.like (String "%" q) s =
  Sql.like q s ||
  match s with
  | EmptyString => false
  | String _ s' => Sql.like (String "%" q) s'
  end.
Proof. destruct s; reflexivity. Qed.

Lemma like_percent_all (s : string) : Sql.like "%" s = true.
Proof.
  induction s as [|c s IH]; [reflexivity|].
  rewrite like_percent_step. rewrite IH. apply orb_true_r.
Qed.

Lemma like_prefix (p s : string) :
  no_wildcard p = true ->
  Sql.like (p ++ "%") s = prefix (Py.lower p) (Py.lower s).
Proof.
  revert s. induction p as [|c p IH]; intros s Hp.
  - cbn [append Py.lower]. rewrite like_percent_all. destruct s; reflexivity.
  - cbn [no_wildcard] in Hp. apply andb_prop in Hp. destruct Hp as [Hc Hp].
    apply andb_prop in Hc. destruct Hc as [Hc1 Hc2].
    apply negb_true_iff in Hc1. apply negb_true_iff in Hc2.
    cbn [append Sql.like]. rewrite Hc1.
    destruct s as [|d s]; [reflexivity|].
    rewrite Hc2. cbn [orb Py.lower prefix]. rewrite (IH s Hp).
    destruct (ascii_dec (Py.lower_ascii c) (Py.lower_ascii d)) as [E|N].
    + rewrite E, Ascii.eqb_refl. reflexivity.
    + apply Ascii.eqb_neq in N. rewrite N. reflexivity.
Qed.

Lemma like_contains (p s : string) :
  no_wildcard p = true ->
  Sql.like ("%" ++ p ++ "%") s = Py.str_in (Py.lower p) (Py.lower s).
Proof.
  intro Hp. change ("%" ++ p ++ "%") with (String "%" (p ++ "%")).
  induction s as [|d s IH]; rewrite like_percent_step, like_prefix by exact Hp.
  - reflexivity.
  - rewrite IH. reflexivity.
Qed.

(** X20: a search for a non-empty note_contains without [%] and [_]
    selects the rows whose note is not NULL and contains the text without
    regard to ASCII letter case (the [LIKE] of the query is not
    case-sensitive): every row returned is such a row, total_count counts
    exactly these rows, and without pagination all of them are
    returned. *)
Theorem note_filter_ignores_case (ledger : Ledger) (note_contains : string)
  (limit offset : Z) :
  note_contains <> "" -> no_wildcard note_contains = true ->
  let has_note := fun r =>
    match Row.note r with
    | Some note => Py.str_in (Py.lower note_contains) (Py.lower note)
    | None => false
    end in
  let r := search_expenses ledger None None None None None
             (Some note_contains) None limit offset in
  Forall (fun row => has_note row = true) (results r) /\
  total_count r = Z.of_nat (List.length (filter has_note ledger)) /\
  ((limit < 0)%Z -> (offset <= 0)%Z ->
   Permutation (results r) (filter has_note ledger)).
Proof.
  intros Hne Hw has_note r.
  assert (Hm : forall row,
    matches None None None None None (Some note_contains) None row
    = has_note row).
  { intro row. unfold matches, given_truthy, given, Py.truthy, has_note.
    destruct (String.eqb_spec note_contains ""); [contradiction|].
    cbn. rewrite andb_true_r. unfold null_false.
    destruct (Row.note row); [apply like_contains, Hw|reflexivity]. }
  assert (Hsel : matching ledger None None None None None
                    (Some note_contains) None = filter has_note ledger).
  { unfold matching. apply filter_ext. exact Hm. }
  split; [|split].
  - eapply Forall_impl; [|apply search_results_match].
    intros row H. rewrite <- Hm. exact H.
  - unfold r, search_expenses. cbn [total_count]. unfold Sql.count.
    rewrite where_search_conds, Hsel. reflexivity.
  - intros Hl Ho. unfold r, search_expenses. cbn [results].
    rewrite where_search_conds, Hsel. unfold Sql.limit_offset.
    apply Z.ltb_lt in Hl. rewrite Hl.
    replace (Z.to_nat offset) with 0%nat by lia. cbn [skipn].
    symmetry. apply Sql.order_by_perm.
Qed.

(** Four rows: two notes spell lunch in different letter cases, one note
    does not mention it, and one row has no note. *)
Definition lunches : Ledger :=
  [Row.mk 1 "2025-06-01" 12 "food" (Some "") (Some "Team LUNCH") (Some 0%Z)
     (Some "EUR") (Some "");
   Row.mk 2 "2025-06-02" 9 "food" (Some "") (Some "lunch with Ana")
     (Some 0%Z) (Some "EUR") (Some "");
   Row.mk 3 "2025-06-03" 40 "transport" (Some "") (Some "Taxi") (Some 0%Z)
     (Some "EUR") (Some "");
   Row.mk 4 "2025-06-04" 7 "food" (Some "") None (Some 0%Z) (Some "EUR")
     (Some "")].

Lemma note_filter_ignores_case_witness :
  let r := search_expenses lunches None None None None None (Some "Lunch")
             None 10 0 in
  total_count r = 2%Z /\
  map Row.id (results r) = [2%Z; 1%Z] /\
  Forall (fun row =>
            match Row.note row with
            | Some note => Py.str_in (Py.lower "Lunch") (Py.lower note)
            | None => false
            end = true) (results r).
Proof.
  pose proof (@note_filter_ignores_case lunches "Lunch" 10%Z 0%Z) as H.
  cbv zeta in H.
  destruct H as (Hall & Hcount & _); [discriminate|reflexivity|].
  cbv zeta. split; [rewrite Hcount; reflexivity|].
  split; [reflexivity|exact Hall].
Defined.

End NoteFilter.

(** ** Date range defaults ([utils/dates.py], [server._range]) *)

Module DateRange.

Section WithDatetime.
(** [datetime.strptime(s, "%Y-%m-%d")] as year, month, day; [None] stands
    for [ValueError]. *)
Variable strptime : string -> option (Z * Z * Z).
(** [dt.strftime("%Y-%m-%d")] *)
Variable strftime_ymd : Z * Z * Z -> string.
(** [datetime.now().strftime("%Y-%m-%d")] *)
Variable today : string.

Definition parse_ymd (s : string) : result (Z * Z * Z) :=
  match strptime s with
  | Some t => Ok t
  | None => Raise ValueError
  end.

(** Returns the [DateRange] as the pair (start_date, end_date). *)
Definition normalize_date_range (start_date end_date : option string)
  : result (string * string) :=
  let end_date := match end_date with
                  | None => today
                  | Some e => e
                  end in
  ' (y, m, _) <- parse_ymd end_date ;;
  start_date <- match start_date with
                | None => Ok (strftime_ymd (y, m, 1%Z))
                | Some s => _ <- parse_ymd s ;; Ok s
                end ;;
  Ok (start_date, end_date).

End WithDatetime.

End DateRange.

Section DateRangeFacts.
Import DateRange.

Variable strptime : string -> option (Z * Z * Z).
Variable strftime_ymd : Z * Z * Z -> string.
Variable today : string.

Let normalize := normalize_date_range strptime strftime_ymd today.

(** The end date in effect: the given one, or today. *)
Definition effective_end (today : string) (end_date : option string) : string :=
  match end_date with
  | None => today
  | Some e => e
  end.

(** X21: normalize_date_range raises ValueError exactly when the end date
    in effect (the given one, or today) or a given start date does not
    parse, and raises nothing else. When it returns, the end is the end in
    effect, a given start is returned unchanged (also when it lies after
    the end: no order is enforced) and a missing start is the first day of
    the end date's month; and normalizing the returned range again returns
    it unchanged, provided its start parses. *)
Theorem normalize_date_range_keeps_given_bounds
  (start_date end_date : option string) :
  (normalize start_date end_date = Raise ValueError <->
   strptime (effective_end today end_date) = None \/
   exists s, start_date = Some s /\ strptime s = None) /\
  (forall s e,
      normalize start_date end_date = Ok (s, e) ->
      e = effective_end today end_date /\
      (forall given, start_date = Some given -> s = given) /\
      (start_date = None ->
       exists y m d, strptime e = Some (y, m, d) /\
                     s = strftime_ymd (y, m, 1%Z)) /\
      (strptime s <> None -> normalize (Some s) (Some e) = Ok (s, e))) /\
  (forall e, normalize start_date end_date = Raise e -> e = ValueError).
Proof.
  unfold normalize, normalize_date_range, parse_ymd.
  fold (effective_end today end_date).
  destruct (strptime (effective_end today end_date)) as [[[y m] d]|] eqn:Ee;
    cbn [bind].
  - destruct start_date as [given|].
    + destruct (strptime given) as [t|] eqn:Es; cbn [bind].
      * split; [|split].
        -- split; [discriminate|].
           intros [H|(s & H & Hs)]; [discriminate|].
           inversion H; subst. congruence.
        -- intros s e H. inversion H; subst; clear H.
           split; [reflexivity|]. split; [intros g Hg; congruence|].
           split; [discriminate|]. intros _. cbn [effective_end].
           fold (effective_end today end_date). rewrite Ee. cbn [bind].
           rewrite Es. reflexivity.
        -- discriminate.
      * split; [|split].
        -- split; [|reflexivity]. intros _. right. eauto.
        -- discriminate.
        -- intros e H. inversion H. reflexivity.
    + split; [|split].
      * split; [discriminate|].
        intros [H|(s & H & _)]; discriminate.
      * intros s e H. inversion H; subst; clear H.
        split; [reflexivity|]. split; [discriminate|].
        split; [intros _; eauto|].
        intro Hs. cbn [effective_end].
        fold (effective_end today end_date). rewrite Ee. cbn [bind].
        destruct (strptime (strftime_ymd (y, m, 1%Z))); [reflexivity|].
        congruence.
      * discriminate.
  - split; [|split].
    + split; auto.
    + discriminate.
    + intros e H. inversion H. reflexivity.
Qed.

End DateRangeFacts.

Section DateRangeExamples.
Import DateRange.
Open Scope string_scope.

Lemma normalize_date_range_keeps_given_bounds_witness :
  normalize_date_range Iso.parse_ymd
    (fun t => iso_date (fst (fst t)) (snd (fst t)) (snd t)) "2025-06-15"
    (Some "2025-07-01") (Some "2025-06-30")
  = Ok ("2025-07-01", "2025-06-30").
Proof.
  destruct (normalize_date_range_keeps_given_bounds Iso.parse_ymd
              (fun t => iso_date (fst (fst t)) (snd (fst t)) (snd t))
              "2025-06-15" (Some "2025-07-01") (Some "2025-06-30"))
    as (_ & H & _).
  destruct (H "2025-07-01" "2025-06-30" eq_refl) as (_ & _ & _ & Hidem).
  apply Hidem. vm_compute. discriminate.
Defined.

End DateRangeExamples.

(** ** CSV import ([services/io_service.py])

    The loop of the CSV branch of [import_expenses], over the rows that
    [csv.DictReader] yields: a row maps the header names to the field texts,
    [None] for a field the line does not have (surplus fields, which the
    reader files under the key [None], are never read by the loop and are
    left out). Python's [str.strip], [str.lower] and [float] are
    parameters. *)

Module IoService.

Import Crud.

(** A call that returns a value or raises an exception with a message. *)
Inductive outcome (A : Type) : Type :=
| Returned (a : A)
| Raised (message : string).

Arguments Returned {A} a.
Arguments Raised {A} message.

(** A row as [csv.DictReader] yields it: the header names with the field
    texts in column order, [None] for a field the line is too short for.
    Surplus fields, which the reader collects under the key [None], are
    read by no lookup of the loop and are left out. Amounts are exact
    rationals, so a text that [float] reads as [inf] or [nan] is not
    covered. *)
Definition RawRow : Type := list (string * option string).

Record Fields : Type := mkFields {
  f_date : string;
  f_category : string;
  f_amount : Q;
  f_subcategory : string;
  f_note : string;
  f_tax_deductible : Z;
  f_currency : string;
  f_payment_method : string
}.

Section WithStr.
Variable strip : string -> string.
Variable lower : string -> string.
(** [float(s)]: the number, or the message of the [ValueError]. *)
Variable py_float : string -> outcome Q.

Open Scope string_scope.

(** [{str(k).strip().lower(): v for k, v in row.items()}]: a later key
    replaces an earlier equal one. *)
Definition normalize_row_keys (row : RawRow) : RawRow :=
  map (fun kv => (lower (strip (fst kv)), snd kv)) row.

(** [row.get(name)] on a dictionary built in insertion order *)
Definition get (row : RawRow) (name : string) : option string :=
  match find (fun kv => (fst kv =? name)) (rev row) with
  | Some kv => snd kv
  | None => None
  end.

(** [a or b] on optional strings *)
Definition py_or (a b : option string) : option string :=
  if Py.opt_truthy a then a else b.

(** [s.replace(",", ".")] *)
Fixpoint replace_comma (s : string) : string :=
  match s with
  | EmptyString => EmptyString
  | String c s' =>
      String (if Ascii.eqb c "," then "."%char else c) (replace_comma s')
  end.

Definition to_float (value : option string) : outcome Q :=
  match value with
  | None => Returned 0%Q
  | Some v =>
      let s := strip v in
      if Py.truthy s then py_float (replace_comma s) else Returned 0%Q
  end.

(** [_to_int_bool] on a field text; an absent or empty text reaches it as
    the integer 0. *)
Definition to_int_bool (value : option string) : Z :=
  match value with
  | None => 0%Z
  | Some v =>
      if Py.in_list (lower (strip v)) ["1"; "true"; "yes"; "y"; "t"]
      then 1%Z else 0%Z
  end.

(** The text of an optional string, [""] when absent. *)
Definition text (o : option string) : string :=
  match o with
  | Some s => s
  | None => ""
  end.

(** The field extraction at the head of the loop body. *)
Definition extract (raw : RawRow) : outcome Fields :=
  let row := normalize_row_keys raw in
  let date :=
    strip (text (py_or (get row "date")
                   (py_or (get row "transaction_date")
                      (py_or (get row "booking_date") (Some ""))))) in
  let category :=
    strip (text (py_or (get row "category")
                   (py_or (get row "cat") (Some "")))) in
  match to_float (py_or (get row "amount")
                    (py_or (get row "value") (get row "price"))) with
  | Raised message => Raised message
  | Returned amount =>
      let subcategory :=
        strip (text (py_or (get row "subcategory")
                       (py_or (get row "sub_category") (Some "")))) in
      let note :=
        strip (text (py_or (get row "note")
                       (py_or (get row "description") (Some "")))) in
      let tax_deductible :=
        to_int_bool
          (let v := py_or (get row "tax_deductible") (get row "tax") in
           if Py.opt_truthy v then v else None) in
      let currency :=
        let c := strip (text (py_or (get row "currency") (Some "EUR"))) in
        if Py.truthy c then c else "EUR" in
      let payment_method :=
        strip (text (py_or (get row "payment_method")
                       (py_or (get row "payment") (Some "")))) in
      Returned (mkFields date category amount subcategory note tax_deductible
                  currency payment_method)
  end.

Record ImportState : Type := mkImportState {
  store : Store;
  imported_count : Z;
  errors : list string
}.

(** [f"Row {i}: {text}"] *)
Definition row_error (i : Z) (message : string) : string :=
  "Row " ++ Py.str_int i ++ ": " ++ message.

(** The body of [for i, raw in enumerate(reader, start=1)]. *)
Definition import_row (i : Z) (raw : RawRow) (st : ImportState) : ImportState :=
  match extract raw with
  | Raised message =>
      mkImportState (store st) (imported_count st)
        (errors st ++ [row_error i message])%list
  | Returned f =>
      if negb (Py.truthy (f_date f)) || negb (Py.truthy (f_category f)) then
        mkImportState (store st) (imported_count st)
          (errors st
             ++ [row_error i "Missing required fields (date, category)"])%list
      else if Qeq_bool (f_amount f) 0 then
        mkImportState (store st) (imported_count st)
          (errors st ++ [row_error i "amount is 0 (skipped)."])%list
      else
        mkImportState
          (snd (add_expense (store st) (f_date f) (f_amount f) (f_category f)
                  (f_subcategory f) (f_note f) (f_tax_deductible f)
                  (f_currency f) (f_payment_method f)))
          (imported_count st + 1)%Z (errors st)
  end.

Fixpoint import_rows (i : Z) (reader : list RawRow) (st : ImportState)
  : ImportState :=
  match reader with
  | [] => st
  | raw :: rest => import_rows (i + 1)%Z rest (import_row i raw st)
  end.

(** The fields of the ok response that depend on the rows. *)
Record ImportResponse : Type := mkImportResponse {
  r_imported_count : Z;
  r_error_count : Z;
  r_errors : list string
}.

Definition import_csv (st : Store) (reader : list RawRow)
  : ImportResponse * Store :=
  let final := import_rows 1%Z reader (mkImportState st 0%Z []) in
  (mkImportResponse (imported_count final)
     (Z.of_nat (List.length (errors final)))
     (firstn 10 (errors final)),
   store final).

End WithStr.

End IoService.

Section CsvImport.
Import ExpensesService Crud IoService.
Open Scope Z_scope.

Variable strip : string -> string.
Variable lower : string -> string.
Variable py_float : string -> outcome Q.

(** What the loop guarantees of a row it inserts. *)
Definition well_formed_import (r : Row.t) : Prop :=
  Row.date r <> ""%string /\ Row.category r <> ""%string /\
  ~ (Row.amount r == 0)%Q /\
  (Row.tax_deductible r = Some 0 \/ Row.tax_deductible r = Some 1) /\
  exists c, Row.currency r = Some c /\ c <> ""%string.

Lemma truthy_nonempty (s : string) : Py.truthy s = true -> s <> ""%string.
Proof.
  unfold Py.truthy. destruct (String.eqb_spec s ""); [discriminate|auto].
Qed.

Lemma extract_fields (raw : RawRow) (f : Fields) :
  extract strip lower py_float raw = Returned f ->
  (f_tax_deductible f = 0 \/ f_tax_deductible f = 1) /\
  f_currency f <> ""%string.
Proof.
  unfold extract. destruct (to_float _ _ _) as [amount|m]; [|discriminate].
  intro H. inversion H; subst; clear H. cbn [f_tax_deductible f_currency].
  split.
  - unfold to_int_bool.
    destruct (if Py.opt_truthy _ then _ else None); [|auto].
    destruct (Py.in_list _ _); auto.
  - destruct (Py.truthy (strip _)) eqn:E; [|discriminate].
    apply truthy_nonempty, E.
Qed.

(** The rows a run of the loop appends, and what it counts. *)
Lemma import_rows_invariant (reader : list RawRow) :
  forall (i : Z) (s0 : ImportState),
    let s1 := import_rows strip lower py_float i reader s0 in
    exists new more,
      rows (store s1) = (rows (store s0) ++ new)%list /\
      errors s1 = (errors s0 ++ more)%list /\
      imported_count s1 = imported_count s0 + Z.of_nat (List.length new) /\
      Z.of_nat (List.length new) + Z.of_nat (List.length more)
        = Z.of_nat (List.length reader) /\
      Forall well_formed_import new /\
      Forall (fun r => next_id (store s0) <= Row.id r) new /\
      StronglySorted (fun a b => Row.id a < Row.id b) new.
Proof.
  induction reader as [|raw rest IH]; intros i s0; cbn [import_rows].
  - exists [], []. rewrite !app_nil_r. repeat split; try constructor.
    simpl. lia.
  - destruct (IH (i + 1) (import_row strip lower py_float i raw s0))
      as (new & more & Hrows & Herr & Hcount & Hlen & Hwf & Hids & Hsorted).
    cbv zeta. rewrite Hrows, Herr, Hcount. clear Hrows Herr Hcount.
    revert Hids. unfold import_row.
    destruct (extract strip lower py_float raw) as [f|message] eqn:Ex.
    + destruct (negb (Py.truthy (f_date f)) || negb (Py.truthy (f_category f)))
        eqn:Emiss.
      * cbn [store errors imported_count]. intro Hids.
        exists new, (row_error i "Missing required fields (date, category)"
                       :: more).
        rewrite <- app_assoc. cbn [app List.length].
        repeat split; try assumption; try reflexivity. lia.
      * destruct (Qeq_bool (f_amount f) 0) eqn:Ezero.
        -- cbn [store errors imported_count]. intro Hids.
           exists new, (row_error i "amount is 0 (skipped)." :: more).
           rewrite <- app_assoc. cbn [app List.length].
           repeat split; try assumption; try reflexivity. lia.
        -- unfold add_expense. cbn [snd store errors imported_count rows].
           intro Hids.
           set (row := Row.mk (next_id (store s0)) (f_date f) (f_amount f)
                         (f_category f) (Some (f_subcategory f))
                         (Some (f_note f)) (Some (f_tax_deductible f))
                         (Some (f_currency f)) (Some (f_payment_method f)))
             in *.
           exists (row :: new), more.
           rewrite <- app_assoc. cbn [app List.length].
           apply orb_false_iff in Emiss. destruct Emiss as [Ed Ec].
           apply negb_false_iff in Ed. apply negb_false_iff in Ec.
           destruct (extract_fields _ Ex) as [Htax Hcur].
           assert (Hnext : forall r, In r new -> Row.id row < Row.id r).
           { intros r Hr. rewrite Forall_forall in Hids.
             specialize (Hids r Hr). unfold next_id in Hids.
             cbn [seq rows] in Hids. unfold row. cbn [Row.id].
             unfold next_id. lia. }
           split; [reflexivity|]. split; [reflexivity|].
           split; [lia|]. split; [lia|]. split; [|split].
           ++ constructor; [|exact Hwf]. unfold well_formed_import.
              cbn [row Row.date Row.category Row.amount Row.tax_deductible
                   Row.currency].
              split; [apply truthy_nonempty, Ed|].
              split; [apply truthy_nonempty, Ec|].
              split; [apply Qeq_bool_neq, Ezero|].
              split; [destruct Htax as [-> | ->]; auto|].
              exists (f_currency f). auto.
           ++ constructor; [cbn [row Row.id]; lia|].
              apply Forall_forall. intros r Hr. specialize (Hnext r Hr).
              cbn [row Row.id] in Hnext. lia.
           ++ constructor; [exact Hsorted|].
              apply Forall_forall. exact Hnext.
    + cbn [store errors imported_count]. intro Hids.
      exists new, (row_error i message :: more).
      rewrite <- app_assoc. cbn [app List.length].
      repeat split; try assumption; try reflexivity. lia.
Qed.

(** X22: the CSV import accounts for every row the reader yields:
    imported_count + error_count is the number of rows, whatever the field
    texts are. The rows already stored are kept, and exactly imported_count
    rows are appended, each with a non-empty date and category, a non-zero
    amount, a tax flag of 0 or 1 and a non-empty currency, under ids that
    increase and exceed every id used before. The response lists at most
    the first ten error messages, while error_count counts them all. *)
Theorem import_csv_accounts_for_every_row (st : Store) (reader : list RawRow) :
  let out := import_csv strip lower py_float st reader in
  let r := fst out in
  r_imported_count r + r_error_count r = Z.of_nat (List.length reader) /\
  0 <= r_imported_count r /\
  Z.of_nat (List.length (r_errors r)) = Z.min 10 (r_error_count r) /\
  exists new,
    rows (snd out) = (rows st ++ new)%list /\
    Z.of_nat (List.length new) = r_imported_count r /\
    Forall well_formed_import new /\
    Forall (fun row => seq st < Row.id row /\
                       Forall (fun old => Row.id old < Row.id row) (rows st))
      new /\
    StronglySorted (fun a b => Row.id a < Row.id b) new.
Proof.
  cbv zeta. unfold import_csv. cbn [fst snd r_imported_count r_error_count
    r_errors].
  destruct (import_rows_invariant reader 1 (mkImportState st 0 []))
    as (new & more & Hrows & Herr & Hcount & Hlen & Hwf & Hids & Hsorted).
  cbv zeta in *. cbn [store errors imported_count app] in *.
  rewrite Herr, Hcount. split; [lia|]. split; [lia|].
  split; [rewrite length_firstn; lia|].
  exists new. split; [exact Hrows|]. split; [lia|]. split; [exact Hwf|].
  split; [|exact Hsorted].
  eapply Forall_impl; [|exact Hids]. cbv beta. intros row Hrow.
  unfold next_id in Hrow. split; [lia|].
  apply Forall_forall. intros old Hold. apply max_id_ge in Hold. lia.
Qed.

End CsvImport.
